(** * Persistent USB creator: a shallow embedding of [persitent_usb.py]

    The script drives external tools (parted, mkfs, mount, umount, rsync,
    grub-install, ...) through [subprocess].  The embedding keeps the
    script's control flow and its command strings, and replaces the
    operating system by an abstract host: every theorem below is stated
    for an arbitrary host, so it covers every way the external tools may
    answer (success, non-zero exit, timeout, launch failure). *)

From Stdlib Require Import ZArith NArith List String Ascii Bool Lia.
From Stdlib Require Import DecimalString.
Import ListNotations.

Local Open Scope string_scope.
Local Open Scope Z_scope.

(** ** Python text operations

    A Python [str] is modelled as a [string] whose characters are the code
    points U+0000..U+00FF.  Message literals of the script that contain
    characters beyond that range are kept as their UTF-8 bytes; they are
    only ever printed, never inspected. *)

Module Text.

(** The newline character, written ["\n"] in the script. *)
Definition nl : string := String "010"%char EmptyString.

(** [str.isspace] on one character (code points below 256). *)
Definition is_space (c : ascii) : bool :=
  let n := N_of_ascii c in
  (((9 <=? n) && (n <=? 13)) || ((28 <=? n) && (n <=? 32))
   || (n =? 133) || (n =? 160))%N.

Fixpoint lstrip (s : string) : string :=
  match s with
  | EmptyString => EmptyString
  | String c s' => if is_space c then lstrip s' else s
  end.

Fixpoint rstrip (s : string) : string :=
  match s with
  | EmptyString => EmptyString
  | String c s' =>
      match rstrip s' with
      | EmptyString => if is_space c then EmptyString else String c EmptyString
      | r => String c r
      end
  end.

(** [s.strip()] *)
Definition strip (s : string) : string := rstrip (lstrip s).

(** [s.split(sep)] for a one-character separator: empty fields are kept. *)
Fixpoint split_on (sep : ascii) (s : string) : list string :=
  match s with
  | EmptyString => [EmptyString]
  | String c s' =>
      if Ascii.eqb c sep then EmptyString :: split_on sep s'
      else match split_on sep s' with
           | w :: ws => String c w :: ws
           | [] => [String c EmptyString]
           end
  end.

(** [s.split()]: fields are maximal runs of non-whitespace characters. *)
Fixpoint split_ws (s : string) : list string :=
  match s with
  | EmptyString => []
  | String c s' =>
      if is_space c then split_ws s'
      else match s' with
           | EmptyString => [String c EmptyString]
           | String c' _ =>
               if is_space c' then String c EmptyString :: split_ws s'
               else match split_ws s' with
                    | w :: ws => String c w :: ws
                    | [] => [String c EmptyString]
                    end
           end
  end.

(** [sep.join(l)] *)
Fixpoint join (sep : string) (l : list string) : string :=
  match l with
  | [] => EmptyString
  | [x] => x
  | x :: l' => x ++ sep ++ join sep l'
  end.

(** [s.startswith(pre)] *)
Definition startswith (pre s : string) : bool := String.prefix pre s.

(** [sub in s] *)
Definition contains (sub s : string) : bool :=
  match String.index 0 sub s with Some _ => true | None => false end.

(** [s.replace(old, new)] for a non-empty [old]: occurrences are replaced
    left to right, without overlap. *)
Fixpoint replace_from (old new : string) (skip : nat) (s : string) : string :=
  match s with
  | EmptyString => EmptyString
  | String c s' =>
      match skip with
      | S k => replace_from old new k s'
      | O =>
          if String.prefix old s
          then new ++ replace_from old new (Nat.pred (String.length old)) s'
          else String c (replace_from old new 0 s')
      end
  end.

Definition replace (old new s : string) : string := replace_from old new 0 s.

(** [os.path.basename(p)]: what follows the last slash. *)
Definition basename (p : string) : string :=
  last (split_on "/"%char p) EmptyString.

(** [f"{n}"] for an integer. *)
Definition dec (n : Z) : string := NilZero.string_of_int (Z.to_int n).

(** [int(s)] on a stripped string: an optional sign and decimal digits
    ([None] stands for [ValueError]). *)
Definition int_of_string (s : string) : option Z :=
  match s with
  | EmptyString => None
  | String "+"%char EmptyString => None
  | String "-"%char EmptyString => None
  | _ => option_map Z.of_int (NilZero.int_of_string s)
  end.

Definition nonempty (s : string) : bool :=
  match s with EmptyString => false | _ => true end.

End Text.

Import Text.

(** ** Values, exceptions and the host *)

(** What [run_cmd] can return: a string (captured output), [True]/[False],
    or [None]. *)
Inductive pyval : Type :=
| VStr (s : string)
| VBool (b : bool)
| VNone.

(** Python truthiness, as used by [if result:] and [if not run_cmd(...)]. *)
Definition truthy (v : pyval) : bool :=
  match v with
  | VStr s => nonempty s
  | VBool b => b
  | VNone => false
  end.

(** A command line: [shell=True] with one string, or an argument vector. *)
Inductive command : Type :=
| Shell (line : string)
| Argv (args : list string).

(** How a child process ends, as [subprocess] sees it. *)
Inductive proc_result : Type :=
| Exited (code : Z) (out err : string)
| TimedOut
| OSFailure (msg : string).

(** The exceptions of the script.  The first three are subclasses of
    [Exception]; [SystemExit] and [KeyboardInterrupt] are not. *)
Inductive exn : Type :=
| TimeoutExpired (cmd : command) (seconds : option Z)
| CalledProcessError (cmd : command) (code : Z) (stderr : string)
| OtherError (msg : string)
| SystemExit (code : Z)
| KeyboardInterrupt.

Definition is_Exception (e : exn) : bool :=
  match e with
  | TimeoutExpired _ _ | CalledProcessError _ _ _ | OtherError _ => true
  | SystemExit _ | KeyboardInterrupt => false
  end.

Definition command_text (c : command) : string :=
  match c with
  | Shell s => s
  | Argv l => "[" ++ join ", " (map (fun a => "'" ++ a ++ "'") l) ++ "]"
  end.

(** [str(e)] *)
Definition str_of_exn (e : exn) : string :=
  match e with
  | TimeoutExpired c t =>
      "Command '" ++ command_text c ++ "' timed out after "
      ++ match t with Some s => dec s | None => "None" end ++ " seconds"
  | CalledProcessError c code _ =>
      "Command '" ++ command_text c ++ "' returned non-zero exit status "
      ++ dec code ++ "."
  | OtherError msg => msg
  | SystemExit code => dec code
  | KeyboardInterrupt => ""
  end.

Record stat_result : Type := { st_mode : Z; st_size : Z }.

(** [stat.S_IFMT] and the file-type tests of the [stat] module. *)
Definition S_IFMT (mode : Z) : Z := Z.land mode 61440.    (* 0o170000 *)
Definition S_ISBLK (mode : Z) : bool := S_IFMT mode =? 24576.  (* 0o060000 *)
Definition S_ISREG (mode : Z) : bool := S_IFMT mode =? 32768.  (* 0o100000 *)
Definition S_ISCHR (mode : Z) : bool := S_IFMT mode =? 8192.   (* 0o020000 *)
Definition S_ISDIR (mode : Z) : bool := S_IFMT mode =? 16384.  (* 0o040000 *)

(** The operating system as the script uses it.  Every operation may change
    the host state: other processes run between two calls of the script.
    [host_spawn c t w] launches [c] with timeout [t] (seconds) and waits;
    [host_stat] is [os.stat] ([None]: the call fails); the file operations
    return [Some msg] when they raise. *)
Class Host (W : Type) : Type := {
  host_spawn : command -> option Z -> W -> proc_result * W;
  host_stat : string -> W -> option stat_result * W;
  host_geteuid : W -> Z * W;
  host_which : string -> W -> bool * W;
  host_sleep : Z -> W -> W;
  host_input : W -> option string * W;
  host_makedirs : string -> W -> option string * W;
  host_chmod : string -> Z -> W -> option string * W;
  host_write : string -> string -> W -> option string * W;
  host_read : string -> W -> (string + string) * W
}.

(** What a run leaves behind, in order.  [EvMounted] is an observation
    only: it records the answer [is_mounted] gave and touches nothing. *)
Inductive event : Type :=
| EvPrint (text : string)
| EvPrompt (text : string)
| EvSpawn (cmd : command) (timeout : option Z) (res : proc_result)
| EvSleep (millis : Z)
| EvMounted (path : string) (answer : bool)
| EvMakedirs (path : string)
| EvChmod (path : string) (mode : Z)
| EvWrite (path : string) (content : string)
| EvInput (line : option string).

(** ** The monad: host state, a trace of events, and exceptions *)

Inductive outcome (A : Type) : Type :=
| Ok (a : A)
| Raise (e : exn).
Arguments Ok {A} a.
Arguments Raise {A} e.

Definition M (W A : Type) : Type := W -> outcome A * list event * W.

Definition ret {W A} (a : A) : M W A := fun w => (Ok a, [], w).

Definition raise {W A} (e : exn) : M W A := fun w => (Raise e, [], w).

Definition bind {W A B} (m : M W A) (f : A -> M W B) : M W B :=
  fun w =>
    match m w with
    | (Ok a, t1, w1) =>
        match f a w1 with (r, t2, w2) => (r, (t1 ++ t2)%list, w2) end
    | (Raise e, t1, w1) => (Raise e, t1, w1)
    end.

(** [try: m  except <handled>: h e]; an exception that [handled] rejects
    propagates. *)
Definition try_except {W A} (m : M W A) (handled : exn -> bool)
    (h : exn -> M W A) : M W A :=
  fun w =>
    match m w with
    | (Ok a, t1, w1) => (Ok a, t1, w1)
    | (Raise e, t1, w1) =>
        if handled e
        then match h e w1 with (r, t2, w2) => (r, (t1 ++ t2)%list, w2) end
        else (Raise e, t1, w1)
    end.

(** A bare [except:] catches everything. *)
Definition any_exn (_ : exn) : bool := true.

Declare Scope py_scope.
Delimit Scope py_scope with py.
Notation "x <- m ;; k" := (bind m (fun x => k))
  (at level 61, m at next level, right associativity) : py_scope.
Notation "m ;; k" := (bind m (fun _ => k))
  (at level 61, right associativity) : py_scope.
Local Open Scope py_scope.

Definition emit {W} (e : event) : M W unit := fun w => (Ok tt, [e], w).

Definition print {W} (s : string) : M W unit := emit (EvPrint s).

Definition when {W} (b : bool) (m : M W unit) : M W unit :=
  if b then m else ret tt.

Fixpoint for_each {W A} (l : list A) (body : A -> M W unit) : M W unit :=
  match l with
  | [] => ret tt
  | x :: l' => body x ;; for_each l' body
  end.

(** The commands launched along a trace, in order. *)
Fixpoint spawned (t : list event) : list command :=
  match t with
  | [] => []
  | EvSpawn c _ _ :: t' => c :: spawned t'
  | _ :: t' => spawned t'
  end.

(** The answers [is_mounted] gave along a trace, in order. *)
Fixpoint mount_answers (t : list event) : list bool :=
  match t with
  | [] => []
  | EvMounted _ b :: t' => b :: mount_answers t'
  | _ :: t' => mount_answers t'
  end.

(** The lines printed along a trace. *)
Fixpoint printed (t : list event) : list string :=
  match t with
  | [] => []
  | EvPrint s :: t' => s :: printed t'
  | _ :: t' => printed t'
  end.

Definition command_eqb (a b : command) : bool :=
  match a, b with
  | Shell x, Shell y => String.eqb x y
  | Argv x, Argv y => if list_eq_dec string_dec x y then true else false
  | _, _ => false
  end.

(** ** The script *)

(** Mount points *)
Definition ISO_MOUNT : string := "/mnt/iso_temp".
Definition USB_BOOT : string := "/mnt/usb_boot".
Definition USB_PERSIST : string := "/mnt/usb_persist".
Definition ESP_MOUNT : string := "/mnt/esp_temp".

(** Partition sizes *)
Definition BOOT_SIZE_GB : Z := 4.
Definition ESP_SIZE_MB : Z := 512.

(** Timeout for operations *)
Definition MOUNT_TIMEOUT : Z := 10.
Definition SYNC_TIMEOUT : Z := 30.

(** [range(n)] *)
Definition range (n : Z) : list Z := map Z.of_nat (seq 0 (Z.to_nat n)).

Record completed : Type :=
  { returncode : Z; stdout : string; stderr : string }.

Section Script.

Context {W : Type} {host : Host W}.

Definition spawn (c : command) (timeout : option Z) : M W proc_result :=
  fun w =>
    match host_spawn c timeout w with
    | (r, w') => (Ok r, [EvSpawn c timeout r], w')
    end.

(** [subprocess.run(c, check=check, timeout=timeout)] *)
Definition subprocess_run (c : command) (check : bool) (timeout : option Z)
    : M W completed :=
  r <- spawn c timeout ;;
  match r with
  | Exited code out err =>
      if check && negb (code =? 0)
      then raise (CalledProcessError c code err)
      else ret {| returncode := code; stdout := out; stderr := err |}
  | TimedOut => raise (TimeoutExpired c timeout)
  | OSFailure msg => raise (OtherError msg)
  end.

(** [subprocess.check_output(c, timeout=timeout)] *)
Definition check_output (c : command) (timeout : option Z) : M W string :=
  r <- subprocess_run c true timeout ;;
  ret (stdout r).

Definition sleep (millis : Z) : M W unit :=
  fun w => (Ok tt, [EvSleep millis], host_sleep millis w).

Definition os_stat (path : string) : M W (option stat_result) :=
  fun w => match host_stat path w with (r, w') => (Ok r, [], w') end.

(** [os.path.exists]: a failing [stat] means the path does not exist. *)
Definition os_path_exists (path : string) : M W bool :=
  r <- os_stat path ;;
  ret (match r with Some _ => true | None => false end).

(** [os.path.isfile] *)
Definition os_path_isfile (path : string) : M W bool :=
  r <- os_stat path ;;
  ret (match r with Some st => S_ISREG (st_mode st) | None => false end).

(** [os.path.getsize] *)
Definition os_path_getsize (path : string) : M W Z :=
  r <- os_stat path ;;
  match r with
  | Some st => ret (st_size st)
  | None => raise (OtherError ("[Errno 2] No such file or directory: '" ++ path ++ "'"))
  end.

(** [a and b] on two tests, the second one skipped when the first fails. *)
Definition and_then (a b : M W bool) : M W bool :=
  x <- a ;; if x then b else ret false.

(** *** Process runner *)

(** [run_cmd(cmd, check, capture, ignore_error, timeout=timeout)].  The
    script never passes [shell], so the command always goes to the shell. *)
Definition run_cmd (cmd : string) (check capture ignore_error : bool)
    (timeout : option Z) : M W pyval :=
  print (">> " ++ cmd) ;;
  try_except
    (if capture then
       result <- check_output (Shell cmd) timeout ;;
       ret (VStr (strip result))
     else
       result <- subprocess_run (Shell cmd) check timeout ;;
       when (nonempty (stdout result)) (print (stdout result)) ;;
       when (nonempty (stderr result) && negb ignore_error)
            (print (stderr result)) ;;
       ret (VBool true))
    is_Exception
    (fun e =>
       match e with
       | TimeoutExpired _ _ =>
           print ("⚠️  Command timed out: " ++ cmd) ;;
           ret (if ignore_error then VNone else VBool false)
       | CalledProcessError _ _ err =>
           if ignore_error then
             print ("⚠️  Ignored error: " ++ cmd) ;;
             when (nonempty err) (print ("   Details: " ++ err)) ;;
             ret VNone
           else
             print ("❌ Command failed: " ++ cmd) ;;
             print ("💡 Error: " ++ (if nonempty err then err else str_of_exn e)) ;;
             ret (VBool false)
       | _ =>
           print ("❌ Unexpected error: " ++ str_of_exn e) ;;
           ret (VBool false)
       end).

(** *** Mount manager *)

Definition mountpoint_query (path : string) : command :=
  Argv ["mountpoint"; "-q"; path].

Definition mount_grep_query (path : string) : command :=
  Shell ("mount | grep -q ' " ++ path ++ " '").

Definition is_mounted (path : string) : M W bool :=
  b <- try_except
         (result <- subprocess_run (mountpoint_query path) false (Some 5) ;;
          ret (returncode result =? 0))
         any_exn
         (fun _ =>
            try_except
              (result <- subprocess_run (mount_grep_query path) false (Some 5) ;;
               ret (returncode result =? 0))
              any_exn
              (fun _ => ret false)) ;;
  emit (EvMounted path b) ;;
  ret b.

Definition fuser_cmd (path : string) : string :=
  "fuser -km " ++ path ++ " 2>/dev/null".

Definition umount_cmd (path : string) : string :=
  "umount " ++ path ++ " 2>/dev/null".

Definition umount_lazy_cmd (path : string) : string :=
  "umount -l " ++ path ++ " 2>/dev/null".

(** The body of [for attempt in range(max_attempts)], followed by the final
    check once the attempts are used up. *)
Fixpoint force_unmount_attempts (path : string) (max_attempts : Z)
    (attempts : list Z) : M W bool :=
  match attempts with
  | [] =>
      m <- is_mounted path ;;
      if negb m then ret true
      else
        print ("⚠️  Warning: Could not fully unmount " ++ path) ;;
        ret false
  | attempt :: rest =>
      m <- is_mounted path ;;
      if negb m then ret true
      else
        print ("   Unmounting " ++ path ++ " (attempt " ++ dec (attempt + 1)
               ++ "/" ++ dec max_attempts ++ ")") ;;
        when (attempt >? 0)
          (run_cmd (fuser_cmd path) false false true (Some 5) ;;
           sleep 500) ;;
        result <- run_cmd (umount_cmd path) false false true (Some 10) ;;
        sleep 500 ;;
        m <- is_mounted path ;;
        if negb m then
          print ("   ✓ Unmounted " ++ path) ;;
          ret true
        else
          when (attempt =? max_attempts - 1)
            (print ("   Using lazy unmount for " ++ path) ;;
             run_cmd (umount_lazy_cmd path) false false true (Some 5) ;;
             sleep 1000) ;;
          force_unmount_attempts path max_attempts rest
  end.

Definition force_unmount (path : string) (max_attempts : Z) : M W bool :=
  e <- os_path_exists path ;;
  if negb e then ret true
  else force_unmount_attempts path max_attempts (range max_attempts).

Definition all_mounts : list string :=
  [ISO_MOUNT; USB_BOOT; USB_PERSIST; ESP_MOUNT;
   "/mnt/iso"; "/mnt/usb"; "/mnt/esp"].

Definition lsblk_names_cmd (device : string) : string :=
  "lsblk -ln -o NAME " ++ device ++ " 2>/dev/null | tail -n +2".

Definition unmount_all (device : string) : M W unit :=
  print (nl ++ "🔍 Unmounting all partitions on " ++ device ++ "..." ++ nl) ;;
  for_each all_mounts (fun mount =>
    e <- os_path_exists mount ;;
    when e (run_cmd (fuser_cmd mount) false false true (Some 5) ;; ret tt)) ;;
  sleep 1000 ;;
  for_each all_mounts (fun mount_point =>
    e <- os_path_exists mount_point ;;
    when e (force_unmount mount_point 3 ;; ret tt)) ;;
  try_except
    (partitions <- run_cmd (lsblk_names_cmd device) true true true (Some 10) ;;
     match partitions with
     | VStr s =>
         when (nonempty s)
           (for_each (split_on "010"%char s) (fun part =>
              when (nonempty (strip part))
                (run_cmd (umount_lazy_cmd ("/dev/" ++ strip part))
                         false false true (Some 5) ;;
                 ret tt)))
     | VBool true => raise (OtherError "'bool' object has no attribute 'split'")
     | _ => ret tt
     end)
    any_exn
    (fun _ => ret tt) ;;
  run_cmd ("umount -l " ++ device ++ "* 2>/dev/null") false false true (Some 5) ;;
  print ("✓ Unmount complete" ++ nl) ;;
  sleep 1000.

Definition os_makedirs (path : string) : M W unit :=
  fun w =>
    match host_makedirs path w with
    | (None, w') => (Ok tt, [EvMakedirs path], w')
    | (Some msg, w') => (Raise (OtherError msg), [EvMakedirs path], w')
    end.

Definition os_chmod (path : string) (mode : Z) : M W unit :=
  fun w =>
    match host_chmod path mode w with
    | (None, w') => (Ok tt, [EvChmod path mode], w')
    | (Some msg, w') => (Raise (OtherError msg), [EvChmod path mode], w')
    end.

Definition prepare_mount_points : M W unit :=
  for_each [ISO_MOUNT; USB_BOOT; USB_PERSIST; ESP_MOUNT] (fun path =>
    try_except
      (os_makedirs path ;; os_chmod path 493)        (* 0o755 *)
      is_Exception
      (fun e => print ("⚠️  Could not create " ++ path ++ ": " ++ str_of_exn e))).

(** *** Partition planner *)

Definition get_partition_names (device : string) : string * string * string :=
  let base_name := basename device in
  if existsb (fun pre => startswith pre base_name) ["mmcblk"; "nvme"; "loop"]
  then (device ++ "p1", device ++ "p2", device ++ "p3")
  else (device ++ "1", device ++ "2", device ++ "3").

Fixpoint wait_for_partitions_loop (device part1 part2 part3 : string)
    (steps : list Z) : M W bool :=
  match steps with
  | [] =>
      print "⚠️  Partition detection timeout, continuing anyway..." ;;
      and_then (os_path_exists part1) (os_path_exists part2)
  | i :: rest =>
      found <- and_then (os_path_exists part1)
                 (and_then (os_path_exists part2) (os_path_exists part3)) ;;
      if found then
        print ("✅ Partitions detected: " ++ part1 ++ ", " ++ part2 ++ ", " ++ part3) ;;
        sleep 2000 ;;
        ret true
      else
        sleep 1000 ;;
        when (i mod 3 =? 0)
          (run_cmd ("partprobe " ++ device ++ " 2>/dev/null")
                   true false true (Some 5) ;;
           ret tt) ;;
        wait_for_partitions_loop device part1 part2 part3 rest
  end.

Definition wait_for_partitions (device : string) (timeout : Z) : M W bool :=
  print "⏳ Waiting for kernel to recognize new partitions..." ;;
  run_cmd ("partprobe " ++ device ++ " 2>/dev/null") true false true (Some 10) ;;
  run_cmd ("blockdev --rereadpt " ++ device ++ " 2>/dev/null")
          true false true (Some 10) ;;
  match get_partition_names device with
  | (part1, part2, part3) =>
      wait_for_partitions_loop device part1 part2 part3 (range timeout)
  end.

Definition boot_end : Z := ESP_SIZE_MB + (BOOT_SIZE_GB * 1024).

Definition create_partitions (device : string) : M W unit :=
  print (nl ++ "💽 Creating partition layout on " ++ device ++ "..." ++ nl) ;;
  print "🧹 Wiping existing partition signatures..." ;;
  run_cmd ("wipefs -af " ++ device ++ " 2>/dev/null") true false true (Some 15) ;;
  run_cmd ("dd if=/dev/zero of=" ++ device
           ++ " bs=1M count=10 conv=notrunc 2>/dev/null")
          true false true (Some 15) ;;
  sleep 2000 ;;
  print "📝 Creating GPT partition table..." ;;
  run_cmd ("parted -s " ++ device ++ " mklabel gpt") true false false (Some 20) ;;
  print "📝 Creating EFI System Partition (512MB)..." ;;
  run_cmd ("parted -s -a optimal " ++ device ++ " mkpart primary fat32 1MiB "
           ++ dec ESP_SIZE_MB ++ "MiB") true false false (Some 20) ;;
  run_cmd ("parted -s " ++ device ++ " set 1 esp on") true false false (Some 10) ;;
  print ("📝 Creating boot partition (" ++ dec BOOT_SIZE_GB ++ "GB FAT32)...") ;;
  run_cmd ("parted -s -a optimal " ++ device ++ " mkpart primary fat32 "
           ++ dec ESP_SIZE_MB ++ "MiB " ++ dec boot_end ++ "MiB")
          true false false (Some 20) ;;
  run_cmd ("parted -s " ++ device ++ " set 2 boot on") true false false (Some 10) ;;
  print "📝 Creating Btrfs persistence partition (remaining space)..." ;;
  run_cmd ("parted -s -a optimal " ++ device ++ " mkpart primary btrfs "
           ++ dec boot_end ++ "MiB 100%") true false false (Some 20) ;;
  ready <- wait_for_partitions device 15 ;;
  when (negb ready) (print "⚠️  Warning: Partitions may not be ready") ;;
  match get_partition_names device with
  | (part1, part2, part3) =>
      print (nl ++ "💾 Formatting partitions...") ;;
      print ("   Formatting " ++ part1 ++ " as FAT32 (ESP)...") ;;
      run_cmd ("umount " ++ part1 ++ " 2>/dev/null") false false true (Some 5) ;;
      sleep 1000 ;;
      run_cmd ("mkfs.vfat -F 32 -n EFI " ++ part1) true false false (Some 30) ;;
      print ("   Formatting " ++ part2 ++ " as FAT32 (BOOT)...") ;;
      run_cmd ("umount " ++ part2 ++ " 2>/dev/null") false false true (Some 5) ;;
      sleep 1000 ;;
      run_cmd ("mkfs.vfat -F 32 -n BOOT " ++ part2) true false false (Some 30) ;;
      print ("   Formatting " ++ part3 ++ " as Btrfs (PERSISTENCE)...") ;;
      run_cmd ("umount " ++ part3 ++ " 2>/dev/null") false false true (Some 5) ;;
      sleep 1000 ;;
      run_cmd ("mkfs.btrfs -f -L persistence -m single -d single " ++ part3)
              true false false (Some 60) ;;
      print ("✅ Partitioning complete!" ++ nl) ;;
      sleep 2000
  end.

End Script.

(** [f"{num/den:.Nf}"], computed on integers (the script divides floats;
    the text is only printed). *)
Definition fmt_fixed (digits : nat) (num den : Z) : string :=
  let scale := 10 ^ Z.of_nat digits in
  let scaled := (2 * num * scale + den) / (2 * den) in
  let frac := dec (scaled mod scale) in
  dec (scaled / scale) ++ "."
  ++ String.concat "" (repeat "0" (digits - String.length frac)) ++ frac.

Definition dquote : string := String "034"%char EmptyString.

Definition readme_text : string :=
  join nl
    [ "";
      "═══════════════════════════════════════════════════════════";
      "  BTRFS PERSISTENT USB - PORTABLE LINUX SYSTEM";
      "═══════════════════════════════════════════════════════════";
      "";
      "🎯 WHAT IS THIS?";
      "This USB contains a fully persistent Debian/Ubuntu system";
      "that saves all changes, files, and settings automatically.";
      "";
      "🚀 HOW TO USE:";
      "1. Boot from this USB on any computer (UEFI or BIOS)";
      "2. Select " ++ dquote ++ "Live with Persistence" ++ dquote ++ " from boot menu";
      "3. Use normally - all changes are saved automatically";
      "4. Shut down and take USB with you";
      "5. Boot on another computer - your session continues!";
      "";
      "💾 PARTITION LAYOUT:";
      "- Partition 1: EFI System (512MB) - UEFI boot";
      "- Partition 2: Boot (4GB FAT32) - OS files + BIOS boot  ";
      "- Partition 3: Persistence (rest) - Btrfs with snapshots";
      "";
      "🌳 BTRFS FEATURES:";
      "- Automatic compression (zstd) for space saving";
      "- Snapshot capability for backups";
      "- Better data integrity";
      "";
      "📁 YOUR DATA:";
      "All changes persist across reboots:";
      "- Installed packages";
      "- User files and documents";
      "- System settings";
      "- Everything!";
      "";
      "💡 TIPS:";
      "- First boot may take longer (system initialization)";
      "- Install software normally with apt-get";
      "- Create snapshots before major changes";
      "";
      "⚠️  SAFETY:";
      "- Don't remove USB while system is running";
      "- Use " ++ dquote ++ "Shut Down" ++ dquote ++ " properly before unplugging";
      "";
      "═══════════════════════════════════════════════════════════";
      "" ].

(** The tools [check_requirements] looks for, with their packages. *)
Definition required : list (string * string) :=
  [ ("parted", "parted");
    ("mkfs.vfat", "dosfstools");
    ("mkfs.btrfs", "btrfs-progs");
    ("btrfs", "btrfs-progs");
    ("rsync", "rsync");
    ("grub-install", "grub2-common grub-efi-amd64-bin grub-pc-bin");
    ("mount", "mount");
    ("lsblk", "util-linux");
    ("blockdev", "util-linux") ].

Definition critical_mounts : list string :=
  ["/"; "/boot"; "/boot/efi"; "/home"; "/usr"; "/var"].

(** [x in l] on strings *)
Definition mem_string (x : string) (l : list string) : bool :=
  existsb (String.eqb x) l.

(** The line-by-line scan of [validate_device]: some line has at least two
    fields and its second field is a critical mount point. *)
Definition line_hits_critical (line : string) : bool :=
  match split_ws line with
  | _ :: mountpoint :: _ => mem_string mountpoint critical_mounts
  | _ => false
  end.

Section Stages.

Context {W : Type} {host : Host W}.

Definition sys_exit {A} (code : Z) : M W A := raise (SystemExit code).

Definition write_file (path content : string) : M W unit :=
  fun w =>
    match host_write path content w with
    | (None, w') => (Ok tt, [EvWrite path content], w')
    | (Some msg, w') => (Raise (OtherError msg), [EvWrite path content], w')
    end.

Definition read_file (path : string) : M W string :=
  fun w =>
    match host_read path w with
    | (inl content, w') => (Ok content, [], w')
    | (inr msg, w') => (Raise (OtherError msg), [], w')
    end.

Definition shutil_which (tool : string) : M W bool :=
  fun w => match host_which tool w with (b, w') => (Ok b, [], w') end.

Definition os_geteuid : M W Z :=
  fun w => match host_geteuid w with (u, w') => (Ok u, [], w') end.

(** [input()]: end of input raises [EOFError]. *)
Definition input : M W string :=
  fun w =>
    match host_input w with
    | (Some line, w') => (Ok line, [EvInput (Some line)], w')
    | (None, w') => (Raise (OtherError "EOF when reading a line"), [EvInput None], w')
    end.

(** [subprocess.run("sync", shell=True, timeout=SYNC_TIMEOUT)] *)
Definition sync : M W unit :=
  subprocess_run (Shell "sync") false (Some SYNC_TIMEOUT) ;; ret tt.

Definition check_root : M W unit :=
  uid <- os_geteuid ;;
  if negb (uid =? 0) then
    print "❌ This script must be run as root (use sudo)" ;;
    sys_exit 1
  else ret tt.

(** The loop of [check_requirements]: the missing tools and their
    packages, in the order of [required]. *)
Fixpoint find_missing (tools : list (string * string))
    : M W (list string * list string) :=
  match tools with
  | [] => ret ([], [])
  | (tool, package) :: rest =>
      found <- shutil_which tool ;;
      (if found then ret tt
       else print ("⚠️  Missing: " ++ tool ++ " (package: " ++ package ++ ")")) ;;
      r <- find_missing rest ;;
      ret (if found then r
           else (tool :: fst r, (split_ws package ++ snd r)%list))
  end.

(** [set(missing_packages)] is iterated in an order Python leaves open; the
    model keeps one copy of each package, in list order. *)
Definition check_requirements : M W unit :=
  print (nl ++ "🔍 Checking system requirements..." ++ nl) ;;
  r <- find_missing required ;;
  match fst r with
  | _ :: _ =>
      print (nl ++ "📦 Installing missing packages...") ;;
      run_cmd "apt-get update -qq" true false true (Some 120) ;;
      run_cmd ("apt-get install -y " ++ join " " (nodup string_dec (snd r)))
              true false false (Some 300) ;;
      found <- shutil_which "mkfs.btrfs" ;;
      if negb found then
        print "❌ Failed to install btrfs-progs. Please install manually:" ;;
        print "   sudo apt-get install btrfs-progs" ;;
        sys_exit 1
      else ret tt
  | [] => print "✅ All required tools are installed"
  end.

(** *** Pipeline stages *)

Definition setup_btrfs_subvolumes (device : string) : M W bool :=
  print (nl ++ "🌳 Setting up Btrfs subvolumes..." ++ nl) ;;
  match get_partition_names device with
  | (_, _, part3) =>
      prepare_mount_points ;;
      force_unmount USB_PERSIST 3 ;;
      sleep 1000 ;;
      print ("⚙️  Mounting Btrfs partition: " ++ part3) ;;
      mounted <- run_cmd ("mount -o compress=zstd,noatime " ++ part3 ++ " " ++ USB_PERSIST)
                         true false false (Some 15) ;;
      if negb (truthy mounted) then
        print "⚠️  Failed to mount Btrfs partition, skipping subvolumes" ;;
        ret false
      else
        print "📁 Creating Btrfs subvolumes..." ;;
        for_each ["@rootfs"; "@home"; "@snapshots"; "@work"] (fun subvol =>
          run_cmd ("btrfs subvolume create " ++ USB_PERSIST ++ "/" ++ subvol)
                  true false true (Some 15) ;;
          ret tt) ;;
        try_except
          (os_makedirs (USB_PERSIST ++ "/@rootfs/upper") ;;
           os_makedirs (USB_PERSIST ++ "/@rootfs/work") ;;
           os_makedirs (USB_PERSIST ++ "/@home/user"))
          is_Exception
          (fun e => print ("⚠️  Could not create directories: " ++ str_of_exn e)) ;;
        print "✅ Btrfs subvolumes created!" ;;
        force_unmount USB_PERSIST 3 ;;
        ret true
  end.

Definition rsync_cmd : string :=
  "rsync -avh --no-perms --no-owner --no-group "
  ++ "--modify-window=1 "
  ++ "--exclude='lost+found' "
  ++ "--info=progress2 "
  ++ ISO_MOUNT ++ "/ " ++ USB_BOOT ++ "/ 2>&1".

Definition copy_iso_contents (iso_path device : string) : M W bool :=
  print (nl ++ "📀 Copying ISO contents to USB..." ++ nl) ;;
  prepare_mount_points ;;
  match get_partition_names device with
  | (_, part2, _) =>
      print ("⚙️  Mounting ISO: " ++ iso_path) ;;
      force_unmount ISO_MOUNT 3 ;;
      iso_ok <- run_cmd ("mount -o loop,ro " ++ iso_path ++ " " ++ ISO_MOUNT)
                        true false false (Some 15) ;;
      if negb (truthy iso_ok) then
        print "❌ Failed to mount ISO!" ;;
        ret false
      else
        print ("⚙️  Mounting USB boot partition: " ++ part2) ;;
        force_unmount USB_BOOT 3 ;;
        sleep 1000 ;;
        boot_ok <- run_cmd ("mount " ++ part2 ++ " " ++ USB_BOOT)
                           true false false (Some 15) ;;
        if negb (truthy boot_ok) then
          print "❌ Failed to mount USB boot partition!" ;;
          force_unmount ISO_MOUNT 3 ;;
          ret false
        else
          print (nl ++ "📋 Copying ISO files (this may take 5-15 minutes)...") ;;
          print ("    Progress updates will appear below..." ++ nl) ;;
          run_cmd rsync_cmd false false false None ;;
          print (nl ++ "⏳ Syncing filesystem (this may take 30 seconds)...") ;;
          sync ;;
          print "✓ Sync complete" ;;
          sleep 2000 ;;
          force_unmount USB_BOOT 3 ;;
          force_unmount ISO_MOUNT 3 ;;
          print "✅ ISO contents copied!" ;;
          ret true
  end.

Definition configure_persistence (device : string) : M W bool :=
  print (nl ++ "⚙️  Configuring persistence system..." ++ nl) ;;
  match get_partition_names device with
  | (_, part2, _) =>
      force_unmount USB_BOOT 3 ;;
      sleep 1000 ;;
      boot_ok <- run_cmd ("mount " ++ part2 ++ " " ++ USB_BOOT)
                         true false false (Some 15) ;;
      if negb (truthy boot_ok) then
        print "❌ Failed to mount boot partition!" ;;
        ret false
      else
        print "📝 Creating persistence.conf..." ;;
        let persistence_conf := USB_BOOT ++ "/persistence.conf" in
        try_except
          (write_file persistence_conf ("/ union" ++ nl) ;;
           print ("✅ Created: " ++ persistence_conf))
          is_Exception
          (fun e => print ("⚠️  Warning: Could not create persistence.conf: "
                           ++ str_of_exn e)) ;;
        let boot_params := "persistence persistence-storage=btrfs,ext4" in
        let grub_cfg := USB_BOOT ++ "/boot/grub/grub.cfg" in
        has_cfg <- os_path_exists grub_cfg ;;
        when has_cfg
          (print "📝 Updating GRUB configuration..." ;;
           try_except
             (grub_content <- read_file grub_cfg ;;
              when (negb (contains "persistence" grub_content))
                (write_file grub_cfg
                   (replace "boot=live" ("boot=live " ++ boot_params) grub_content) ;;
                 print "✅ GRUB config updated"))
             is_Exception
             (fun e => print ("⚠️  Could not modify GRUB config: " ++ str_of_exn e))) ;;
        sync ;;
        sleep 1000 ;;
        force_unmount USB_BOOT 3 ;;
        print "✅ Persistence configured!" ;;
        ret true
  end.

Definition install_bootloader (device : string) : M W bool :=
  print (nl ++ "🚀 Installing bootloader..." ++ nl) ;;
  match get_partition_names device with
  | (part1, part2, _) =>
      force_unmount USB_BOOT 3 ;;
      sleep 1000 ;;
      boot_ok <- run_cmd ("mount " ++ part2 ++ " " ++ USB_BOOT)
                         true false false (Some 15) ;;
      if negb (truthy boot_ok) then
        print "⚠️  Could not mount boot partition" ;;
        ret false
      else
        print "📀 Installing GRUB for BIOS/Legacy boot..." ;;
        result <- run_cmd ("grub-install --target=i386-pc --boot-directory="
                           ++ USB_BOOT ++ "/boot " ++ device)
                          false false true (Some 60) ;;
        print (if truthy result then "✅ GRUB installed for BIOS boot"
               else "⚠️  GRUB BIOS installation had issues (may still work)") ;;
        prepare_mount_points ;;
        force_unmount ESP_MOUNT 3 ;;
        esp_ok <- run_cmd ("mount " ++ part1 ++ " " ++ ESP_MOUNT)
                          false false true (Some 15) ;;
        (if truthy esp_ok then
           print "📀 Installing GRUB for UEFI boot..." ;;
           result <- run_cmd ("grub-install --target=x86_64-efi --efi-directory="
                              ++ ESP_MOUNT ++ " "
                              ++ "--boot-directory=" ++ USB_BOOT
                              ++ "/boot --removable --recheck " ++ device)
                             false false true (Some 60) ;;
           print (if truthy result then "✅ GRUB installed for UEFI boot"
                  else "⚠️  GRUB UEFI installation had issues") ;;
           force_unmount ESP_MOUNT 3 ;;
           ret tt
         else print "⚠️  Could not install UEFI bootloader") ;;
        force_unmount USB_BOOT 3 ;;
        print "✅ Bootloader installation complete!" ;;
        ret true
  end.

Definition create_readme (device : string) : M W unit :=
  match get_partition_names device with
  | (_, part2, _) =>
      force_unmount USB_BOOT 3 ;;
      boot_ok <- run_cmd ("mount " ++ part2 ++ " " ++ USB_BOOT)
                         false false true (Some 15) ;;
      when (truthy boot_ok)
        (try_except
           (write_file (USB_BOOT ++ "/README.txt") readme_text ;;
            print "✅ Created README.txt")
           is_Exception
           (fun e => print ("⚠️  Could not create README: " ++ str_of_exn e)) ;;
         force_unmount USB_BOOT 3 ;;
         ret tt)
  end.

End Stages.

(** ** Validation, confirmation and the main flow *)

Section Main.

Context {W : Type} {host : Host W}.

(** [os.stat(path)], raising [OSError] when the call fails. *)
Definition os_stat_or_raise (path : string) : M W stat_result :=
  r <- os_stat path ;;
  match r with
  | Some st => ret st
  | None => raise (OtherError ("[Errno 2] No such file or directory: '" ++ path ++ "'"))
  end.

(** The loop over the lines of the [lsblk] output; [Some false] stands for
    the [return False] inside the loop. *)
Fixpoint scan_mountpoints (device : string) (lines : list string)
    : M W (option bool) :=
  match lines with
  | [] => ret None
  | line :: rest =>
      match split_ws line with
      | _ :: mountpoint :: _ =>
          if mem_string mountpoint critical_mounts then
            print ("❌ Safety check: " ++ device ++ " mounted at " ++ mountpoint) ;;
            print "   This is your system disk!" ;;
            ret (Some false)
          else scan_mountpoints device rest
      | _ => scan_mountpoints device rest
      end
  end.

Definition lsblk_mounts_cmd (device : string) : string :=
  "lsblk -ln -o NAME,MOUNTPOINT " ++ device.

Definition validate_device (device : string) : M W bool :=
  e <- os_path_exists device ;;
  if negb e then
    print ("❌ Device not found: " ++ device) ;;
    ret false
  else
    early <- try_except
               (st <- os_stat_or_raise device ;;
                if negb (S_ISBLK (st_mode st)) then
                  print ("❌ Not a block device: " ++ device) ;;
                  ret (Some false)
                else ret None)
               is_Exception
               (fun e =>
                  print ("❌ Cannot validate device: " ++ str_of_exn e) ;;
                  ret (Some false)) ;;
    match early with
    | Some v => ret v
    | None =>
        safety <- try_except
                    (lsblk_output <- run_cmd (lsblk_mounts_cmd device)
                                             true true true (Some 10) ;;
                     match lsblk_output with
                     | VStr s =>
                         if nonempty s
                         then scan_mountpoints device (split_on "010"%char s)
                         else ret None
                     | VBool true =>
                         raise (OtherError "'bool' object has no attribute 'split'")
                     | _ => ret None
                     end)
                    is_Exception
                    (fun e =>
                       print ("⚠️  Could not verify device safety: " ++ str_of_exn e) ;;
                       ret None) ;;
        match safety with
        | Some v => ret v
        | None => ret true
        end
    end.

Definition validate_iso (iso_path : string) : M W bool :=
  e <- os_path_exists iso_path ;;
  if negb e then
    print ("❌ ISO file not found: " ++ iso_path) ;;
    ret false
  else
    f <- os_path_isfile iso_path ;;
    if negb f then
      print ("❌ Not a regular file: " ++ iso_path) ;;
      ret false
    else
      size <- os_path_getsize iso_path ;;
      let size_mb := fmt_fixed 1 size (1024 * 1024) in
      when (size <? 100 * (1024 * 1024))
        (print ("⚠️  Warning: ISO file seems small (" ++ size_mb ++ " MB)")) ;;
      print ("📀 ISO size: " ++ size_mb ++ " MB") ;;
      ret true.

Definition rule60 : string := String.concat "" (repeat "─" 60).

Definition show_device_info (device : string) : M W unit :=
  print (nl ++ "📊 Device information for " ++ device ++ ":") ;;
  print rule60 ;;
  try_except
    (size_bytes <- run_cmd ("blockdev --getsize64 " ++ device)
                           true true false (Some 10) ;;
     when (truthy size_bytes)
       (match size_bytes with
        | VStr s =>
            match int_of_string s with
            | Some n => print ("   Size: " ++ fmt_fixed 2 n (1024 ^ 3) ++ " GB")
            | None => raise (OtherError ("invalid literal for int() with base 10: '" ++ s ++ "'"))
            end
        | _ => ret tt
        end))
    any_exn
    (fun _ => ret tt) ;;
  try_except
    (parts <- run_cmd ("lsblk -o NAME,SIZE,TYPE,MOUNTPOINT " ++ device)
                      true true false (Some 10) ;;
     when (truthy parts)
       (match parts with
        | VStr s =>
            print (nl ++ "   Current layout:") ;;
            print ("   " ++ join (nl ++ "   ") (split_on "010"%char s))
        | _ => raise (OtherError "'bool' object has no attribute 'split'")
        end))
    any_exn
    (fun _ => ret tt) ;;
  print rule60.

Definition rule70 : string := String.concat "" (repeat "=" 70).

Definition print_usage : M W unit :=
  print (nl ++ "📖 Usage: sudo ./persistent_usb.py <path-to-iso> <target-device>") ;;
  print (nl ++ "📚 Examples:") ;;
  print "   sudo ./persistent_usb.py debian-13.1.0-amd64-netinst.iso /dev/sdb" ;;
  print "   sudo ./persistent_usb.py ubuntu-22.04-desktop-amd64.iso /dev/sdc" ;;
  print (nl ++ "🌟 Features:") ;;
  print "   ✓ Btrfs filesystem with compression" ;;
  print "   ✓ Full session persistence" ;;
  print "   ✓ Works on any computer (plug & play)" ;;
  print "   ✓ Both UEFI and BIOS support" ;;
  print "   ✓ No hanging - proper timeouts".

(** The body of the [try] in [main]. *)
Definition pipeline (iso_path device : string) : M W unit :=
  check_requirements ;;
  unmount_all device ;;
  create_partitions device ;;
  setup_btrfs_subvolumes device ;;
  copied <- copy_iso_contents iso_path device ;;
  (if negb copied then raise (OtherError "Failed to copy ISO") else ret tt) ;;
  configured <- configure_persistence device ;;
  (if negb configured then raise (OtherError "Failed to configure persistence")
   else ret tt) ;;
  install_bootloader device ;;
  create_readme device ;;
  print (nl ++ "🧹 Final cleanup...") ;;
  unmount_all device ;;
  sync ;;
  print (nl ++ rule70) ;;
  print "  ✅ SUCCESS! Persistent USB Created!" ;;
  print rule70 ;;
  print (nl ++ "📀 Your portable Linux system is ready on " ++ device) ;;
  print (nl ++ "💡 How to use:") ;;
  print "   1. Boot from USB" ;;
  print "   2. Select 'Live with Persistence'" ;;
  print "   3. All changes save automatically" ;;
  print (nl ++ "📖 Check README.txt on USB for details") ;;
  print (nl ++ "✅ Safe to remove USB now").

(** The two [except] clauses of [main]. *)
Definition on_failure (device : string) (e : exn) : M W unit :=
  match e with
  | KeyboardInterrupt =>
      print (nl ++ nl ++ "❌ Cancelled by user") ;;
      unmount_all device ;;
      sys_exit 1
  | _ =>
      print (nl ++ nl ++ "❌ Error: " ++ str_of_exn e) ;;
      print (nl ++ "🧹 Cleaning up...") ;;
      unmount_all device ;;
      sys_exit 1
  end.

Definition caught_by_main (e : exn) : bool :=
  match e with
  | KeyboardInterrupt => true
  | _ => is_Exception e
  end.

(** The [try] statement of [main]: the pipeline under its two handlers. *)
Definition guarded_pipeline (iso_path device : string) : M W unit :=
  try_except (pipeline iso_path device) caught_by_main (on_failure device).

(** What follows the confirmation prompt. *)
Definition confirm_and_run (iso_path device : string) : M W unit :=
  print (nl ++ "⚠️  WARNING: This will PERMANENTLY ERASE all data on " ++ device) ;;
  print (nl ++ "💾 Target: " ++ device) ;;
  print ("📀 Source: " ++ iso_path) ;;
  emit (EvPrompt (nl ++ "❓ Type 'YES' to continue: ")) ;;
  answer <- input ;;
  if negb (String.eqb (strip answer) "YES") then
    print "❌ Operation cancelled" ;;
    sys_exit 0
  else
    print (nl ++ rule70) ;;
    print "  🚀 Starting USB creation..." ;;
    print rule70 ;;
    guarded_pipeline iso_path device.

(** [main()], with [sys.argv] as argument. *)
Definition main (argv : list string) : M W unit :=
  print rule70 ;;
  print "  🌳 Production-Ready Btrfs Persistent USB Creator" ;;
  print "  Portable Linux System with Full Session Persistence" ;;
  print rule70 ;;
  match argv with
  | [_; iso_path; device] =>
      check_root ;;
      iso_ok <- validate_iso iso_path ;;
      if negb iso_ok then sys_exit 1
      else
        dev_ok <- validate_device device ;;
        if negb dev_ok then sys_exit 1
        else
          show_device_info device ;;
          confirm_and_run iso_path device
  | _ =>
      print_usage ;;
      sys_exit 1
  end.

(** The exit status of the process: 0 when [main] returns, the code of
    [sys.exit], 1 for an uncaught exception. *)
Definition exit_status (r : outcome unit) : Z :=
  match r with
  | Ok _ => 0
  | Raise (SystemExit code) => code
  | Raise KeyboardInterrupt => 130
  | Raise _ => 1
  end.

End Main.

(** ** A scripted host

    A deterministic host for running the script on concrete scenarios:
    the answer to a command is a function of the command and of the
    commands launched before it (newest first). *)

Module Sim.

Record sim : Type := {
  sim_answer : command -> list command -> proc_result;
  sim_files : string -> option stat_result;
  sim_history : list command;
  sim_stdin : list string;
  sim_euid : Z
}.

Definition launch (c : command) (w : sim) : sim :=
  {| sim_answer := sim_answer w;
     sim_files := sim_files w;
     sim_history := c :: sim_history w;
     sim_stdin := sim_stdin w;
     sim_euid := sim_euid w |}.

Definition read_line (w : sim) : option string * sim :=
  match sim_stdin w with
  | [] => (None, w)
  | line :: rest =>
      (Some line,
       {| sim_answer := sim_answer w;
          sim_files := sim_files w;
          sim_history := sim_history w;
          sim_stdin := rest;
          sim_euid := sim_euid w |})
  end.

#[global] Instance sim_host : Host sim := {
  host_spawn c _ w := (sim_answer w c (sim_history w), launch c w);
  host_stat path w := (sim_files w path, w);
  host_geteuid w := (sim_euid w, w);
  host_which _ w := (true, w);
  host_sleep _ w := w;
  host_input := read_line;
  host_makedirs _ w := (None, w);
  host_chmod _ _ w := (None, w);
  host_write _ _ w := (None, w);
  host_read _ w := (inr "[Errno 2] No such file or directory", w)
}.

Definition block_device : stat_result := {| st_mode := 25008; st_size := 0 |}.       (* 0o060660 *)
Definition regular_file (size : Z) : stat_result := {| st_mode := 33188; st_size := size |}. (* 0o100644 *)
Definition directory : stat_result := {| st_mode := 16877; st_size := 4096 |}.       (* 0o040755 *)
Definition char_device : stat_result := {| st_mode := 8576; st_size := 0 |}.         (* 0o020600 *)

Definition succeed : proc_result := Exited 0 "" "".
Definition fail_with (code : Z) : proc_result := Exited code "" "".

(** A host on which nothing is mounted: the mount queries answer no, and
    every other command gets [other]'s answer. *)
Definition nothing_mounted (other : command -> proc_result)
    (c : command) (_ : list command) : proc_result :=
  match c with
  | Argv _ => fail_with 1
  | Shell _ => other c
  end.

Definition start (answer : command -> list command -> proc_result)
    (files : string -> option stat_result) (stdin : list string) : sim :=
  {| sim_answer := answer; sim_files := files; sim_history := [];
     sim_stdin := stdin; sim_euid := 0 |}.

End Sim.

(** ** Reading a run *)

Definition result_of {W A} (x : outcome A * list event * W) : outcome A :=
  fst (fst x).

Definition trace_of {W A} (x : outcome A * list event * W) : list event :=
  snd (fst x).

Definition world_of {W A} (x : outcome A * list event * W) : W := snd x.

(** What [run_cmd] returns, as a function of its flags and of the way the
    child process ended. *)
Definition run_cmd_value (check capture ignore_error : bool)
    (r : proc_result) : pyval :=
  match r with
  | Exited code out _ =>
      if capture || check then
        if code =? 0 then (if capture then VStr (strip out) else VBool true)
        else if ignore_error then VNone else VBool false
      else VBool true
  | TimedOut => if ignore_error then VNone else VBool false
  | OSFailure _ => VBool false
  end.

(** ** Scenarios for the scripted host *)

Module Scenario.
Import Sim.

Definition no_files (_ : string) : option stat_result := None.

Definition always (r : proc_result) (_ : command) (_ : list command)
    : proc_result := r.

(** Every command times out. *)
Definition w_timeout : sim := start (always TimedOut) no_files [].

(** Every command exits with status 1. *)
Definition w_fail : sim := start (always (fail_with 1)) no_files [].

(** Every command exits with status 0 and prints nothing. *)
Definition w_quiet : sim := start (always succeed) no_files [].

Definition mkfs_example : string := "mkfs.vfat -F 32 -n EFI /dev/sdb1".

End Scenario.

(** ** Vocabulary of the statements *)

Fixpoint has_slash (s : string) : bool :=
  match s with
  | EmptyString => false
  | String c s' => Ascii.eqb c "/" || has_slash s'
  end.

(** The base name of the device follows one of the naming schemes that
    number partitions with a [p] infix: memory cards, NVMe, loop devices. *)
Definition multi_numbering (device : string) : Prop :=
  exists pre rest,
    In pre ["mmcblk"; "nvme"; "loop"] /\ basename device = pre ++ rest.

(** The first eight commands of [create_partitions]. *)
Definition partitioning_commands (device : string) : list command :=
  [ Shell ("wipefs -af " ++ device ++ " 2>/dev/null");
    Shell ("dd if=/dev/zero of=" ++ device
           ++ " bs=1M count=10 conv=notrunc 2>/dev/null");
    Shell ("parted -s " ++ device ++ " mklabel gpt");
    Shell ("parted -s -a optimal " ++ device
           ++ " mkpart primary fat32 1MiB 512MiB");
    Shell ("parted -s " ++ device ++ " set 1 esp on");
    Shell ("parted -s -a optimal " ++ device
           ++ " mkpart primary fat32 512MiB 4608MiB");
    Shell ("parted -s " ++ device ++ " set 2 boot on");
    Shell ("parted -s -a optimal " ++ device
           ++ " mkpart primary btrfs 4608MiB 100%") ].

(** The host's answer to the safety query leaves [validate_device] nothing
    to scan: the query fails, times out, cannot be launched, or prints
    nothing but white space. *)
Definition lsblk_unusable (r : proc_result) : Prop :=
  match r with
  | Exited code out _ => code <> 0 \/ strip out = ""
  | TimedOut | OSFailure _ => True
  end.

(** A field of an [lsblk] row: non-empty and free of white space. *)
Fixpoint spaceless (s : string) : bool :=
  match s with
  | EmptyString => true
  | String c s' => negb (is_space c) && spaceless s'
  end.

Definition is_field (s : string) : bool := nonempty s && spaceless s.

(** The [lsblk] output reports a critical mount point: some line has at
    least two fields and its second field is one of [critical_mounts]. *)
Definition reports_critical (out : string) : bool :=
  existsb line_hits_critical (split_on "010"%char (strip out)).

(** The answer to the safety query reports a critical mount point. *)
Definition answer_reports_critical (r : proc_result) : bool :=
  match r with
  | Exited code out _ => (code =? 0) && reports_critical out
  | TimedOut | OSFailure _ => false
  end.

Module ScenarioFiles.
Import Sim.

(** [/dev/sdb] is a block device, [/mnt] a directory, [debian.iso] a
    regular file, [/dev/tty1] a character device; nothing else exists. *)
Definition files (p : string) : option stat_result :=
  if String.eqb p "/dev/sdb" then Some block_device
  else if String.eqb p "/mnt" then Some directory
  else if String.eqb p "debian.iso" then Some (regular_file 700000000)
  else if String.eqb p "/dev/tty1" then Some char_device
  else None.

(** Every command fails with status 1. *)
Definition w_failing : sim := start (Scenario.always (fail_with 1)) files [].

(** [lsblk] lists [/dev/sdb] with its first partition mounted on [/home]. *)
Definition lsblk_home : string :=
  "sdb  " ++ nl ++ "sdb1 /home" ++ nl ++ "sdb2 /media/usb" ++ nl.

Definition w_home : sim :=
  start (Scenario.always (Exited 0 lsblk_home "")) files [].

End ScenarioFiles.

(** ** The retry policy of the mount manager, as the specification words it *)

(** What [force_unmount] lets one observe: the answers of the mount checks
    and the commands it launches to release the path. *)
Inductive obs : Type :=
| Answer (mounted : bool)
| Launch (c : command).

Definition is_query (path : string) (c : command) : bool :=
  command_eqb c (mountpoint_query path) || command_eqb c (mount_grep_query path).

Fixpoint observe (path : string) (t : list event) : list obs :=
  match t with
  | [] => []
  | EvMounted _ b :: t' => Answer b :: observe path t'
  | EvSpawn c _ _ :: t' =>
      if is_query path c then observe path t'
      else Launch c :: observe path t'
  | _ :: t' => observe path t'
  end.

Fixpoint answers (o : list obs) : list bool :=
  match o with
  | [] => []
  | Answer b :: o' => b :: answers o'
  | Launch _ :: o' => answers o'
  end.

(** Attempts after the first one begin by terminating the processes that
    hold the mount. *)
Definition kill_first (path : string) (attempt : Z) : list obs :=
  if attempt >? 0 then [Launch (Shell (fuser_cmd path))] else [].

(** The last attempt ends with a lazy unmount. *)
Definition lazy_last (path : string) (max_attempts attempt : Z) : list obs :=
  if attempt =? max_attempts - 1
  then [Launch (Shell (umount_lazy_cmd path))] else [].

(** [follows_policy path n attempts o b]: the observations [o] and the
    result [b] are those of the retry policy over the attempts still to
    make.
    - no attempt left: one last check decides the result;
    - the path is found unmounted before an attempt: success;
    - the path is unmounted after the attempt's [umount]: success;
    - otherwise the attempt failed (a lazy unmount follows when it was the
      last one) and the policy goes on with the next attempt. *)
Inductive follows_policy (path : string) (n : Z)
    : list Z -> list obs -> bool -> Prop :=
| policy_exhausted (mounted : bool) :
    follows_policy path n [] [Answer mounted] (negb mounted)
| policy_free attempt rest :
    follows_policy path n (attempt :: rest) [Answer false] true
| policy_released attempt rest :
    follows_policy path n (attempt :: rest)
      (Answer true :: kill_first path attempt
       ++ [Launch (Shell (umount_cmd path)); Answer false])%list
      true
| policy_retry attempt rest o b :
    follows_policy path n rest o b ->
    follows_policy path n (attempt :: rest)
      (Answer true :: kill_first path attempt
       ++ [Launch (Shell (umount_cmd path)); Answer true]
       ++ lazy_last path n attempt ++ o)%list
      b.

Module ScenarioMounts.
Import Sim.

Fixpoint count_umounts (path : string) (history : list command) : nat :=
  match history with
  | [] => 0
  | c :: rest =>
      (if command_eqb c (Shell (umount_cmd path)) then 1 else 0)
      + count_umounts path rest
  end%nat.

(** [/mnt/usb_boot] is busy: it stays mounted until the second [umount]. *)
Definition busy_answer (c : command) (history : list command) : proc_result :=
  if command_eqb c (mountpoint_query USB_BOOT)
  then (if (count_umounts USB_BOOT history <? 2)%nat then succeed else fail_with 32)
  else succeed.

Definition only_usb_boot (p : string) : option stat_result :=
  if String.eqb p USB_BOOT then Some directory else None.

Definition w_busy : sim := start busy_answer only_usb_boot [].

End ScenarioMounts.

(** ** Judgements on computations *)

(** A property of traces that holds of the empty trace and is kept by
    concatenation. *)
Record closed (P : list event -> Prop) : Prop := {
  closed_nil : P [];
  closed_app : forall t1 t2, P t1 -> P t2 -> P (t1 ++ t2)%list
}.

(** [triple I P Q m]: started in a host state satisfying [I], the
    computation [m] returns normally (it does not raise), in a state that
    satisfies [I] again, with a trace satisfying [P] and a value
    satisfying [Q]. *)
Definition triple {W A} (I : W -> Prop) (P : list event -> Prop)
    (Q : A -> Prop) (m : M W A) : Prop :=
  forall w, I w ->
    exists a t w', m w = (Ok a, t, w') /\ I w' /\ P t /\ Q a.

Definition anything {A} (_ : A) : Prop := True.

(** The commands that only query or release mounts: the two mount queries,
    [fuser -km], [umount] (plain or lazy) and the partition listing. *)
Definition release_family (c : command) : bool :=
  match c with
  | Argv [a; b; _] => String.eqb a "mountpoint" && String.eqb b "-q"
  | Argv _ => false
  | Shell s =>
      String.prefix "mount | grep -q " s
      || String.prefix "fuser -km " s
      || String.prefix "umount " s
      || String.prefix "lsblk -ln -o NAME " s
  end.

(** Every command run through [run_cmd] that timed out has its time-out
    message in the output.  (The fallback query of [is_mounted] is launched
    directly, not through [run_cmd].) *)
Definition timeouts_logged (t : list event) : Prop :=
  forall c timeout,
    In (EvSpawn (Shell c) timeout TimedOut) t ->
    String.prefix "mount | grep -q " c = false ->
    In ("⚠️  Command timed out: " ++ c) (printed t).

(** The copy command has not been launched. *)
Definition no_copy (t : list event) : Prop :=
  forall timeout r, ~ In (EvSpawn (Shell rsync_cmd) timeout r) t.

Definition not_copy (c : command) : bool :=
  negb (command_eqb c (Shell rsync_cmd)).

Module ScenarioSweep.
Import Sim.

Definition busy_text : string := "umount: /dev/sdb1: target is busy.".

(** The partition listing names [sdb1]; every [umount] fails with status 32
    and a diagnostic on its error output. *)
Definition stuck_answer (c : command) (_ : list command) : proc_result :=
  match c with
  | Argv _ => fail_with 1
  | Shell s =>
      if String.prefix "lsblk" s then Exited 0 ("sdb1" ++ nl) ""
      else Exited 32 "" busy_text
  end.

Definition w_stuck : sim := start stuck_answer Scenario.no_files [].

Definition all_directories (_ : string) : option stat_result := Some directory.

(** Nothing is mounted: every query and every [umount] or [fuser] exits
    with status 1; the mount directories exist. *)
Definition w_released : sim :=
  start (Scenario.always (fail_with 1)) all_directories [].

Definition released (w : sim) : Prop :=
  sim_answer w = Scenario.always (fail_with 1)
  /\ sim_files w = all_directories.

End ScenarioSweep.

(** The stages of [pipeline] that run before the image is copied. *)
Definition stages_before_copy {W} {host : Host W} (device : string) : M W bool :=
  (check_requirements ;;
   unmount_all device ;;
   create_partitions device ;;
   setup_btrfs_subvolumes device)%py.

Module ScenarioRun.
Import Sim.

(** Everything succeeds and nothing is mounted, except that the copy
    command exits with status 23 (partial transfer). *)
Definition copy_fails (c : command) : proc_result :=
  if command_eqb c (Shell rsync_cmd) then Exited 23 "" "" else succeed.

Definition w_copy_fails : sim :=
  start (nothing_mounted copy_fails) ScenarioFiles.files ["YES"].

Definition argv : list string := ["persistent_usb.py"; "debian.iso"; "/dev/sdb"].

(** The mount of the image fails with status 32. *)
Definition iso_mount_fails (c : command) : proc_result :=
  if command_eqb c (Shell ("mount -o loop,ro debian.iso " ++ ISO_MOUNT))
  then Exited 32 "" "mount: wrong fs type" else succeed.

Definition w_iso_mount_fails : sim :=
  start (nothing_mounted iso_mount_fails) ScenarioFiles.files ["YES"].

End ScenarioRun.

(** The two required commands of the copy stage. *)
Definition mount_iso_cmd (iso_path : string) : string :=
  "mount -o loop,ro " ++ iso_path ++ " " ++ ISO_MOUNT.

Definition mount_boot_cmd (part2 : string) : string :=
  "mount " ++ part2 ++ " " ++ USB_BOOT.

(** A required command ([check=True], no capture, errors not ignored)
    failed: it exited with a non-zero status, timed out, or could not be
    launched. *)
Definition required_failed (r : proc_result) : bool :=
  negb (truthy (run_cmd_value true false false r)).

(** The exit statuses of the copy command along a trace. *)
Fixpoint copy_exit_codes (t : list event) : list Z :=
  match t with
  | [] => []
  | EvSpawn c _ (Exited code _ _) :: t' =>
      if command_eqb c (Shell rsync_cmd) then code :: copy_exit_codes t'
      else copy_exit_codes t'
  | _ :: t' => copy_exit_codes t'
  end.

(** [emits P m]: whatever the host does and however [m] ends, its trace
    satisfies [P]. *)
Definition emits {W A} (P : list event -> Prop) (m : M W A) : Prop :=
  forall w, P (trace_of (m w)).

(** The three queries that [main] runs before the confirmation prompt;
    none of them modifies the device. *)
Definition preflight_queries (device : string) : list command :=
  [ Shell (lsblk_mounts_cmd device);
    Shell ("blockdev --getsize64 " ++ device);
    Shell ("lsblk -o NAME,SIZE,TYPE,MOUNTPOINT " ++ device) ].

(** An event that leaves the device and the file system alone: output,
    waiting, reading the confirmation, or one of the preflight queries. *)
Definition read_only_event (device : string) (e : event) : Prop :=
  match e with
  | EvSpawn c _ _ => In c (preflight_queries device)
  | EvWrite _ _ | EvMakedirs _ | EvChmod _ _ => False
  | _ => True
  end.

(** An event of the steps before the prompt: read-only, and not a read of
    the confirmation. *)
Definition preflight_event (device : string) (e : event) : Prop :=
  match e with
  | EvInput _ => False
  | _ => read_only_event device e
  end.

(** The first line read from the user along a trace. *)
Fixpoint first_input (t : list event) : option string :=
  match t with
  | [] => None
  | EvInput (Some line) :: _ => Some line
  | EvInput None :: _ => None
  | _ :: t' => first_input t'
  end.

(** What [main] writes before it reads the confirmation. *)
Definition prompt_events (iso_path device : string) : list event :=
  [ EvPrint (nl ++ "⚠️  WARNING: This will PERMANENTLY ERASE all data on " ++ device);
    EvPrint (nl ++ "💾 Target: " ++ device);
    EvPrint ("📀 Source: " ++ iso_path);
    EvPrompt (nl ++ "❓ Type 'YES' to continue: ") ].

Module ScenarioPrompt.
Import Sim.

Definition nothing_critical (c : command) : proc_result :=
  if command_eqb c (Shell (lsblk_mounts_cmd "/dev/sdb"))
  then Exited 0 ("sdb" ++ nl ++ "sdb1 /media/usb" ++ nl) ""
  else succeed.

(** The user types [yes], in lower case. *)
Definition w_lowercase : sim :=
  start (nothing_mounted nothing_critical) ScenarioFiles.files ["yes"].

(** The user types [YES] between blanks. *)
Definition w_padded : sim :=
  start (nothing_mounted nothing_critical) ScenarioFiles.files ["  YES "].

End ScenarioPrompt.

(** ** Vocabulary of the further properties *)

(** Every command launched along the trace satisfies [F]. *)
Definition launches_only (F : command -> bool) (t : list event) : Prop :=
  Forall (fun c => F c = true) (spawned t).

(** No constraint on the trace. *)
Definition any_trace (t : list event) : Prop := True.

(** How many times a command occurs in a list of commands. *)
Definition times (c : command) (l : list command) : nat :=
  List.length (filter (command_eqb c) l).

(** The child process did not run to completion: it timed out or could not
    be launched. *)
Definition did_not_complete (r : proc_result) : Prop :=
  match r with
  | Exited _ _ _ => False
  | TimedOut | OSFailure _ => True
  end.

(** The child process ran to completion and exited with status 0. *)
Definition exited_zero (r : proc_result) : bool :=
  match r with
  | Exited code _ _ => code =? 0
  | TimedOut | OSFailure _ => false
  end.

(** The child process ran to completion, with whatever exit status. *)
Definition ran_to_completion (r : proc_result) : bool :=
  match r with
  | Exited _ _ _ => true
  | TimedOut | OSFailure _ => false
  end.

(** The events [force_unmount] leaves behind: output, pauses, mount
    checks and commands of the release family.  Nothing is created or
    written. *)
Definition releasing (e : event) : bool :=
  match e with
  | EvPrint _ | EvSleep _ | EvMounted _ _ => true
  | EvSpawn c _ _ => release_family c
  | _ => false
  end.

(** The commands among the observations, in order. *)
Fixpoint launches (o : list obs) : list command :=
  match o with
  | [] => []
  | Answer _ :: o' => launches o'
  | Launch c :: o' => c :: launches o'
  end.

Module ScenarioHeld.
Import Sim.

(** Every directory exists and every command exits with status 0: the
    mount queries keep answering that the path is mounted, whatever is
    done to release it. *)
Definition w_held : sim :=
  start (Scenario.always succeed) ScenarioSweep.all_directories [].

End ScenarioHeld.

(** The directories [os.makedirs] was called on along a trace, in order. *)
Fixpoint made (t : list event) : list string :=
  match t with
  | [] => []
  | EvMakedirs p :: t' => p :: made t'
  | _ :: t' => made t'
  end.

(** The files [write] was attempted on along a trace, in order. *)
Fixpoint written (t : list event) : list string :=
  match t with
  | [] => []
  | EvWrite p _ :: t' => p :: written t'
  | _ :: t' => written t'
  end.

(** The two commands that ask the kernel to re-read the partition table. *)
Definition partprobe_cmd (device : string) : string :=
  "partprobe " ++ device ++ " 2>/dev/null".

Definition blockdev_reread_cmd (device : string) : string :=
  "blockdev --rereadpt " ++ device ++ " 2>/dev/null".

Definition reread_family (device : string) (c : command) : bool :=
  command_eqb c (Shell (partprobe_cmd device))
  || command_eqb c (Shell (blockdev_reread_cmd device)).

(** The time spent in [time.sleep] along a trace, in milliseconds. *)
Fixpoint slept_ms (t : list event) : Z :=
  match t with
  | [] => 0
  | EvSleep n :: t' => n + slept_ms t'
  | _ :: t' => slept_ms t'
  end.

(** The path exists, as [os.path.exists] sees the answer of [stat]. *)
Definition present (r : option stat_result) : bool :=
  match r with Some _ => true | None => false end.

Module ScenarioNodes.
Import Sim.

(** Only the first two partition nodes of [/dev/sdb] ever appear. *)
Definition two_nodes (p : string) : option stat_result :=
  if String.eqb p "/dev/sdb1" || String.eqb p "/dev/sdb2"
  then Some block_device else None.

Definition w_two_nodes : sim := start (Scenario.always succeed) two_nodes [].

(** The files of the host are those of [files]: launching commands and
    sleeping does not change them. *)
Definition keeps (files : string -> option stat_result) (w : sim) : Prop :=
  sim_files w = files.

End ScenarioNodes.

(** The last six commands of [create_partitions]: each partition is
    unmounted and formatted. *)
Definition formatting_commands (device : string) : list command :=
  match get_partition_names device with
  | (part1, part2, part3) =>
      [ Shell ("umount " ++ part1 ++ " 2>/dev/null");
        Shell ("mkfs.vfat -F 32 -n EFI " ++ part1);
        Shell ("umount " ++ part2 ++ " 2>/dev/null");
        Shell ("mkfs.vfat -F 32 -n BOOT " ++ part2);
        Shell ("umount " ++ part3 ++ " 2>/dev/null");
        Shell ("mkfs.btrfs -f -L persistence -m single -d single " ++ part3) ]
  end.

(** The commands of the later stages. *)
Definition mount_persist_cmd (part3 : string) : string :=
  "mount -o compress=zstd,noatime " ++ part3 ++ " " ++ USB_PERSIST.

Definition subvolume_commands : list command :=
  map (fun subvol =>
         Shell ("btrfs subvolume create " ++ USB_PERSIST ++ "/" ++ subvol))
      ["@rootfs"; "@home"; "@snapshots"; "@work"].

Definition grub_bios_cmd (device : string) : string :=
  "grub-install --target=i386-pc --boot-directory=" ++ USB_BOOT ++ "/boot "
  ++ device.

Definition grub_uefi_cmd (device : string) : string :=
  "grub-install --target=x86_64-efi --efi-directory=" ++ ESP_MOUNT ++ " "
  ++ "--boot-directory=" ++ USB_BOOT ++ "/boot --removable --recheck "
  ++ device.

Definition mount_esp_cmd (part1 : string) : string :=
  "mount " ++ part1 ++ " " ++ ESP_MOUNT.






Module ScenarioExit.
Import Sim.

(** Everything succeeds, but the process does not run as root. *)
Definition w_not_root : sim :=
  {| sim_answer := Scenario.always succeed;
     sim_files := ScenarioSweep.all_directories;
     sim_history := [];
     sim_stdin := [];
     sim_euid := 1000 |}.

End ScenarioExit.

Module ScenarioStages.
Import Sim.

(** Nothing is mounted and every command succeeds, except that
    [grub-install] exits with status 1. *)
Definition grub_fails (c : command) : proc_result :=
  match c with
  | Shell s => if String.prefix "grub-install" s then fail_with 1 else succeed
  | Argv _ => succeed
  end.

Definition w_grub_fails : sim :=
  start (nothing_mounted grub_fails) Scenario.no_files [].



End ScenarioStages.

(** A command that rewrites the partition table or a file system. *)
Definition destructive (c : command) : bool :=
  match c with
  | Shell s =>
      String.prefix "wipefs " s || String.prefix "dd " s
      || String.prefix "parted " s || String.prefix "mkfs." s
  | Argv _ => false
  end.

Definition sweep_cmd (device : string) : command :=
  Shell ("umount -l " ++ device ++ "* 2>/dev/null").

(** * Properties *)

Arguments run_cmd : simpl never.

(** ** The monad *)

Section MonadFacts.

Context {W : Type}.

Lemma bind_ok {A B} (m : M W A) (f : A -> M W B) w a t1 w1 :
  m w = (Ok a, t1, w1) ->
  bind m f w = (result_of (f a w1), (t1 ++ trace_of (f a w1))%list, world_of (f a w1)).
Proof.
  intros E. unfold bind. rewrite E.
  destruct (f a w1) as [[r t2] w2]. reflexivity.
Qed.

Lemma bind_raise {A B} (m : M W A) (f : A -> M W B) w e t1 w1 :
  m w = (Raise e, t1, w1) -> bind m f w = (Raise e, t1, w1).
Proof. intros E. unfold bind. now rewrite E. Qed.

Lemma spawned_app (t1 t2 : list event) :
  spawned (t1 ++ t2) = (spawned t1 ++ spawned t2)%list.
Proof.
  induction t1 as [|e t1 IH]; [reflexivity|].
  destruct e; simpl; now rewrite ?IH.
Qed.

Lemma printed_app (t1 t2 : list event) :
  printed (t1 ++ t2) = (printed t1 ++ printed t2)%list.
Proof.
  induction t1 as [|e t1 IH]; [reflexivity|].
  destruct e; simpl; now rewrite ?IH.
Qed.

End MonadFacts.

(** ** Process runner *)

Section RunnerFacts.

Context {W : Type} {host : Host W}.

(** [run_cmd] never raises; its value is [run_cmd_value] of the host's
    answer, and it launches exactly its command. *)
Lemma run_cmd_run cmd check capture ignore_error timeout (w : W) :
  exists t,
    run_cmd cmd check capture ignore_error timeout w
    = (Ok (run_cmd_value check capture ignore_error
             (fst (host_spawn (Shell cmd) timeout w))),
       t, snd (host_spawn (Shell cmd) timeout w))
    /\ spawned t = [Shell cmd]
    /\ mount_answers t = [].
Proof.
  unfold run_cmd, try_except, check_output, subprocess_run, spawn, bind,
    print, emit, when, ret, raise, run_cmd_value.
  destruct capture, check, ignore_error; cbn;
    destruct (host_spawn (Shell cmd) timeout w) as [[code out err | | msg] w1];
    cbn; try destruct (code =? 0); cbn;
    try destruct (nonempty out); try destruct (nonempty err); cbn;
    eexists; (split; [reflexivity | split; reflexivity]).
Qed.

Lemma run_cmd_ok cmd check capture ignore_error timeout (w : W) :
  exists v t w',
    run_cmd cmd check capture ignore_error timeout w = (Ok v, t, w')
    /\ spawned t = [Shell cmd] /\ mount_answers t = [].
Proof.
  destruct (run_cmd_run cmd check capture ignore_error timeout w) as (t & E & Hs).
  eauto.
Qed.

End RunnerFacts.

Section RunnerClaims.

Context {W : Type} {host : Host W}.

Lemma run_cmd_timeout_logged cmd check capture ignore_error timeout (w : W) :
  fst (host_spawn (Shell cmd) timeout w) = TimedOut ->
  In ("⚠️  Command timed out: " ++ cmd)
     (printed (trace_of (run_cmd cmd check capture ignore_error timeout w))).
Proof.
  unfold run_cmd, try_except, check_output, subprocess_run, spawn, bind,
    print, emit, when, ret, raise, trace_of.
  destruct capture; cbn;
    destruct (host_spawn (Shell cmd) timeout w) as [r w1]; cbn;
    intros ->; cbn; auto.
Qed.

(** C3 (as amended).  A command that exceeds its timeout never makes
    [run_cmd] raise: the runner prints the time-out message and returns
    [False], or [None] under [ignore_error].  These are the very values it
    returns for a detected non-zero exit, so the returned value does not
    tell a timeout from an ordinary failure.  An [ignore_error] command
    whose non-zero exit is detected (capture mode, or [check] enabled)
    yields [None]; with [check] disabled and no capture the exit status is
    not looked at and the runner returns [True]. *)
Theorem run_cmd_timeout_and_advisory
    cmd check capture ignore_error timeout (w : W) :
  let r := fst (host_spawn (Shell cmd) timeout w) in
  let run := run_cmd cmd check capture ignore_error timeout w in
  (forall secs, timeout = Some secs -> r = TimedOut ->
     result_of run = Ok (if ignore_error then VNone else VBool false)
     /\ In ("⚠️  Command timed out: " ++ cmd) (printed (trace_of run)))
  /\ (forall code out err, r = Exited code out err -> code <> 0 ->
        capture || check = true ->
        result_of run = Ok (if ignore_error then VNone else VBool false))
  /\ (forall code out err, r = Exited code out err ->
        capture || check = false ->
        result_of run = Ok (VBool true)).
Proof.
  intros r run.
  destruct (run_cmd_run cmd check capture ignore_error timeout w) as (t & E & _).
  fold r in E. fold run in E.
  repeat split.
  - rewrite E. unfold result_of; cbn. now rewrite H0.
  - subst run. now apply run_cmd_timeout_logged.
  - intros code out err Hr Hcode Hflags. rewrite E. unfold result_of; cbn.
    rewrite Hr; cbn. rewrite Hflags.
    destruct (Z.eqb_spec code 0); [contradiction | reflexivity].
  - intros code out err Hr Hflags. rewrite E. unfold result_of; cbn.
    rewrite Hr; cbn. now rewrite Hflags.
Qed.

End RunnerClaims.

Lemma run_cmd_timeout_and_advisory_witness :
  (result_of (run_cmd Scenario.mkfs_example true false false (Some 30)
                Scenario.w_timeout) = Ok (VBool false)
   /\ In ("⚠️  Command timed out: " ++ Scenario.mkfs_example)
         (printed (trace_of (run_cmd Scenario.mkfs_example true false false
                               (Some 30) Scenario.w_timeout))))
  /\ result_of (run_cmd Scenario.mkfs_example true false true (Some 30)
                  Scenario.w_fail) = Ok VNone
  /\ result_of (run_cmd Scenario.mkfs_example false false true (Some 30)
                  Scenario.w_fail) = Ok (VBool true).
Proof.
  split; [|split].
  - exact (proj1 (run_cmd_timeout_and_advisory Scenario.mkfs_example
                    true false false (Some 30) Scenario.w_timeout)
             30 eq_refl eq_refl).
  - refine (proj1 (proj2 (run_cmd_timeout_and_advisory Scenario.mkfs_example
                            true false true (Some 30) Scenario.w_fail))
              1 "" "" eq_refl _ eq_refl).
    discriminate.
  - exact (proj2 (proj2 (run_cmd_timeout_and_advisory Scenario.mkfs_example
                           false false true (Some 30) Scenario.w_fail))
             1 "" "" eq_refl eq_refl).
Defined.

(** C3 as stated fails twice.  With the default flags a command that times
    out and the same command exiting with status 1 give the same value,
    [False]; and an [ignore_error] command run with [check=False] that
    exits with status 1 gives [True], not [None]. *)
Lemma run_cmd_timeout_not_distinguished :
  result_of (run_cmd Scenario.mkfs_example true false false (Some 30)
               Scenario.w_timeout)
  = result_of (run_cmd Scenario.mkfs_example true false false (Some 30)
                 Scenario.w_fail)
  /\ result_of (run_cmd (umount_cmd USB_BOOT) false false true (Some 10)
                  Scenario.w_fail) = Ok (VBool true)
  /\ result_of (run_cmd (umount_cmd USB_BOOT) false false true (Some 10)
                  Scenario.w_fail) <> Ok VNone.
Proof.
  split; [reflexivity | split; [reflexivity | discriminate]].
Qed.

(** ** Stepping through a sequence *)

Lemma trace_bind_ok {W A B} (m : M W A) (f : A -> M W B) w a t1 w1 :
  m w = (Ok a, t1, w1) ->
  trace_of (bind m f w) = (t1 ++ trace_of (f a w1))%list.
Proof. intros E. now rewrite (bind_ok m f w a t1 w1 E). Qed.

Ltac step_trace :=
  match goal with
  | |- context [trace_of (bind (print ?s) ?k ?w)] =>
      rewrite (trace_bind_ok (print s) k w tt [EvPrint s] w eq_refl)
  | |- context [trace_of (bind (sleep ?n) ?k ?w)] =>
      rewrite (trace_bind_ok (sleep n) k w tt [EvSleep n] (host_sleep n w) eq_refl)
  | |- context [trace_of (bind (run_cmd ?c ?a ?b ?d ?t) ?k ?w)] =>
      let E := fresh "E" in
      let Hs := fresh "Hs" in
      destruct (run_cmd_ok c a b d t w) as (? & ? & ? & E & Hs & _);
      rewrite (trace_bind_ok _ k w _ _ _ E)
  end; cbv beta.

(** ** Partition names *)

Lemma prefix_iff (pre s : string) :
  String.prefix pre s = true <-> exists rest, s = pre ++ rest.
Proof.
  revert s. induction pre as [|a pre IH]; intros s.
  - split; [intros _; now exists s | now destruct s].
  - destruct s as [|b s]; simpl.
    + split; [discriminate | intros [rest E]; discriminate].
    + destruct (Ascii.ascii_dec a b) as [->|Hab].
      * rewrite IH. split; intros [rest E]; exists rest; congruence.
      * split; [discriminate | intros [rest E]; congruence].
Qed.

Lemma split_on_nonempty sep s : split_on sep s <> [].
Proof.
  destruct s as [|c s]; simpl; [discriminate|].
  destruct (Ascii.eqb c sep); [discriminate|].
  destruct (split_on sep s); discriminate.
Qed.

Lemma split_on_no_sep s :
  has_slash s = false -> split_on "/" s = [s].
Proof.
  induction s as [|c s IH]; simpl; [reflexivity|].
  intros H. apply orb_false_iff in H as [Hc Hs].
  rewrite Hc, (IH Hs). reflexivity.
Qed.

Lemma split_on_after_sep sep x y :
  exists a b l, split_on sep (x ++ String sep y) = a :: b :: l
                /\ last (b :: l) EmptyString = last (split_on sep y) EmptyString.
Proof.
  induction x as [|c x IH]; simpl.
  - rewrite Ascii.eqb_refl.
    destruct (split_on sep y) as [|b l] eqn:E;
      [now apply split_on_nonempty in E|].
    now exists EmptyString, b, l.
  - destruct IH as (a & b & l & E & HL). rewrite E.
    destruct (Ascii.eqb c sep).
    + exists EmptyString, a, (b :: l). split; [reflexivity|].
      rewrite <- HL. reflexivity.
    + now exists (String c a), b, l.
Qed.

(** The base name of a path without slash is the path itself. *)
Lemma basename_no_slash b : has_slash b = false -> basename b = b.
Proof. intros H. unfold basename. now rewrite split_on_no_sep. Qed.

(** The base name of [dir/b] is [b]. *)
Lemma basename_after_slash dir b :
  has_slash b = false -> basename (dir ++ "/" ++ b) = b.
Proof.
  intros H. unfold basename.
  destruct (split_on_after_sep "/" dir b) as (a & x & l & E & HL).
  simpl append. rewrite E.
  change (last (a :: x :: l) EmptyString) with (last (x :: l) EmptyString).
  rewrite HL, split_on_no_sep by assumption. reflexivity.
Qed.

(** C8.  A device whose base name starts with [mmcblk], [nvme] or [loop]
    gets the partition names [<device>p1], [<device>p2], [<device>p3];
    every other device gets [<device>1], [<device>2], [<device>3]. *)
Theorem get_partition_names_scheme (device : string) :
  (multi_numbering device ->
     get_partition_names device
     = (device ++ "p1", device ++ "p2", device ++ "p3"))
  /\ (~ multi_numbering device ->
        get_partition_names device
        = (device ++ "1", device ++ "2", device ++ "3")).
Proof.
  unfold get_partition_names, multi_numbering, startswith.
  destruct (existsb (fun pre => String.prefix pre (basename device))
              ["mmcblk"; "nvme"; "loop"]) eqn:E.
  - split; [reflexivity|]. intros Hn. exfalso. apply Hn.
    apply existsb_exists in E as (pre & Hin & Hp).
    apply prefix_iff in Hp as [rest Hr]. now exists pre, rest.
  - split; [|reflexivity]. intros (pre & rest & Hin & Hb). exfalso.
    assert (existsb (fun pre => String.prefix pre (basename device))
              ["mmcblk"; "nvme"; "loop"] = true) as E'.
    { apply existsb_exists. exists pre. split; [assumption|].
      apply prefix_iff. now exists rest. }
    congruence.
Qed.

Lemma get_partition_names_scheme_witness :
  get_partition_names "/dev/nvme0n1"
  = ("/dev/nvme0n1p1", "/dev/nvme0n1p2", "/dev/nvme0n1p3")
  /\ get_partition_names "/dev/sdb" = ("/dev/sdb1", "/dev/sdb2", "/dev/sdb3").
Proof.
  split.
  - apply (proj1 (get_partition_names_scheme "/dev/nvme0n1")).
    exists "nvme", "0n1". split; [simpl; auto | reflexivity].
  - apply (proj2 (get_partition_names_scheme "/dev/sdb")).
    intros (pre & rest & Hin & Hb).
    change (basename "/dev/sdb") with "sdb" in Hb.
    simpl in Hin. destruct Hin as [<-|[<-|[<-|[]]]]; discriminate Hb.
Defined.

(** ** Partition planner *)

Section PlannerClaims.

Context {W : Type} {host : Host W}.

(** C1 (as amended).  On every device and whatever the tools answer,
    [create_partitions] first launches these eight commands, in this order:
    the ESP from 1 MiB to 512 MiB, the boot partition from 512 MiB to
    4608 MiB (4096 MiB, starting where the ESP ends), and the persistence
    partition from 4608 MiB to 100% of the device. *)
Theorem create_partitions_layout (device : string) (w : W) :
  (exists rest,
     spawned (trace_of (create_partitions device w))
     = (partitioning_commands device ++ rest)%list)
  /\ boot_end = 4608
  /\ boot_end - ESP_SIZE_MB = 4096.
Proof.
  split; [|split; reflexivity].
  unfold create_partitions.
  repeat step_trace.
  rewrite !spawned_app.
  repeat match goal with H : spawned _ = _ |- _ => rewrite H; clear H end.
  cbn. eexists. reflexivity.
Qed.

End PlannerClaims.

Lemma command_eqb_refl c : command_eqb c c = true.
Proof.
  destruct c as [s|l]; simpl; [apply String.eqb_refl|].
  destruct (list_eq_dec string_dec l l); congruence.
Qed.

Lemma not_in_by_eqb c l : existsb (command_eqb c) l = false -> ~ In c l.
Proof.
  intros E Hin.
  assert (existsb (command_eqb c) l = true) as E'.
  { apply existsb_exists. exists c. split; [assumption | apply command_eqb_refl]. }
  congruence.
Qed.

(** C1 as stated fails.  On [/dev/sdb] the ESP command ends at 512 MiB
    (so the ESP is 511 MiB long), the boot partition starts at 512 MiB and
    the persistence partition at 4608 MiB; no command with the offsets
    513 MiB or 4609 MiB is ever launched. *)
Lemma create_partitions_offsets_differ :
  let cmds := spawned (trace_of (create_partitions "/dev/sdb" Scenario.w_quiet)) in
  nth_error cmds 3
  = Some (Shell "parted -s -a optimal /dev/sdb mkpart primary fat32 1MiB 512MiB")
  /\ nth_error cmds 5
     = Some (Shell "parted -s -a optimal /dev/sdb mkpart primary fat32 512MiB 4608MiB")
  /\ nth_error cmds 7
     = Some (Shell "parted -s -a optimal /dev/sdb mkpart primary btrfs 4608MiB 100%")
  /\ ~ In (Shell "parted -s -a optimal /dev/sdb mkpart primary fat32 513MiB 4609MiB") cmds
  /\ ~ In (Shell "parted -s -a optimal /dev/sdb mkpart primary btrfs 4609MiB 100%") cmds.
Proof.
  intros cmds.
  repeat split; try (vm_compute; reflexivity);
    apply not_in_by_eqb; vm_compute; reflexivity.
Qed.

(** ** Mount manager: a path that does not exist *)

Section MissingPath.

Context {W : Type} {host : Host W}.

(** C10.  When the path does not exist, [force_unmount] returns [True]
    at once, whatever [max_attempts] is: the trace is empty (no mount
    query, no [fuser], no [umount], not even a message), and the host has
    only seen the [stat] call of [os.path.exists]. *)
Theorem force_unmount_missing_path (path : string) (max_attempts : Z) (w : W) :
  fst (host_stat path w) = None ->
  force_unmount path max_attempts w = (Ok true, [], snd (host_stat path w)).
Proof.
  intros H. unfold force_unmount, os_path_exists, os_stat, bind, ret.
  destruct (host_stat path w) as [r w1]. simpl in H. subst r. reflexivity.
Qed.

End MissingPath.

Lemma force_unmount_missing_path_witness :
  force_unmount "/mnt/usb_boot" 3 Scenario.w_quiet
  = (Ok true, [], Scenario.w_quiet).
Proof.
  exact (force_unmount_missing_path "/mnt/usb_boot" 3 Scenario.w_quiet eq_refl).
Defined.

(** ** Device validator *)

(** The rows of [lsblk -ln -o NAME,MOUNTPOINT]: a name, then white space
    and a mount point when the partition is mounted. *)
Lemma split_ws_step c c' s :
  is_space c = false ->
  split_ws (String c (String c' s))
  = if is_space c' then String c EmptyString :: split_ws (String c' s)
    else match split_ws (String c' s) with
         | w :: ws => String c w :: ws
         | [] => [String c EmptyString]
         end.
Proof.
  intros H.
  change (split_ws (String c (String c' s)))
    with (if is_space c then split_ws (String c' s)
          else if is_space c' then String c EmptyString :: split_ws (String c' s)
               else match split_ws (String c' s) with
                    | w :: ws => String c w :: ws
                    | [] => [String c EmptyString]
                    end).
  now rewrite H.
Qed.

Lemma spaceless_head c s :
  spaceless (String c s) = true -> is_space c = false /\ spaceless s = true.
Proof.
  cbn [spaceless]. intros H. apply andb_prop in H as [Hc Hs].
  now apply negb_true_iff in Hc.
Qed.

Lemma split_ws_field a : is_field a = true -> split_ws a = [a].
Proof.
  unfold is_field. induction a as [|c a IH]; [discriminate|].
  cbn [nonempty andb]. intros H.
  apply spaceless_head in H as [Hc Ha].
  destruct a as [|c' a].
  - cbn [split_ws]. now rewrite Hc.
  - destruct (spaceless_head _ _ Ha) as [Hc' _].
    rewrite (split_ws_step c c' a Hc), Hc', IH; [reflexivity | exact Ha].
Qed.

Lemma split_ws_field_then a rest :
  is_field a = true -> split_ws (a ++ " " ++ rest) = a :: split_ws rest.
Proof.
  unfold is_field. induction a as [|c a IH]; [discriminate|].
  cbn [nonempty andb]. intros H.
  apply spaceless_head in H as [Hc Ha].
  assert (is_space " " = true) as Hsp by reflexivity.
  destruct a as [|c' a].
  - cbn [append].
    rewrite (split_ws_step c " " rest Hc), Hsp.
    cbn [split_ws]. now rewrite Hsp.
  - destruct (spaceless_head _ _ Ha) as [Hc' _].
    cbn [append] in IH |- *.
    rewrite (split_ws_step c c' _ Hc), Hc', IH; [reflexivity | exact Ha].
Qed.

(** A row naming a mount point is a hit exactly when the mount point is a
    critical one; a row without mount point is never a hit. *)
Lemma lsblk_row_hits name mountpoint :
  is_field name = true -> is_field mountpoint = true ->
  line_hits_critical (name ++ " " ++ mountpoint)
  = mem_string mountpoint critical_mounts.
Proof.
  intros Hn Hm. unfold line_hits_critical.
  now rewrite (split_ws_field_then name mountpoint Hn), (split_ws_field _ Hm).
Qed.

Lemma lsblk_row_unmounted name :
  is_field name = true -> line_hits_critical name = false.
Proof.
  intros Hn. unfold line_hits_critical. now rewrite (split_ws_field _ Hn).
Qed.

Arguments split_on : simpl never.
Arguments lsblk_mounts_cmd : simpl never.
Arguments split_ws : simpl never.
Arguments strip : simpl never.

Lemma not_block_device mode :
  S_ISREG mode = true \/ S_ISCHR mode = true \/ S_ISDIR mode = true ->
  S_ISBLK mode = false.
Proof.
  unfold S_ISREG, S_ISCHR, S_ISDIR, S_ISBLK.
  intros [H|[H|H]]; apply Z.eqb_eq in H; rewrite H; reflexivity.
Qed.

Section ValidatorFacts.

Context {W : Type} {host : Host W}.

Lemma scan_mountpoints_run device lines (w : W) :
  exists t,
    scan_mountpoints device lines w
    = (Ok (if existsb line_hits_critical lines then Some false else None), t, w)
    /\ spawned t = [].
Proof.
  induction lines as [|line rest IH]; cbn [scan_mountpoints existsb].
  - now exists [].
  - unfold line_hits_critical at 1.
    destruct (split_ws line) as [|name [|mountpoint more]];
      cbn [orb]; try exact IH.
    destruct (mem_string mountpoint critical_mounts); cbn [orb]; [|exact IH].
    eexists. split; reflexivity.
Qed.

(** The verdict of [validate_device], step by step: two [stat] calls, then
    the safety query when the path is a block device. *)
Lemma validate_device_run device (w : W) :
  match host_stat device w with
  | (None, _) => result_of (validate_device device w) = Ok false
  | (Some _, w1) =>
      match host_stat device w1 with
      | (None, _) => result_of (validate_device device w) = Ok false
      | (Some st, w2) =>
          result_of (validate_device device w)
          = Ok (S_ISBLK (st_mode st)
                && negb (answer_reports_critical
                           (fst (host_spawn (Shell (lsblk_mounts_cmd device))
                                   (Some 10) w2))))
      end
  end.
Proof.
  unfold validate_device, os_path_exists, os_stat_or_raise, os_stat,
    try_except, bind, ret, raise, print, emit, result_of.
  cbn beta.
  destruct (host_stat device w) as [[st1|] w1]; cbn; [|reflexivity].
  destruct (host_stat device w1) as [[st|] w2]; cbn; [|reflexivity].
  destruct (S_ISBLK (st_mode st)); cbn; [|reflexivity].
  destruct (run_cmd_run (lsblk_mounts_cmd device) true true true (Some 10) w2)
    as (t & E & _).
  rewrite E. clear E.
  destruct (host_spawn (Shell (lsblk_mounts_cmd device)) (Some 10) w2)
    as [[code out err | | msg] w3]; cbn; try reflexivity.
  destruct (code =? 0); cbn; [|reflexivity].
  unfold reports_critical.
  destruct (strip out) as [|c s] eqn:Es; cbn [nonempty]; [reflexivity|].
  destruct (scan_mountpoints_run device (split_on "010"%char (String c s)) w3)
    as (t' & E' & _).
  rewrite E'.
  destruct (existsb line_hits_critical (split_on "010"%char (String c s)));
    reflexivity.
Qed.

Lemma unusable_reports_nothing r :
  lsblk_unusable r -> answer_reports_critical r = false.
Proof.
  destruct r as [code out err | | msg]; simpl; try reflexivity.
  intros [Hc|Hs].
  - destruct (Z.eqb_spec code 0); [contradiction | reflexivity].
  - unfold reports_critical. rewrite Hs. apply andb_false_r.
Qed.

(** C5 (as amended).  [validate_device] returns [False] when the path does
    not exist, and when it exists but is not a block device (a regular
    file, a character device, a directory and every other kind of file
    alike); for a block device it returns [False] when the [lsblk] answer
    reports a partition on one of the critical mount points, and [True]
    otherwise. *)
Theorem validate_device_verdict device (w : W) :
  (fst (host_stat device w) = None ->
     result_of (validate_device device w) = Ok false)
  /\ (forall st1 w1 st w2,
        host_stat device w = (Some st1, w1) ->
        host_stat device w1 = (Some st, w2) ->
        let answer :=
          fst (host_spawn (Shell (lsblk_mounts_cmd device)) (Some 10) w2) in
        (S_ISBLK (st_mode st) = false ->
           result_of (validate_device device w) = Ok false)
        /\ (S_ISREG (st_mode st) = true \/ S_ISCHR (st_mode st) = true
            \/ S_ISDIR (st_mode st) = true ->
            result_of (validate_device device w) = Ok false)
        /\ (S_ISBLK (st_mode st) = true ->
            answer_reports_critical answer = true ->
            result_of (validate_device device w) = Ok false)
        /\ (S_ISBLK (st_mode st) = true ->
            answer_reports_critical answer = false ->
            result_of (validate_device device w) = Ok true)).
Proof.
  pose proof (validate_device_run device w) as R.
  split.
  - destruct (host_stat device w) as [[st1|] w1]; simpl; [discriminate|].
    intros _. exact R.
  - intros st1 w1 st w2 E1 E2 answer. rewrite E1, E2 in R.
    fold answer in R. rewrite R.
    repeat split.
    + intros ->. reflexivity.
    + intros H. now rewrite (not_block_device _ H).
    + intros -> ->. reflexivity.
    + intros -> ->. reflexivity.
Qed.

(** C9.  For an existing block device, when the safety query fails, times
    out, cannot be launched or prints nothing, [validate_device] skips the
    scan of critical mount points and returns [True]. *)
Theorem validate_device_fails_open device (w : W) st1 w1 st w2 :
  host_stat device w = (Some st1, w1) ->
  host_stat device w1 = (Some st, w2) ->
  S_ISBLK (st_mode st) = true ->
  lsblk_unusable
    (fst (host_spawn (Shell (lsblk_mounts_cmd device)) (Some 10) w2)) ->
  result_of (validate_device device w) = Ok true.
Proof.
  intros E1 E2 Hblk Hun.
  pose proof (validate_device_run device w) as R.
  rewrite E1, E2 in R. rewrite R, Hblk, (unusable_reports_nothing _ Hun).
  reflexivity.
Qed.

End ValidatorFacts.

Lemma validate_device_verdict_witness :
  result_of (validate_device "/dev/sdx" ScenarioFiles.w_failing) = Ok false
  /\ result_of (validate_device "debian.iso" ScenarioFiles.w_failing) = Ok false
  /\ result_of (validate_device "/dev/tty1" ScenarioFiles.w_failing) = Ok false
  /\ result_of (validate_device "/dev/sdb" ScenarioFiles.w_home) = Ok false
  /\ result_of (validate_device "/dev/sdb" ScenarioFiles.w_failing) = Ok true.
Proof.
  split; [|split; [|split; [|split]]].
  - exact (proj1 (validate_device_verdict "/dev/sdx" ScenarioFiles.w_failing)
             eq_refl).
  - refine (proj1 (proj2 (validate_device_verdict "debian.iso"
                            ScenarioFiles.w_failing) _ _ _ _ eq_refl eq_refl)
              eq_refl).
  - refine (proj1 (proj2 (proj2 (validate_device_verdict "/dev/tty1"
                                   ScenarioFiles.w_failing)
                            _ _ _ _ eq_refl eq_refl)) _).
    right; left; reflexivity.
  - refine (proj1 (proj2 (proj2 (proj2 (validate_device_verdict "/dev/sdb"
                                          ScenarioFiles.w_home)
                                   _ _ _ _ eq_refl eq_refl)))
              eq_refl eq_refl).
  - refine (proj2 (proj2 (proj2 (proj2 (validate_device_verdict "/dev/sdb"
                                          ScenarioFiles.w_failing)
                                   _ _ _ _ eq_refl eq_refl)))
              eq_refl eq_refl).
Defined.

(** C5 as stated fails on a directory: [/mnt] exists, is neither a regular
    file nor a character device, no mount point is reported for it (no
    command is launched at all), and yet the verdict is [False]. *)
Lemma validate_device_rejects_directory :
  ScenarioFiles.files "/mnt" = Some Sim.directory
  /\ S_ISREG (st_mode Sim.directory) = false
  /\ S_ISCHR (st_mode Sim.directory) = false
  /\ spawned (trace_of (validate_device "/mnt" ScenarioFiles.w_failing)) = []
  /\ result_of (validate_device "/mnt" ScenarioFiles.w_failing) = Ok false
  /\ result_of (validate_device "/mnt" ScenarioFiles.w_failing) <> Ok true.
Proof.
  repeat split; try reflexivity. discriminate.
Qed.

Lemma validate_device_fails_open_witness :
  result_of (validate_device "/dev/sdb" ScenarioFiles.w_failing) = Ok true.
Proof.
  refine (validate_device_fails_open "/dev/sdb" ScenarioFiles.w_failing
            _ _ _ _ eq_refl eq_refl eq_refl _).
  left. discriminate.
Defined.

(** ** Mount manager: the retry policy *)

Section MonadLaws.

Context {W : Type}.

Lemma bind_assoc {A B C} (m : M W A) (f : A -> M W B) (g : B -> M W C) w :
  bind (bind m f) g w = bind m (fun a => bind (f a) g) w.
Proof.
  unfold bind. destruct (m w) as [[[a|e] t1] w1]; [|reflexivity].
  destruct (f a w1) as [[[b|e] t2] w2]; [|reflexivity].
  destruct (g b w2) as [[r t3] w3]. now rewrite app_assoc.
Qed.

Lemma bind_ret_l {A B} (a : A) (f : A -> M W B) w :
  bind (ret a) f w = f a w.
Proof. unfold bind, ret. now destruct (f a w) as [[r t] w']. Qed.

Lemma triple_eta {A} (x : outcome A * list event * W) :
  x = (result_of x, trace_of x, world_of x).
Proof. now destruct x as [[r t] w]. Qed.

End MonadLaws.

Lemma observe_app path t1 t2 :
  observe path (t1 ++ t2) = (observe path t1 ++ observe path t2)%list.
Proof.
  induction t1 as [|e t1 IH]; [reflexivity|].
  destruct e; simpl; rewrite ?IH; try reflexivity.
  now destruct (is_query path cmd).
Qed.

Lemma answers_observe path t : answers (observe path t) = mount_answers t.
Proof.
  induction t as [|e t IH]; [reflexivity|].
  destruct e; simpl; rewrite <- ?IH; try reflexivity.
  now destruct (is_query path cmd).
Qed.

Lemma launch_observed path c t :
  is_query path c = false -> In c (spawned t) -> In (Launch c) (observe path t).
Proof.
  intros Hq. induction t as [|e t IH]; [intros []|].
  destruct e; simpl; auto.
  intros [->|Hin].
  - rewrite Hq. now left.
  - destruct (is_query path cmd); [auto | right; auto].
Qed.

Lemma fuser_not_query path : is_query path (Shell (fuser_cmd path)) = false.
Proof. reflexivity. Qed.

Lemma umount_not_query path : is_query path (Shell (umount_cmd path)) = false.
Proof. reflexivity. Qed.

Lemma lazy_not_query path : is_query path (Shell (umount_lazy_cmd path)) = false.
Proof. reflexivity. Qed.

Lemma fuser_not_lazy path : Shell (fuser_cmd path) <> Shell (umount_lazy_cmd path).
Proof. discriminate. Qed.

Lemma length_append_string (a b : string) :
  String.length (a ++ b) = (String.length a + String.length b)%nat.
Proof. induction a as [|c a IH]; simpl; [reflexivity | now rewrite IH]. Qed.

Lemma umount_not_lazy path : Shell (umount_cmd path) <> Shell (umount_lazy_cmd path).
Proof.
  unfold umount_cmd, umount_lazy_cmd. intros H.
  injection H as H. apply (f_equal String.length) in H.
  simpl in H. rewrite !length_append_string in H. simpl in H. lia.
Qed.

Arguments is_query : simpl never.
Arguments mountpoint_query : simpl never.
Arguments mount_grep_query : simpl never.

Lemma mountpoint_is_query path : is_query path (mountpoint_query path) = true.
Proof. unfold is_query. now rewrite command_eqb_refl. Qed.

Lemma mount_grep_is_query path : is_query path (mount_grep_query path) = true.
Proof. unfold is_query. rewrite (command_eqb_refl (mount_grep_query path)). apply orb_true_r. Qed.

Section MountFacts.

Context {W : Type} {host : Host W}.

(** [is_mounted] never raises (both [except:] clauses are bare); it only
    launches its two queries and records one answer. *)
Lemma is_mounted_run path (w : W) :
  exists b t w',
    is_mounted path w = (Ok b, t, w')
    /\ observe path t = [Answer b]
    /\ (forall c, In c (spawned t) -> is_query path c = true).
Proof.
  unfold is_mounted, try_except, subprocess_run, spawn, bind, ret, raise,
    emit, any_exn.
  cbn beta.
  destruct (host_spawn (mountpoint_query path) (Some 5) w)
    as [[code out err | | msg] w1]; cbn.
  - eexists _, _, _. split; [reflexivity|].
    cbn [observe]. rewrite mountpoint_is_query. split; [reflexivity|].
    intros c [<-|[]]. apply mountpoint_is_query.
  - destruct (host_spawn (mount_grep_query path) (Some 5) w1)
      as [[code out err | | msg] w2]; cbn;
      (eexists _, _, _; split; [reflexivity|];
       cbn [observe]; rewrite mountpoint_is_query, mount_grep_is_query;
       split; [reflexivity|];
       intros c [<-|[<-|[]]];
       [apply mountpoint_is_query | apply mount_grep_is_query]).
  - destruct (host_spawn (mount_grep_query path) (Some 5) w1)
      as [[code out err | | msg'] w2]; cbn;
      (eexists _, _, _; split; [reflexivity|];
       cbn [observe]; rewrite mountpoint_is_query, mount_grep_is_query;
       split; [reflexivity|];
       intros c [<-|[<-|[]]];
       [apply mountpoint_is_query | apply mount_grep_is_query]).
Qed.

(** A command of [run_cmd] that is not a mount query is observed as one
    launch. *)
Lemma run_cmd_observed path cmd check capture ignore_error timeout (w : W) :
  is_query path (Shell cmd) = false ->
  exists v t w',
    run_cmd cmd check capture ignore_error timeout w = (Ok v, t, w')
    /\ observe path t = [Launch (Shell cmd)]
    /\ spawned t = [Shell cmd].
Proof.
  intros Hq.
  unfold run_cmd, try_except, check_output, subprocess_run, spawn, bind,
    print, emit, when, ret, raise.
  destruct capture, check, ignore_error; cbn;
    destruct (host_spawn (Shell cmd) timeout w) as [[code out err | | msg] w1];
    cbn; try destruct (code =? 0); cbn;
    try destruct (nonempty out); try destruct (nonempty err); cbn;
    eexists _, _, _; (split; [reflexivity|]);
    cbn [observe]; rewrite Hq; split; reflexivity.
Qed.

End MountFacts.

Arguments is_mounted : simpl never.
Arguments force_unmount : simpl never.

(** One step of symbolic execution of a sequence. *)
Ltac exec_with path :=
  cbv beta;
  match goal with
  | |- context [bind (bind ?m ?f) ?g ?w] => rewrite (bind_assoc m f g w)
  | |- context [bind (ret ?a) ?k ?w] => rewrite (bind_ret_l a k w)
  | |- context [bind (print ?s) ?k ?w] =>
      rewrite (bind_ok (print s) k w tt [EvPrint s] w eq_refl)
  | |- context [bind (sleep ?n) ?k ?w] =>
      rewrite (bind_ok (sleep n) k w tt [EvSleep n] (host_sleep n w) eq_refl)
  | |- context [bind (run_cmd ?c ?a ?b ?d ?t) ?k ?w] =>
      let E := fresh "E" in
      let Ho := fresh "Ho" in
      let Hs := fresh "Hs" in
      destruct (run_cmd_observed path c a b d t w eq_refl)
        as (? & ? & ? & E & Ho & Hs);
      rewrite (bind_ok _ k w _ _ _ E); clear E
  | |- context [bind (is_mounted ?p) ?k ?w] =>
      let b := fresh "b" in
      let E := fresh "E" in
      let Ho := fresh "Ho" in
      let Hq := fresh "Hq" in
      destruct (is_mounted_run p w) as (b & ? & ? & E & Ho & Hq);
      rewrite (bind_ok _ k w _ _ _ E); clear E;
      destruct b; cbn [negb]
  end;
  cbv beta; cbn [result_of trace_of world_of fst snd ret].

Ltac finish_obs :=
  eexists _, _, _; split; [reflexivity|];
  rewrite ?observe_app; cbn [observe];
  repeat match goal with H : observe _ _ = _ |- _ => rewrite H; clear H end;
  cbn [app].

Section PolicyFacts.

Context {W : Type} {host : Host W}.

Lemma force_unmount_attempts_run path n attempts (w : W) :
  exists b t w',
    force_unmount_attempts path n attempts w = (Ok b, t, w')
    /\ follows_policy path n attempts (observe path t) b.
Proof.
  revert w. induction attempts as [|attempt rest IH]; intros w;
    cbn [force_unmount_attempts].
  - exec_with path.
    + exec_with path. finish_obs. apply (policy_exhausted path n true).
    + finish_obs. apply (policy_exhausted path n false).
  - exec_with path.
    2:{ finish_obs. apply policy_free. }
    exec_with path.
    unfold when.
    destruct (attempt >? 0) eqn:Hkill; repeat exec_with path.
    all: try (finish_obs;
              pose proof (policy_released path n attempt rest) as R;
              unfold kill_first in R; rewrite Hkill in R; exact R).
    all: destruct (attempt =? n - 1) eqn:Hlast; repeat exec_with path.
    all: match goal with
         | |- context [force_unmount_attempts _ _ _ ?wk] =>
             destruct (IH wk) as (b & t & w' & E & HP); rewrite E
         end;
      cbn [result_of trace_of world_of fst snd];
      finish_obs;
      pose proof (policy_retry path n attempt rest _ _ HP) as R;
      unfold kill_first, lazy_last in R; rewrite Hkill, Hlast in R;
      exact R.
Qed.

End PolicyFacts.

Arguments fuser_cmd : simpl never.
Arguments umount_cmd : simpl never.
Arguments umount_lazy_cmd : simpl never.

Lemma range_two n : 2 <= n -> exists rest, range n = 0 :: 1 :: rest.
Proof.
  intros Hn. unfold range.
  destruct (Z.to_nat n) as [|[|k]] eqn:E; try lia.
  simpl. eexists. reflexivity.
Qed.

(** With at least two attempts allowed, a run in which one of the first
    four mount checks (before and after each of the first two [umount])
    finds the path unmounted succeeds without a lazy unmount. *)
Lemma policy_within_two path n rest o b :
  2 <= n ->
  follows_policy path n (0 :: 1 :: rest) o b ->
  existsb negb (firstn 4 (answers o)) = true ->
  b = true /\ ~ In (Launch (Shell (umount_lazy_cmd path))) o.
Proof.
  intros Hn HP Hans.
  assert (lazy_last path n 0 = []) as L0.
  { unfold lazy_last. destruct (Z.eqb_spec 0 (n - 1)); [lia | reflexivity]. }
  pose proof (umount_not_lazy path) as Hu.
  pose proof (fuser_not_lazy path) as Hf.
  inversion HP as [ | | | a r o1 b1 HP1]; subst; clear HP.
  - split; [reflexivity|]. intros [H|[]]; discriminate.
  - split; [reflexivity|]. cbn. intros [H|[H|[H|[]]]]; congruence.
  - rewrite L0 in *. cbn [kill_first Z.gtb Z.compare app] in *.
    inversion HP1 as [ | | | a r o2 b2 HP2]; subst; clear HP1.
    + split; [reflexivity|]. cbn. intros [H|[H|[H|[H|[]]]]]; congruence.
    + split; [reflexivity|]. cbn.
      intros [H|[H|[H|[H|[H|[H|[H|[]]]]]]]]; congruence.
    + exfalso. cbn in Hans. discriminate.
Qed.

Section PolicyClaim.

Context {W : Type} {host : Host W}.

(** C6.  For a path that exists, [force_unmount path n] never raises and
    what it does follows the retry policy over the attempts [0 .. n-1]:
    the first attempt is a plain [umount]; every later attempt first runs
    [fuser -km] and then [umount]; an [umount -l] is launched only in the
    last attempt, after its [umount] left the path mounted.  In particular,
    when [n] is at least 2 and the path is found unmounted by the checks of
    the first two attempts, the result is [True] and no [umount -l] is
    ever launched. *)
Theorem force_unmount_escalation path n (w : W) st w1 :
  host_stat path w = (Some st, w1) ->
  exists b,
    result_of (force_unmount path n w) = Ok b
    /\ follows_policy path n (range n)
         (observe path (trace_of (force_unmount path n w))) b
    /\ (2 <= n ->
        existsb negb
          (firstn 4 (mount_answers (trace_of (force_unmount path n w)))) = true ->
        b = true
        /\ ~ In (Shell (umount_lazy_cmd path))
                (spawned (trace_of (force_unmount path n w)))).
Proof.
  intros Est.
  destruct (force_unmount_attempts_run path n (range n) w1) as (b & t & w' & E & HP).
  assert (force_unmount path n w = (Ok b, t, w')) as R.
  { unfold force_unmount, os_path_exists, os_stat, bind, ret.
    rewrite Est. cbn. now rewrite E. }
  rewrite R. cbn [result_of trace_of fst snd].
  exists b. split; [reflexivity|]. split; [exact HP|].
  intros Hn Hans.
  destruct (range_two n Hn) as [rest Hr]. rewrite Hr in HP.
  rewrite <- (answers_observe path) in Hans.
  destruct (policy_within_two path n rest _ b Hn HP Hans) as [Hb Hno].
  split; [exact Hb|].
  intros Hin. apply Hno. apply launch_observed; [apply lazy_not_query | exact Hin].
Qed.

End PolicyClaim.

Lemma force_unmount_escalation_witness :
  result_of (force_unmount USB_BOOT 3 ScenarioMounts.w_busy) = Ok true
  /\ ~ In (Shell (umount_lazy_cmd USB_BOOT))
          (spawned (trace_of (force_unmount USB_BOOT 3 ScenarioMounts.w_busy))).
Proof.
  assert (host_stat USB_BOOT ScenarioMounts.w_busy
          = (Some Sim.directory, ScenarioMounts.w_busy)) as Hst
    by reflexivity.
  destruct (force_unmount_escalation USB_BOOT 3 ScenarioMounts.w_busy
              Sim.directory ScenarioMounts.w_busy Hst)
    as (b & Hr & _ & H2).
  assert (2 <= 3) as Hn by discriminate.
  destruct (H2 Hn eq_refl) as [Hb Hno].
  subst b. split; [exact Hr | exact Hno].
Defined.

(** ** The commands that release mounts *)

Lemma prefix_app pre rest : String.prefix pre (pre ++ rest) = true.
Proof. apply prefix_iff. now exists rest. Qed.

Lemma release_fuser x : release_family (Shell (fuser_cmd x)) = true.
Proof.
  unfold release_family, fuser_cmd. rewrite (prefix_app "fuser -km ").
  now destruct (String.prefix "mount | grep -q " _).
Qed.

Lemma release_umount x : release_family (Shell (umount_cmd x)) = true.
Proof.
  unfold release_family, umount_cmd. rewrite (prefix_app "umount ").
  now destruct (String.prefix "mount | grep -q " _), (String.prefix "fuser -km " _).
Qed.

Lemma release_umount_lazy x : release_family (Shell (umount_lazy_cmd x)) = true.
Proof.
  unfold release_family, umount_lazy_cmd.
  change ("umount -l " ++ x ++ " 2>/dev/null")
    with ("umount " ++ ("-l " ++ x ++ " 2>/dev/null")).
  rewrite (prefix_app "umount ").
  now destruct (String.prefix "mount | grep -q " _), (String.prefix "fuser -km " _).
Qed.

Lemma release_sweep device :
  release_family (Shell ("umount -l " ++ device ++ "* 2>/dev/null")) = true.
Proof.
  unfold release_family.
  change ("umount -l " ++ device ++ "* 2>/dev/null")
    with ("umount " ++ ("-l " ++ device ++ "* 2>/dev/null")).
  rewrite (prefix_app "umount ").
  now destruct (String.prefix "mount | grep -q " _), (String.prefix "fuser -km " _).
Qed.

Lemma release_lsblk device : release_family (Shell (lsblk_names_cmd device)) = true.
Proof.
  unfold release_family, lsblk_names_cmd.
  rewrite (prefix_app "lsblk -ln -o NAME ").
  now destruct (String.prefix "mount | grep -q " _), (String.prefix "fuser -km " _),
    (String.prefix "umount " _).
Qed.

Lemma release_mountpoint path : release_family (mountpoint_query path) = true.
Proof. reflexivity. Qed.

Lemma release_mount_grep path : release_family (mount_grep_query path) = true.
Proof.
  unfold release_family, mount_grep_query.
  change ("mount | grep -q ' " ++ path ++ " '")
    with ("mount | grep -q " ++ ("' " ++ path ++ " '")).
  now rewrite (prefix_app "mount | grep -q ").
Qed.

(** ** Reasoning with triples *)

Section Triples.

Context {W : Type} {host : Host W}.
Variable I : W -> Prop.
Variable P : list event -> Prop.
Hypothesis P_closed : closed P.

Lemma triple_ret {A} (Q : A -> Prop) (a : A) : Q a -> triple I P Q (ret a).
Proof.
  intros HQ w Hw. exists a, [], w.
  repeat split; auto. apply (closed_nil P P_closed).
Qed.

Lemma triple_bind {A B} (Q : A -> Prop) (R : B -> Prop)
    (m : M W A) (k : A -> M W B) :
  triple I P Q m -> (forall a, Q a -> triple I P R (k a)) ->
  triple I P R (bind m k).
Proof.
  intros Hm Hk w Hw.
  destruct (Hm w Hw) as (a & t1 & w1 & E1 & I1 & P1 & Q1).
  destruct (Hk a Q1 w1 I1) as (b & t2 & w2 & E2 & I2 & P2 & R2).
  exists b, (t1 ++ t2)%list, w2.
  rewrite (bind_ok m k w a t1 w1 E1), E2. cbn.
  repeat split; auto. now apply (closed_app P P_closed).
Qed.

Lemma triple_weaken {A} (Q R : A -> Prop) (m : M W A) :
  triple I P Q m -> (forall a, Q a -> R a) -> triple I P R m.
Proof.
  intros Hm HQR w Hw.
  destruct (Hm w Hw) as (a & t & w' & E & I' & P' & Q').
  exists a, t, w'. auto.
Qed.

Lemma triple_try {A} (Q : A -> Prop) (m : M W A) handled h :
  triple I P Q m -> triple I P Q (try_except m handled h).
Proof.
  intros Hm w Hw.
  destruct (Hm w Hw) as (a & t & w' & E & I' & P' & Q').
  exists a, t, w'. unfold try_except. rewrite E. auto.
Qed.

Lemma triple_emit (e : event) : P [e] -> triple I P anything (emit e).
Proof.
  intros He w Hw. exists tt, [e], w. repeat split; auto.
Qed.

Lemma triple_when (b : bool) (m : M W unit) :
  triple I P anything m -> triple I P anything (when b m).
Proof.
  intros Hm. destruct b; [exact Hm | now apply triple_ret].
Qed.

Lemma triple_for_each {A} (l : list A) (body : A -> M W unit) :
  (forall x, triple I P anything (body x)) ->
  triple I P anything (for_each l body).
Proof.
  intros Hb. induction l as [|x l IH]; cbn [for_each].
  - now apply triple_ret.
  - eapply triple_bind; [apply Hb | intros _ _; exact IH].
Qed.

Lemma triple_drop {A} (m : M W A) :
  triple I P anything m -> triple I P anything (bind m (fun _ => ret tt)).
Proof.
  intros Hm. eapply triple_bind; [exact Hm|].
  intros _ _. now apply triple_ret.
Qed.

End Triples.

Ltac tstep t := eapply triple_bind; [assumption | t | ].

Section MountTriples.

Context {W : Type} {host : Host W}.
Variable I : W -> Prop.
Variable P : list event -> Prop.
Variable allowed : command -> bool.
Hypothesis P_closed : closed P.
Hypothesis P_print : forall s, P [EvPrint s].
Hypothesis P_sleep : forall n, P [EvSleep n].
Hypothesis P_run_cmd :
  forall cmd check capture ignore_error timeout (w : W),
    allowed (Shell cmd) = true ->
    P (trace_of (run_cmd cmd check capture ignore_error timeout w)).
Hypothesis P_is_mounted : forall path (w : W), P (trace_of (is_mounted path w)).
Hypothesis I_stat : forall p w, I w -> I (snd (host_stat p w)).
Hypothesis I_sleep : forall n w, I w -> I (host_sleep n w).
Hypothesis I_spawn :
  forall c timeout w, allowed c = true -> I w -> I (snd (host_spawn c timeout w)).
Hypothesis allowed_release : forall c, release_family c = true -> allowed c = true.

Lemma triple_print s : triple I P anything (print s).
Proof. apply triple_emit. apply P_print. Qed.

Lemma triple_sleep n : triple I P anything (sleep n).
Proof.
  intros w Hw. exists tt, [EvSleep n], (host_sleep n w).
  repeat split; auto.
Qed.

Lemma triple_exists path : triple I P anything (os_path_exists path).
Proof.
  intros w Hw. unfold os_path_exists, os_stat, bind, ret.
  pose proof (I_stat path w Hw) as Hs.
  destruct (host_stat path w) as [r w1]. cbn in *.
  eexists _, _, _. split; [reflexivity|].
  repeat split; auto. apply (closed_nil P P_closed).
Qed.

(** The value of [run_cmd] is always one its flags allow. *)
Lemma triple_run_cmd cmd check capture ignore_error timeout :
  allowed (Shell cmd) = true ->
  triple I P (fun v => exists r, v = run_cmd_value check capture ignore_error r)
    (run_cmd cmd check capture ignore_error timeout).
Proof.
  intros Ha w Hw.
  destruct (run_cmd_run cmd check capture ignore_error timeout w) as (t & E & _).
  pose proof (P_run_cmd cmd check capture ignore_error timeout w Ha) as Ht.
  rewrite E in Ht.
  eexists _, _, _. split; [exact E|].
  repeat split; eauto.
Qed.

Lemma triple_run_cmd_any cmd check capture ignore_error timeout :
  allowed (Shell cmd) = true ->
  triple I P anything (run_cmd cmd check capture ignore_error timeout).
Proof.
  intros Ha. eapply triple_weaken; [now apply triple_run_cmd|].
  intros; exact Logic.I.
Qed.

Lemma triple_is_mounted path : triple I P anything (is_mounted path).
Proof.
  intros w Hw.
  pose proof (P_is_mounted path w) as Ht.
  assert (allowed (mountpoint_query path) = true) as A1
    by apply allowed_release, release_mountpoint.
  assert (allowed (mount_grep_query path) = true) as A2
    by apply allowed_release, release_mount_grep.
  pose proof (I_spawn (mountpoint_query path) (Some 5) w A1 Hw) as H1.
  revert Ht.
  unfold is_mounted, try_except, subprocess_run, spawn, bind, ret, raise,
    emit, any_exn.
  cbn beta.
  destruct (host_spawn (mountpoint_query path) (Some 5) w)
    as [[code out err | | msg] w1]; cbn in *.
  - intros Ht. eexists _, _, _. split; [reflexivity|]. repeat split; auto.
  - pose proof (I_spawn (mount_grep_query path) (Some 5) w1 A2 H1) as H2.
    destruct (host_spawn (mount_grep_query path) (Some 5) w1)
      as [[code out err | | msg] w2]; cbn in *;
      intros Ht; eexists _, _, _; (split; [reflexivity|]); repeat split; auto.
  - pose proof (I_spawn (mount_grep_query path) (Some 5) w1 A2 H1) as H2.
    destruct (host_spawn (mount_grep_query path) (Some 5) w1)
      as [[code out err | | msg'] w2]; cbn in *;
      intros Ht; eexists _, _, _; (split; [reflexivity|]); repeat split; auto.
Qed.

Lemma triple_force_unmount_attempts path n attempts :
  triple I P anything (force_unmount_attempts path n attempts).
Proof.
  assert (forall ck cap ie timeout,
             triple I P anything (run_cmd (fuser_cmd path) ck cap ie timeout)) as Hf
    by (intros; apply triple_run_cmd_any, allowed_release, release_fuser).
  assert (forall ck cap ie timeout,
             triple I P anything (run_cmd (umount_cmd path) ck cap ie timeout)) as Hu
    by (intros; apply triple_run_cmd_any, allowed_release, release_umount).
  assert (forall ck cap ie timeout,
             triple I P anything (run_cmd (umount_lazy_cmd path) ck cap ie timeout)) as Hl
    by (intros; apply triple_run_cmd_any, allowed_release, release_umount_lazy).
  induction attempts as [|attempt rest IH]; cbn [force_unmount_attempts].
  - tstep ltac:(apply triple_is_mounted).
    intros m _. destruct m; cbn [negb].
    + tstep ltac:(apply triple_print).
      intros _ _. now apply triple_ret.
    + now apply triple_ret.
  - tstep ltac:(apply triple_is_mounted).
    intros m _. destruct m; cbn [negb]; [|now apply triple_ret].
    tstep ltac:(apply triple_print). intros _ _.
    tstep ltac:(apply triple_when; [assumption|];
           tstep ltac:(apply Hf); intros _ _; apply triple_sleep).
    intros _ _.
    tstep ltac:(apply Hu). intros _ _.
    tstep ltac:(apply triple_sleep). intros _ _.
    tstep ltac:(apply triple_is_mounted).
    intros m _. destruct m; cbn [negb].
    + tstep ltac:(apply triple_when; [assumption|];
             tstep ltac:(apply triple_print); intros _ _;
             tstep ltac:(apply Hl); intros _ _; apply triple_sleep).
      intros _ _. exact IH.
    + tstep ltac:(apply triple_print).
      intros _ _. now apply triple_ret.
Qed.

Lemma triple_force_unmount path n : triple I P anything (force_unmount path n).
Proof.
  unfold force_unmount.
  tstep ltac:(apply triple_exists).
  intros e _. destruct e; cbn [negb].
  - apply triple_force_unmount_attempts.
  - now apply triple_ret.
Qed.

Lemma triple_unmount_all device : triple I P anything (unmount_all device).
Proof.
  unfold unmount_all.
  tstep ltac:(apply triple_print). intros _ _.
  tstep ltac:(apply triple_for_each; [assumption|]; intros mount;
         tstep ltac:(apply triple_exists); intros e _;
         apply triple_when; [assumption|]; apply triple_drop; [assumption|];
         apply triple_run_cmd_any, allowed_release, release_fuser).
  intros _ _.
  tstep ltac:(apply triple_sleep). intros _ _.
  tstep ltac:(apply triple_for_each; [assumption|]; intros mount;
         tstep ltac:(apply triple_exists); intros e _;
         apply triple_when; [assumption|]; apply triple_drop; [assumption|];
         apply triple_force_unmount).
  intros _ _.
  eapply triple_bind; [assumption | | ].
  { apply triple_try.
    tstep ltac:(apply triple_run_cmd, allowed_release, release_lsblk).
    intros v [r ->].
    assert (forall s, triple I P anything
              (when (nonempty s)
                 (for_each (split_on "010"%char s) (fun part =>
                    when (nonempty (strip part))
                      (bind (run_cmd (umount_lazy_cmd ("/dev/" ++ strip part))
                               false false true (Some 5))
                            (fun _ => ret tt)))))) as Hloop.
    { intros s. apply triple_when; [assumption|].
      apply triple_for_each; [assumption|]. intros part.
      apply triple_when; [assumption|]. apply triple_drop; [assumption|].
      apply triple_run_cmd_any, allowed_release, release_umount_lazy. }
    destruct r as [code out err | | msg]; cbn [run_cmd_value orb].
    - destruct (code =? 0); [apply Hloop | now apply triple_ret].
    - now apply triple_ret.
    - now apply triple_ret. }
  intros _ _.
  tstep ltac:(apply triple_run_cmd_any, allowed_release, release_sweep).
  intros _ _.
  tstep ltac:(apply triple_print). intros _ _.
  apply triple_sleep.
Qed.

End MountTriples.

(** ** Mount manager: the sweep *)

Lemma timeouts_logged_closed : closed timeouts_logged.
Proof.
  split.
  - intros c timeout [].
  - intros t1 t2 H1 H2 c timeout Hin Hp.
    rewrite printed_app. apply in_or_app.
    apply in_app_or in Hin as [Hin|Hin]; [left; now apply (H1 c timeout) |
                                          right; now apply (H2 c timeout)].
Qed.

Section SweepFacts.

Context {W : Type} {host : Host W}.

Lemma run_cmd_timeouts_logged cmd check capture ignore_error timeout (w : W) :
  timeouts_logged (trace_of (run_cmd cmd check capture ignore_error timeout w)).
Proof.
  unfold run_cmd, try_except, check_output, subprocess_run, spawn, bind,
    print, emit, when, ret, raise, trace_of, timeouts_logged.
  intros c timeout'.
  destruct capture, check, ignore_error; cbn;
    destruct (host_spawn (Shell cmd) timeout w) as [[code out err | | msg] w1];
    cbn; try destruct (code =? 0); cbn;
    try destruct (nonempty out); try destruct (nonempty err); cbn;
    intros Hin _;
    repeat (destruct Hin as [Hin|Hin]; try discriminate Hin);
    try contradiction;
    injection Hin as <- _; auto.
Qed.

Lemma is_mounted_timeouts_logged path (w : W) :
  timeouts_logged (trace_of (is_mounted path w)).
Proof.
  unfold is_mounted, try_except, subprocess_run, spawn, bind, ret, raise,
    emit, any_exn, trace_of, timeouts_logged.
  intros c timeout. cbn beta.
  destruct (host_spawn (mountpoint_query path) (Some 5) w)
    as [[code out err | | msg] w1]; cbn;
    try (destruct (host_spawn (mount_grep_query path) (Some 5) w1)
          as [[code' out' err' | | msg'] w2]; cbn);
    unfold mountpoint_query, mount_grep_query;
    intros Hin Hp;
    repeat (destruct Hin as [Hin|Hin]; try discriminate Hin);
    try contradiction;
    injection Hin as Hc _; subst c; simpl in Hp; discriminate Hp.
Qed.

(** [unmount_all] never raises, whatever the host answers, and every
    time-out of its commands is logged. *)
Lemma unmount_all_total device :
  triple (fun _ : W => True) timeouts_logged anything (unmount_all device).
Proof.
  apply (triple_unmount_all (fun _ => True) timeouts_logged (fun _ => true));
    auto using timeouts_logged_closed.
  - intros s c timeout [H|[]]; discriminate.
  - intros n c timeout [H|[]]; discriminate.
  - intros. apply run_cmd_timeouts_logged.
  - intros. apply is_mounted_timeouts_logged.
Qed.

(** C7 (as amended).  [unmount_all] never raises: for every device and
    every answer of the external commands (failure, time-out, launch
    failure, any output) it returns normally, and every time-out of a
    command it runs is logged; a non-zero exit of its [fuser] and [umount]
    commands, which run with [check=False], is ignored without a log line.
    On a host whose released state is stable under the commands of the
    release family (mount queries, [fuser], [umount], partition listing),
    two calls in succession both return normally and leave the host
    released. *)
Theorem unmount_all_never_raises device (w : W) :
  (exists t w',
     unmount_all device w = (Ok tt, t, w') /\ timeouts_logged t)
  /\ (forall released : W -> Prop,
        (forall c timeout w0, release_family c = true ->
           released w0 -> released (snd (host_spawn c timeout w0))) ->
        (forall p w0, released w0 -> released (snd (host_stat p w0))) ->
        (forall n w0, released w0 -> released (host_sleep n w0)) ->
        released w ->
        exists t1 w1 t2 w2,
          unmount_all device w = (Ok tt, t1, w1) /\ released w1
          /\ unmount_all device w1 = (Ok tt, t2, w2) /\ released w2).
Proof.
  split.
  - destruct (unmount_all_total device w Logic.I) as ([] & t & w' & E & _ & Ht & _).
    now exists t, w'.
  - intros released Hspawn Hstat Hsleep Hw.
    assert (triple released (fun _ => True) anything (unmount_all device)) as T.
    { apply (triple_unmount_all released (fun _ => True) release_family);
        auto.
      split; auto. }
    destruct (T w Hw) as ([] & t1 & w1 & E1 & Hw1 & _).
    destruct (T w1 Hw1) as ([] & t2 & w2 & E2 & Hw2 & _).
    now exists t1, w1, t2, w2.
Qed.

End SweepFacts.

Lemma released_stable_spawn c timeout w0 :
  release_family c = true -> ScenarioSweep.released w0 ->
  ScenarioSweep.released (snd (host_spawn c timeout w0)).
Proof. intros _ H. exact H. Qed.

Lemma unmount_all_never_raises_witness :
  exists t1 w1 t2 w2,
    unmount_all "/dev/sdb" ScenarioSweep.w_released = (Ok tt, t1, w1)
    /\ ScenarioSweep.released w1
    /\ unmount_all "/dev/sdb" w1 = (Ok tt, t2, w2)
    /\ ScenarioSweep.released w2.
Proof.
  apply (proj2 (unmount_all_never_raises "/dev/sdb" ScenarioSweep.w_released)
           ScenarioSweep.released).
  - exact released_stable_spawn.
  - intros p w0 H. exact H.
  - intros n w0 H. exact H.
  - split; reflexivity.
Defined.

(** C7 as stated fails on the logging.  The partition listing names
    [sdb1]; both lazy unmounts fail with status 32 and a diagnostic, and
    the output of [unmount_all] consists of the banner, the echo of the
    three commands and the closing line: no line reports a failure. *)
Lemma unmount_all_failures_not_logged :
  let run := unmount_all "/dev/sdb" ScenarioSweep.w_stuck in
  In (EvSpawn (Shell "umount -l /dev/sdb1 2>/dev/null") (Some 5)
        (Exited 32 "" ScenarioSweep.busy_text)) (trace_of run)
  /\ In (EvSpawn (Shell "umount -l /dev/sdb* 2>/dev/null") (Some 5)
          (Exited 32 "" ScenarioSweep.busy_text)) (trace_of run)
  /\ printed (trace_of run)
     = [ nl ++ "🔍 Unmounting all partitions on /dev/sdb..." ++ nl;
         ">> lsblk -ln -o NAME /dev/sdb 2>/dev/null | tail -n +2";
         ">> umount -l /dev/sdb1 2>/dev/null";
         ">> umount -l /dev/sdb* 2>/dev/null";
         "✓ Unmount complete" ++ nl ].
Proof.
  vm_compute. repeat split; auto 20.
Qed.

(** ** The copy stage *)

Lemma command_eqb_eq a b : command_eqb a b = true -> a = b.
Proof.
  destruct a as [x|x], b as [y|y]; simpl; try discriminate.
  - intros H. apply String.eqb_eq in H. now subst.
  - destruct (list_eq_dec string_dec x y); [now subst | discriminate].
Qed.

Lemma release_not_copy c : release_family c = true -> not_copy c = true.
Proof.
  intros H. unfold not_copy.
  destruct (command_eqb c (Shell rsync_cmd)) eqn:E; [|reflexivity].
  apply command_eqb_eq in E. subst c. discriminate H.
Qed.

Lemma no_copy_closed : closed no_copy.
Proof.
  split.
  - intros timeout r [].
  - intros t1 t2 H1 H2 timeout r Hin.
    apply in_app_or in Hin as [Hin|Hin];
      [now apply (H1 timeout r) | now apply (H2 timeout r)].
Qed.

Section CopyFacts.

Context {W : Type} {host : Host W}.

(** [run_cmd] prints, and launches its own command only. *)
Lemma run_cmd_events cmd check capture ignore_error timeout (w : W) e :
  In e (trace_of (run_cmd cmd check capture ignore_error timeout w)) ->
  (exists s, e = EvPrint s) \/ (exists r, e = EvSpawn (Shell cmd) timeout r).
Proof.
  unfold run_cmd, try_except, check_output, subprocess_run, spawn, bind,
    print, emit, when, ret, raise, trace_of.
  destruct capture, check, ignore_error; cbn;
    destruct (host_spawn (Shell cmd) timeout w) as [[code out err | | msg] w1];
    cbn; try destruct (code =? 0); cbn;
    try destruct (nonempty out); try destruct (nonempty err); cbn;
    intros Hin;
    repeat (destruct Hin as [Hin|Hin]; [subst e; eauto|]);
    contradiction.
Qed.

Lemma is_mounted_events path (w : W) e :
  In e (trace_of (is_mounted path w)) ->
  (exists b, e = EvMounted path b)
  \/ (exists c timeout r, e = EvSpawn c timeout r /\ is_query path c = true).
Proof.
  unfold is_mounted, try_except, subprocess_run, spawn, bind, ret, raise,
    emit, any_exn, trace_of.
  cbn beta.
  destruct (host_spawn (mountpoint_query path) (Some 5) w)
    as [[code out err | | msg] w1]; cbn;
    try (destruct (host_spawn (mount_grep_query path) (Some 5) w1)
          as [[code' out' err' | | msg'] w2]; cbn);
    intros Hin;
    repeat (destruct Hin as [Hin|Hin];
            [subst e; eauto 8 using mountpoint_is_query, mount_grep_is_query|]);
    contradiction.
Qed.

Lemma run_cmd_no_copy cmd check capture ignore_error timeout (w : W) :
  not_copy (Shell cmd) = true ->
  no_copy (trace_of (run_cmd cmd check capture ignore_error timeout w)).
Proof.
  intros Hn timeout' r Hin.
  apply run_cmd_events in Hin as [[s Hs]|[r' Hr]]; [discriminate|].
  injection Hr as Hc _ _. rewrite <- Hc in Hn.
  unfold not_copy in Hn. rewrite command_eqb_refl in Hn. discriminate.
Qed.

Lemma is_mounted_no_copy path (w : W) : no_copy (trace_of (is_mounted path w)).
Proof.
  intros timeout r Hin.
  apply is_mounted_events in Hin as [[b Hb]|(c & t & r' & He & Hq)];
    [discriminate|].
  injection He as <- _ _. discriminate Hq.
Qed.

End CopyFacts.

Section PrepareFacts.

Context {W : Type} {host : Host W}.
Variable P : list event -> Prop.
Hypothesis P_closed : closed P.
Hypothesis P_print : forall s, P [EvPrint s].
Hypothesis P_makedirs : forall p, P [EvMakedirs p].
Hypothesis P_chmod : forall p mode, P [EvChmod p mode].

Lemma closed_list l : Forall (fun e => P [e]) l -> P l.
Proof.
  induction 1 as [|e l He _ IH]; [apply (closed_nil P P_closed)|].
  now apply (closed_app P P_closed [e] l).
Qed.

(** [prepare_mount_points] never raises: a failure to create or to chmod
    a directory is reported and the loop goes on. *)
Lemma triple_prepare_mount_points :
  triple (fun _ : W => True) P anything prepare_mount_points.
Proof.
  unfold prepare_mount_points.
  apply triple_for_each; [assumption|].
  intros path w _.
  unfold try_except, bind, os_makedirs, os_chmod, print, emit.
  destruct (host_makedirs path w) as [[msg|] w1]; cbn.
  - eexists _, _, _. split; [reflexivity|].
    split; [exact Logic.I|]. split; [|exact Logic.I].
    apply closed_list. repeat constructor; auto.
  - destruct (host_chmod path 493 w1) as [[msg|] w2]; cbn;
      (eexists _, _, _; split; [reflexivity|];
       split; [exact Logic.I|]; split; [|exact Logic.I];
       apply closed_list; repeat constructor; auto).
Qed.

End PrepareFacts.

Section CopyStage.

Context {W : Type} {host : Host W}.

Lemma force_unmount_no_copy (path : string) (n : Z) :
  triple (fun _ : W => True) no_copy anything (force_unmount path n).
Proof.
  apply (triple_force_unmount (fun _ => True) no_copy not_copy);
    auto using no_copy_closed, release_not_copy.
  - intros s timeout r [H|[]]; discriminate.
  - intros k timeout r [H|[]]; discriminate.
  - intros. now apply run_cmd_no_copy.
  - intros. apply is_mounted_no_copy.
Qed.

Lemma prepare_no_copy :
  triple (fun _ : W => True) no_copy anything prepare_mount_points.
Proof.
  apply triple_prepare_mount_points; auto using no_copy_closed.
  - intros s timeout r [H|[]]; discriminate.
  - intros p timeout r [H|[]]; discriminate.
  - intros p mode timeout r [H|[]]; discriminate.
Qed.

Ltac exec_copy :=
  cbv beta;
  match goal with
  | |- context [bind (print ?s) ?k ?w] =>
      rewrite (bind_ok (print s) k w tt [EvPrint s] w eq_refl)
  | |- context [bind (sleep ?n) ?k ?w] =>
      rewrite (bind_ok (sleep n) k w tt [EvSleep n] (host_sleep n w) eq_refl)
  | |- context [bind prepare_mount_points ?k ?w] =>
      let E := fresh "E" in
      let Hn := fresh "Hn" in
      destruct (prepare_no_copy w Logic.I) as (? & ? & ? & E & _ & Hn & _);
      rewrite (bind_ok _ k w _ _ _ E); clear E
  | |- context [bind (force_unmount ?p ?n) ?k ?w] =>
      let E := fresh "E" in
      let Hn := fresh "Hn" in
      destruct (force_unmount_no_copy p n w Logic.I) as (? & ? & ? & E & _ & Hn & _);
      rewrite (bind_ok _ k w _ _ _ E); clear E
  | |- context [bind (run_cmd ?c ?a ?b ?d ?t) ?k ?w] =>
      let E := fresh "E" in
      let v := fresh "v" in
      destruct (run_cmd_ok c a b d t w) as (v & ? & ? & E & _ & _);
      pose proof (run_cmd_no_copy c a b d t w eq_refl);
      rewrite E in *;
      rewrite (bind_ok _ k w _ _ _ E); clear E
  end;
  cbv beta; cbn [result_of trace_of world_of fst snd ret] in *.

Ltac refute_copy Hin :=
  exfalso;
  repeat (apply in_app_or in Hin as [Hin|Hin]);
  try (match goal with
       | H : no_copy ?t |- _ => exact (H _ _ Hin)
       end);
  repeat (destruct Hin as [Hin|Hin]; try discriminate Hin);
  try contradiction.

(** The flush either completes or raises an [Exception] (a time-out, a
    launch failure). *)
Lemma sync_run (w : W) :
  (exists t w', sync w = (Ok tt, t, w') /\ no_copy t)
  \/ (exists e t w', sync w = (Raise e, t, w') /\ is_Exception e = true).
Proof.
  unfold sync, subprocess_run, spawn, bind, ret, raise.
  destruct (host_spawn (Shell "sync") (Some SYNC_TIMEOUT) w)
    as [[code out err | | msg] w1]; cbn.
  - left. eexists _, _. split; [reflexivity|].
    intros timeout r [H|[]]; discriminate.
  - right. eexists _, _, _. split; reflexivity.
  - right. eexists _, _, _. split; reflexivity.
Qed.

(** Once the copy command has been launched, [copy_iso_contents] does not
    report failure, whatever the command's outcome: it returns [True],
    unless the flush that follows raises. *)
Lemma copy_launched_never_false iso_path device (w : W) timeout r :
  In (EvSpawn (Shell rsync_cmd) timeout r)
     (trace_of (copy_iso_contents iso_path device w)) ->
  result_of (copy_iso_contents iso_path device w) = Ok true
  \/ exists e, result_of (copy_iso_contents iso_path device w) = Raise e
               /\ is_Exception e = true.
Proof.
  unfold copy_iso_contents.
  destruct (get_partition_names device) as [[part1 part2] part3].
  do 5 exec_copy.
  destruct (truthy v); cbn [negb].
  - do 4 exec_copy.
    destruct (truthy v0); cbn [negb].
    + intros _. do 2 exec_copy.
      destruct (run_cmd_ok rsync_cmd false false false None x11)
        as (vr & tr & wr & Er & _ & _).
      rewrite (bind_ok _ _ _ _ _ _ Er); clear Er.
      cbv beta; cbn [result_of trace_of world_of fst snd ret].
      exec_copy.
      destruct (sync_run wr) as [(ts & ws & Es & _)|(e & ts & ws & Es & He)].
      * rewrite (bind_ok _ _ _ _ _ _ Es); clear Es.
        cbv beta; cbn [result_of trace_of world_of fst snd ret].
        do 5 exec_copy. left. reflexivity.
      * rewrite (bind_raise _ _ _ _ _ _ Es).
        cbn [result_of trace_of world_of fst snd ret].
        right. exists e. split; [reflexivity | exact He].
    + do 2 exec_copy. intros Hin. refute_copy Hin.
  - exec_copy. intros Hin. refute_copy Hin.
Qed.

End CopyStage.

(** ** The pipeline around the copy stage *)

Section PipelineFacts.

Context {W : Type} {host : Host W}.

(** When the stages before the copy complete and [copy_iso_contents]
    reports failure, the [try] statement of [main] prints the error,
    runs [unmount_all] and exits with status 1; nothing else happens. *)
Lemma pipeline_on_copy_failure iso_path device (w : W) b0 t0 w0 tc wc :
  stages_before_copy device w = (Ok b0, t0, w0) ->
  copy_iso_contents iso_path device w0 = (Ok false, tc, wc) ->
  exists t_clean w',
    unmount_all device wc = (Ok tt, t_clean, w')
    /\ guarded_pipeline iso_path device w
       = (Raise (SystemExit 1),
          (t0 ++ tc
           ++ [EvPrint (nl ++ nl ++ "❌ Error: Failed to copy ISO");
               EvPrint (nl ++ "🧹 Cleaning up...")]
           ++ t_clean)%list,
          w').
Proof.
  intros Hs Hc.
  assert (pipeline iso_path device w
          = (Raise (OtherError "Failed to copy ISO"), (t0 ++ tc)%list, wc)) as Hp.
  { unfold pipeline. unfold stages_before_copy in Hs.
    unfold bind in Hs |- *.
    destruct (check_requirements w) as [[[u1|e1] t1] w1]; [|discriminate].
    destruct (unmount_all device w1) as [[[u2|e2] t2] w2]; [|discriminate].
    destruct (create_partitions device w2) as [[[u3|e3] t3] w3]; [|discriminate].
    destruct (setup_btrfs_subvolumes device w3) as [[[b4|e4] t4] w4];
      [|discriminate].
    injection Hs as -> <- ->.
    rewrite Hc. cbn. now rewrite !app_nil_r, <- !app_assoc. }
  destruct (unmount_all_total device wc Logic.I) as ([] & t_clean & w' & E & _).
  exists t_clean, w'. split; [exact E|].
  unfold guarded_pipeline, try_except. rewrite Hp.
  cbn [caught_by_main is_Exception on_failure].
  unfold bind, print, emit, sys_exit, raise. rewrite E. cbn.
  now rewrite !app_nil_r, <- !app_assoc.
Qed.

End PipelineFacts.

Section CopyVerdict.

Context {W : Type} {host : Host W}.

Lemma run_cmd_event cmd check capture ignore_error timeout (w : W) :
  In (EvSpawn (Shell cmd) timeout (fst (host_spawn (Shell cmd) timeout w)))
     (trace_of (run_cmd cmd check capture ignore_error timeout w)).
Proof.
  unfold run_cmd, try_except, check_output, subprocess_run, spawn, bind,
    print, emit, when, ret, raise, trace_of.
  destruct capture, check, ignore_error; cbn;
    destruct (host_spawn (Shell cmd) timeout w) as [[code out err | | msg] w1];
    cbn; try destruct (code =? 0); cbn;
    try destruct (nonempty out); try destruct (nonempty err); cbn; auto.
Qed.

Ltac exec_quiet :=
  cbv beta;
  match goal with
  | |- context [bind (print ?s) ?k ?w] =>
      rewrite (bind_ok (print s) k w tt [EvPrint s] w eq_refl)
  | |- context [bind (sleep ?n) ?k ?w] =>
      rewrite (bind_ok (sleep n) k w tt [EvSleep n] (host_sleep n w) eq_refl)
  | |- context [bind prepare_mount_points ?k ?w] =>
      let E := fresh "E" in
      destruct (prepare_no_copy w Logic.I) as (? & ? & ? & E & _);
      rewrite (bind_ok _ k w _ _ _ E); clear E
  | |- context [bind (force_unmount ?p ?n) ?k ?w] =>
      let E := fresh "E" in
      destruct (force_unmount_no_copy p n w Logic.I) as (? & ? & ? & E & _);
      rewrite (bind_ok _ k w _ _ _ E); clear E
  end;
  cbv beta; cbn [result_of trace_of world_of fst snd ret] in *.

Ltac find_in H :=
  first [ exact H
        | apply in_or_app; first [ left; exact H | right; find_in H ] ].

Ltac exec_required r Hev :=
  match goal with
  | |- context [bind (run_cmd ?c ?a ?b ?d ?t) ?k ?w] =>
      let E := fresh "E" in
      let tr := fresh "tr" in
      destruct (run_cmd_run c a b d t w) as (tr & E & _);
      pose proof (run_cmd_event c a b d t w) as Hev;
      rewrite E in Hev;
      rewrite (bind_ok _ k w _ _ _ E); clear E;
      set (r := fst (host_spawn (Shell c) t w)) in *
  end;
  cbv beta; cbn [result_of trace_of world_of fst snd ret] in *.

(** The verdict of the copy stage is decided by its two mount commands:
    when the mount of the image fails the stage returns [False]; when it
    succeeds and the mount of the boot partition fails, the stage returns
    [False]; when both succeed the copy command is launched and, whatever
    its outcome, the stage returns [True] (or the flush raises). *)
Lemma copy_iso_contents_verdict iso_path device (w : W) :
  let run := copy_iso_contents iso_path device w in
  let part2 := snd (fst (get_partition_names device)) in
  exists r1,
    In (EvSpawn (Shell (mount_iso_cmd iso_path)) (Some 15) r1) (trace_of run)
    /\ (required_failed r1 = true -> result_of run = Ok false)
    /\ (required_failed r1 = false ->
        exists r2,
          In (EvSpawn (Shell (mount_boot_cmd part2)) (Some 15) r2) (trace_of run)
          /\ (required_failed r2 = true -> result_of run = Ok false)
          /\ (required_failed r2 = false ->
              exists r3,
                In (EvSpawn (Shell rsync_cmd) None r3) (trace_of run)
                /\ (result_of run = Ok true
                    \/ exists e, result_of run = Raise e
                                 /\ is_Exception e = true))).
Proof.
  intros run part2'. subst run part2'.
  unfold copy_iso_contents.
  destruct (get_partition_names device) as [[part1 part2] part3].
  cbn [fst snd].
  do 4 exec_quiet.
  exec_required r1 Hev1.
  exists r1. split; [find_in Hev1|].
  unfold required_failed.
  destruct (truthy (run_cmd_value true false false r1)); cbn [negb].
  - split; [discriminate|]. intros _.
    do 3 exec_quiet.
    exec_required r2 Hev2.
    exists r2. split; [find_in Hev2|].
    destruct (truthy (run_cmd_value true false false r2)); cbn [negb].
    + split; [discriminate|]. intros _.
      do 2 exec_quiet.
      exec_required r3 Hev3.
      exists r3. split; [find_in Hev3|].
      exec_quiet.
      match goal with
      | |- context [bind sync ?k ?w0] =>
          destruct (sync_run w0) as [(ts & ws & Es & _)|(e & ts & ws & Es & He)];
          [rewrite (bind_ok _ k w0 _ _ _ Es) | rewrite (bind_raise _ k w0 _ _ _ Es)]
      end;
      cbv beta; cbn [result_of trace_of world_of fst snd ret].
      * do 5 exec_quiet. left. reflexivity.
      * right. exists e. split; [reflexivity | exact He].
    + split; [|discriminate]. intros _.
      do 2 exec_quiet. reflexivity.
  - split; [|discriminate]. intros _.
    exec_quiet. reflexivity.
Qed.

End CopyVerdict.

Lemma in_by_eqb c l : existsb (command_eqb c) l = true -> In c l.
Proof.
  intros H. apply existsb_exists in H as (x & Hin & E).
  apply command_eqb_eq in E. now subst.
Qed.

Lemma in_by_string_eqb s l : existsb (String.eqb s) l = true -> In s l.
Proof.
  intros H. apply existsb_exists in H as (x & Hin & E).
  apply String.eqb_eq in E. now subst.
Qed.

Lemma not_in_by_string_eqb s l : existsb (String.eqb s) l = false -> ~ In s l.
Proof.
  intros E Hin.
  assert (existsb (String.eqb s) l = true) as E'.
  { apply existsb_exists. exists s. split; [assumption | apply String.eqb_refl]. }
  congruence.
Qed.

Section CopyClaim.

Context {W : Type} {host : Host W}.

(** C2 (as amended).  What aborts the run in the copy stage is a failure
    of one of its two required mount commands (the loop mount of the image,
    the mount of the boot partition): the stage then returns [False], and
    [main] raises, prints the error, runs the full [unmount_all] cleanup
    and exits with status 1, no later stage being run.  A non-zero exit of
    the copy command itself does not abort anything: once it has been
    launched the stage returns [True] whatever its exit status (unless the
    flush that follows raises). *)
Theorem copy_stage_failure iso_path device :
  (forall w : W,
     let run := copy_iso_contents iso_path device w in
     let part2 := snd (fst (get_partition_names device)) in
     exists r1,
       In (EvSpawn (Shell (mount_iso_cmd iso_path)) (Some 15) r1) (trace_of run)
       /\ (required_failed r1 = true -> result_of run = Ok false)
       /\ (required_failed r1 = false ->
           exists r2,
             In (EvSpawn (Shell (mount_boot_cmd part2)) (Some 15) r2)
                (trace_of run)
             /\ (required_failed r2 = true -> result_of run = Ok false)
             /\ (required_failed r2 = false ->
                 exists r3,
                   In (EvSpawn (Shell rsync_cmd) None r3) (trace_of run)
                   /\ (result_of run = Ok true
                       \/ exists e, result_of run = Raise e
                                    /\ is_Exception e = true))))
  /\ (forall (w : W) b0 t0 w0 tc wc,
        stages_before_copy device w = (Ok b0, t0, w0) ->
        copy_iso_contents iso_path device w0 = (Ok false, tc, wc) ->
        exists t_clean w',
          unmount_all device wc = (Ok tt, t_clean, w')
          /\ guarded_pipeline iso_path device w
             = (Raise (SystemExit 1),
                (t0 ++ tc
                 ++ [EvPrint (nl ++ nl ++ "❌ Error: Failed to copy ISO");
                     EvPrint (nl ++ "🧹 Cleaning up...")]
                 ++ t_clean)%list,
                w')
          /\ exit_status (result_of (guarded_pipeline iso_path device w)) = 1)
  /\ (forall (w : W) timeout r,
        In (EvSpawn (Shell rsync_cmd) timeout r)
           (trace_of (copy_iso_contents iso_path device w)) ->
        result_of (copy_iso_contents iso_path device w) = Ok true
        \/ exists e,
             result_of (copy_iso_contents iso_path device w) = Raise e
             /\ is_Exception e = true).
Proof.
  split; [|split].
  - intros w. apply copy_iso_contents_verdict.
  - intros w b0 t0 w0 tc wc Hs Hc.
    destruct (pipeline_on_copy_failure iso_path device w b0 t0 w0 tc wc Hs Hc)
      as (t_clean & w' & Hu & Hg).
    exists t_clean, w'. rewrite Hg. repeat split; auto.
  - intros w timeout r. apply copy_launched_never_false.
Qed.

End CopyClaim.

Lemma copy_stage_failure_witness :
  result_of (copy_iso_contents "debian.iso" "/dev/sdb"
               ScenarioRun.w_iso_mount_fails) = Ok false
  /\ (exists t w',
        guarded_pipeline "debian.iso" "/dev/sdb" ScenarioRun.w_iso_mount_fails
        = (Raise (SystemExit 1), t, w')
        /\ In (nl ++ nl ++ "❌ Error: Failed to copy ISO") (printed t))
  /\ (result_of (copy_iso_contents "debian.iso" "/dev/sdb"
                   ScenarioRun.w_copy_fails) = Ok true
      \/ exists e,
           result_of (copy_iso_contents "debian.iso" "/dev/sdb"
                        ScenarioRun.w_copy_fails) = Raise e
           /\ is_Exception e = true).
Proof.
  split; [|split].
  - destruct (proj1 (copy_stage_failure "debian.iso" "/dev/sdb")
                ScenarioRun.w_iso_mount_fails) as (r1 & Hin & Hfail & _).
    apply Hfail. vm_compute in Hin.
    repeat (destruct Hin as [Hin|Hin]; [try discriminate Hin|]);
      [injection Hin as <-; reflexivity | contradiction].
  - pose (x := stages_before_copy (W := Sim.sim) "/dev/sdb"
                 ScenarioRun.w_iso_mount_fails).
    pose (y := copy_iso_contents "debian.iso" "/dev/sdb" (world_of x)).
    assert (result_of x = Ok true) as Hrx by (vm_compute; reflexivity).
    assert (x = (Ok true, trace_of x, world_of x)) as Hs
      by (rewrite <- Hrx; apply triple_eta).
    assert (result_of y = Ok false) as Hry by (vm_compute; reflexivity).
    assert (y = (Ok false, trace_of y, world_of y)) as Hc
      by (rewrite <- Hry; apply triple_eta).
    destruct (proj1 (proj2 (copy_stage_failure "debian.iso" "/dev/sdb"))
                ScenarioRun.w_iso_mount_fails true (trace_of x) (world_of x)
                (trace_of y) (world_of y) Hs Hc)
      as (t_clean & w' & Hu & Hg & _).
    eexists _, w'. split; [exact Hg|].
    rewrite !printed_app. apply in_or_app. right. apply in_or_app. right.
    apply in_or_app. left. left. reflexivity.
  - apply (proj2 (proj2 (copy_stage_failure "debian.iso" "/dev/sdb"))
             ScenarioRun.w_copy_fails None (Exited 23 "" "")).
    vm_compute. auto 50.
Defined.

(** C2 as stated fails.  The copy command exits with status 23, and yet
    [main] returns normally (exit status 0): the copy stage reports
    success, the bootloader is installed afterwards, and no error is
    printed. *)
Lemma copy_failure_is_swallowed :
  let run := main ScenarioRun.argv ScenarioRun.w_copy_fails in
  copy_exit_codes (trace_of run) = [23]
  /\ result_of run = Ok tt
  /\ exit_status (result_of run) = 0
  /\ In "✅ ISO contents copied!" (printed (trace_of run))
  /\ In (Shell ("grub-install --target=i386-pc --boot-directory="
                ++ USB_BOOT ++ "/boot /dev/sdb"))
        (spawned (trace_of run))
  /\ ~ In (nl ++ nl ++ "❌ Error: Failed to copy ISO") (printed (trace_of run)).
Proof.
  intros run. split; [vm_compute; reflexivity|].
  split; [vm_compute; reflexivity|].
  split; [vm_compute; reflexivity|].
  split; [apply in_by_string_eqb; vm_compute; reflexivity|].
  split; [apply in_by_eqb; vm_compute; reflexivity|].
  apply not_in_by_string_eqb; vm_compute; reflexivity.
Qed.

(** ** Confirmation *)

Section Emits.

Context {W : Type} {host : Host W}.
Variable P : list event -> Prop.
Hypothesis P_closed : closed P.
Hypothesis P_print : forall s, P [EvPrint s].

Lemma emits_ret {A} (a : A) : emits (W := W) P (ret a).
Proof. intros w. apply (closed_nil P P_closed). Qed.

Lemma emits_raise {A} e : emits (W := W) (A := A) P (raise e).
Proof. intros w. apply (closed_nil P P_closed). Qed.

Lemma emits_bind {A B} (m : M W A) (k : A -> M W B) :
  emits P m -> (forall a, emits P (k a)) -> emits P (bind m k).
Proof.
  intros Hm Hk w. specialize (Hm w). unfold bind, trace_of in *.
  destruct (m w) as [[[a|e] t1] w1]; cbn in *; [|exact Hm].
  specialize (Hk a w1). unfold trace_of in Hk.
  destruct (k a w1) as [[r t2] w2]. cbn in *.
  now apply (closed_app P P_closed).
Qed.

Lemma emits_try {A} (m : M W A) handled h :
  emits P m -> (forall e, emits P (h e)) -> emits P (try_except m handled h).
Proof.
  intros Hm Hh w. specialize (Hm w). unfold try_except, trace_of in *.
  destruct (m w) as [[[a|e] t1] w1]; cbn in *; [exact Hm|].
  destruct (handled e); [|exact Hm].
  specialize (Hh e w1). unfold trace_of in Hh.
  destruct (h e w1) as [[r t2] w2]. cbn in *.
  now apply (closed_app P P_closed).
Qed.

Lemma emits_print s : emits (W := W) P (print s).
Proof. intros w. apply P_print. Qed.

Lemma emits_when b (m : M W unit) : emits P m -> emits P (when b m).
Proof. intros Hm. destruct b; [exact Hm | apply emits_ret]. Qed.

Lemma emits_stat path : emits P (os_stat path).
Proof.
  intros w. unfold os_stat, trace_of.
  destruct (host_stat path w). apply (closed_nil P P_closed).
Qed.

Lemma emits_exists path : emits P (os_path_exists path).
Proof.
  apply emits_bind; [apply emits_stat | intros; apply emits_ret].
Qed.

Lemma emits_isfile path : emits P (os_path_isfile path).
Proof.
  apply emits_bind; [apply emits_stat | intros; apply emits_ret].
Qed.

Lemma emits_getsize path : emits P (os_path_getsize path).
Proof.
  apply emits_bind; [apply emits_stat|].
  intros [st|]; [apply emits_ret | apply emits_raise].
Qed.

Lemma emits_stat_or_raise path : emits P (os_stat_or_raise path).
Proof.
  apply emits_bind; [apply emits_stat|].
  intros [st|]; [apply emits_ret | apply emits_raise].
Qed.

Lemma emits_geteuid : emits P os_geteuid.
Proof.
  intros w. unfold os_geteuid, trace_of.
  destruct (host_geteuid w). apply (closed_nil P P_closed).
Qed.

Lemma emits_scan_mountpoints device lines :
  emits (W := W) P (scan_mountpoints device lines).
Proof.
  induction lines as [|line rest IH]; cbn [scan_mountpoints].
  - apply emits_ret.
  - destruct (split_ws line) as [|name [|mountpoint more]]; try exact IH.
    destruct (mem_string mountpoint critical_mounts); [|exact IH].
    apply emits_bind; [apply emits_print|]. intros _.
    apply emits_bind; [apply emits_print|]. intros _.
    apply emits_ret.
Qed.

End Emits.

Lemma Forall_closed {A} (Q : A -> Prop) : forall l1 l2,
  Forall Q l1 -> Forall Q l2 -> Forall Q (l1 ++ l2).
Proof. intros l1 l2 H1 H2. apply Forall_app. now split. Qed.

Lemma preflight_closed device : closed (Forall (preflight_event device)).
Proof. split; [constructor | apply Forall_closed]. Qed.

Lemma preflight_no_input device t :
  Forall (preflight_event device) t -> first_input t = None.
Proof.
  induction 1 as [|e t He _ IH]; [reflexivity|].
  destruct e; cbn in *; auto. contradiction.
Qed.

Lemma preflight_read_only device t :
  Forall (preflight_event device) t -> Forall (read_only_event device) t.
Proof.
  apply Forall_impl. intros e. destruct e; cbn; auto.
Qed.

Section Preflight.

Context {W : Type} {host : Host W}.
Variable device : string.

Local Notation "'Pre'" := (Forall (preflight_event device)).

Lemma emits_preflight_query cmd check capture ignore_error timeout :
  In (Shell cmd) (preflight_queries device) ->
  emits (W := W) Pre (run_cmd cmd check capture ignore_error timeout).
Proof.
  intros Hin w. apply Forall_forall. intros e He.
  apply run_cmd_events in He as [[s ->]|[r ->]]; cbn; auto.
Qed.

Lemma preflight_print s : Pre [EvPrint s].
Proof. repeat constructor. Qed.

Lemma emits_check_root : emits (W := W) Pre check_root.
Proof.
  pose proof (preflight_closed device) as C.
  pose proof preflight_print as Pp.
  unfold check_root.
  apply emits_bind; [assumption | now apply emits_geteuid |].
  intros uid. destruct (negb (uid =? 0)); [|now apply emits_ret].
  apply emits_bind; [assumption | now apply emits_print |].
  intros _. now apply emits_raise.
Qed.

Lemma emits_validate_iso iso_path : emits (W := W) Pre (validate_iso iso_path).
Proof.
  pose proof (preflight_closed device) as C.
  pose proof preflight_print as Pp.
  unfold validate_iso.
  apply emits_bind; [assumption | now apply emits_exists |].
  intros e. destruct (negb e).
  { apply emits_bind; [assumption | now apply emits_print |].
    intros _. now apply emits_ret. }
  apply emits_bind; [assumption | now apply emits_isfile |].
  intros f. destruct (negb f).
  { apply emits_bind; [assumption | now apply emits_print |].
    intros _. now apply emits_ret. }
  apply emits_bind; [assumption | now apply emits_getsize |].
  intros size.
  apply emits_bind; [assumption | |].
  { apply emits_when; [assumption|]. now apply emits_print. }
  intros _.
  apply emits_bind; [assumption | now apply emits_print |].
  intros _. now apply emits_ret.
Qed.

Lemma emits_validate_device : emits (W := W) Pre (validate_device device).
Proof.
  pose proof (preflight_closed device) as C.
  pose proof preflight_print as Pp.
  unfold validate_device.
  apply emits_bind; [assumption | now apply emits_exists |].
  intros e. destruct (negb e).
  { apply emits_bind; [assumption | now apply emits_print |].
    intros _. now apply emits_ret. }
  apply emits_bind; [assumption | |].
  { apply emits_try; [assumption | |].
    - apply emits_bind; [assumption | now apply emits_stat_or_raise |].
      intros st. destruct (negb (S_ISBLK (st_mode st))); [|now apply emits_ret].
      apply emits_bind; [assumption | now apply emits_print |].
      intros _. now apply emits_ret.
    - intros ex. apply emits_bind; [assumption | now apply emits_print |].
      intros _. now apply emits_ret. }
  intros [v|]; [now apply emits_ret|].
  apply emits_bind; [assumption | |].
  { apply emits_try; [assumption | |].
    - apply emits_bind; [assumption | |].
      + apply emits_preflight_query. cbn. auto.
      + intros [s | [|] | ]; try now apply emits_ret.
        * destruct (nonempty s); [|now apply emits_ret].
          now apply emits_scan_mountpoints.
        * now apply emits_raise.
    - intros ex. apply emits_bind; [assumption | now apply emits_print |].
      intros _. now apply emits_ret. }
  intros [v|]; now apply emits_ret.
Qed.

Lemma emits_show_device_info : emits (W := W) Pre (show_device_info device).
Proof.
  pose proof (preflight_closed device) as C.
  pose proof preflight_print as Pp.
  unfold show_device_info.
  apply emits_bind; [assumption | now apply emits_print |]. intros _.
  apply emits_bind; [assumption | now apply emits_print |]. intros _.
  apply emits_bind; [assumption | |].
  { apply emits_try; [assumption | | intros; now apply emits_ret].
    apply emits_bind; [assumption | |].
    - apply emits_preflight_query. cbn. auto.
    - intros v. apply emits_when; [assumption|].
      destruct v as [s| |]; try now apply emits_ret.
      destruct (int_of_string s); [now apply emits_print | now apply emits_raise]. }
  intros _.
  apply emits_bind; [assumption | |].
  { apply emits_try; [assumption | | intros; now apply emits_ret].
    apply emits_bind; [assumption | |].
    - apply emits_preflight_query. cbn. auto.
    - intros v. apply emits_when; [assumption|].
      destruct v as [s| |]; try now apply emits_raise.
      apply emits_bind; [assumption | now apply emits_print |].
      intros _. now apply emits_print. }
  intros _. now apply emits_print.
Qed.

End Preflight.

Arguments guarded_pipeline : simpl never.

Section Confirmation.

Context {W : Type} {host : Host W}.

Lemma input_run (w0 : W) :
  match host_input w0 with
  | (Some line, w1) => input w0 = (Ok line, [EvInput (Some line)], w1)
  | (None, w1) =>
      input w0 = (Raise (OtherError "EOF when reading a line"), [EvInput None], w1)
  end.
Proof. unfold input. now destruct (host_input w0) as [[line|] w1]. Qed.

(** What the confirmation does with the line it reads. *)
Lemma confirm_and_run_cases iso_path device (w0 : W) :
  let c := confirm_and_run iso_path device w0 in
  match host_input w0 with
  | (None, w1) =>
      c = (Raise (OtherError "EOF when reading a line"),
           (prompt_events iso_path device ++ [EvInput None])%list, w1)
  | (Some line, w1) =>
      if String.eqb (strip line) "YES"
      then exists rest,
          trace_of c
          = (prompt_events iso_path device ++ EvInput (Some line) :: rest)%list
      else c = (Raise (SystemExit 0),
                (prompt_events iso_path device
                 ++ [EvInput (Some line); EvPrint "❌ Operation cancelled"])%list,
                w1)
  end.
Proof.
  intros c. subst c. unfold confirm_and_run.
  rewrite (bind_ok (print _) _ w0 tt [EvPrint _] w0 eq_refl). cbv beta.
  rewrite (bind_ok (print _) _ w0 tt [EvPrint _] w0 eq_refl). cbv beta.
  rewrite (bind_ok (print _) _ w0 tt [EvPrint _] w0 eq_refl). cbv beta.
  rewrite (bind_ok (emit _) _ w0 tt [EvPrompt _] w0 eq_refl). cbv beta.
  cbn [result_of trace_of world_of fst snd].
  pose proof (input_run w0) as Hi.
  destruct (host_input w0) as [[line|] w1].
  - rewrite (bind_ok _ _ _ _ _ _ Hi). cbv beta.
    cbn [result_of trace_of world_of fst snd].
    destruct (String.eqb (strip line) "YES"); cbn [negb].
    + eexists. reflexivity.
    + reflexivity.
  - rewrite (bind_raise _ _ _ _ _ _ Hi). reflexivity.
Qed.

Ltac exec_pre lem :=
  cbv beta;
  match goal with
  | |- context [bind ?m ?k ?w] =>
      let E := fresh "E" in
      let Ht := fresh "Ht" in
      pose proof (lem w) as Ht; unfold trace_of in Ht;
      destruct (m w) as [[[?|?] ?] ?] eqn:E; cbn [fst snd] in Ht;
      [ rewrite (bind_ok _ k w _ _ _ E) | rewrite (bind_raise _ k w _ _ _ E) ];
      clear E
  end;
  cbv beta; cbn [result_of trace_of world_of fst snd].

Ltac pre_forall :=
  repeat match goal with
         | |- Forall _ [] => apply Forall_nil
         | |- Forall _ (_ :: _) => apply Forall_cons; [exact Logic.I|]
         | |- Forall _ (_ ++ _)%list => apply Forall_app; split
         | |- Forall _ _ => assumption
         end.

Ltac stop_before_prompt :=
  eexists; split; [| left; reflexivity]; pre_forall.

(** Up to the prompt, [main] only prints and runs the preflight queries;
    it either stops there (wrong arguments, not root, failed validation)
    or goes on with the confirmation. *)
Lemma main_before_prompt prog iso_path device (w : W) :
  let run := main [prog; iso_path; device] w in
  exists t0,
    Forall (preflight_event device) t0
    /\ (trace_of run = t0
        \/ exists w0,
             run = (result_of (confirm_and_run iso_path device w0),
                    (t0 ++ trace_of (confirm_and_run iso_path device w0))%list,
                    world_of (confirm_and_run iso_path device w0))).
Proof.
  intros run. subst run. unfold main.
  rewrite (bind_ok (print _) _ w tt [EvPrint _] w eq_refl). cbv beta.
  rewrite (bind_ok (print _) _ w tt [EvPrint _] w eq_refl). cbv beta.
  rewrite (bind_ok (print _) _ w tt [EvPrint _] w eq_refl). cbv beta.
  rewrite (bind_ok (print _) _ w tt [EvPrint _] w eq_refl). cbv beta.
  cbn [result_of trace_of world_of fst snd].
  exec_pre (emits_check_root (W := W) device); [|stop_before_prompt].
  exec_pre (emits_validate_iso (W := W) device iso_path); [|stop_before_prompt].
  match goal with |- context [negb ?b] => destruct b; cbn [negb] end.
  2:{ cbn. stop_before_prompt. }
  exec_pre (emits_validate_device (W := W) device); [|stop_before_prompt].
  match goal with |- context [negb ?b] => destruct b; cbn [negb] end.
  2:{ cbn. stop_before_prompt. }
  exec_pre (emits_show_device_info (W := W) device); [|stop_before_prompt].
  rewrite !app_assoc.
  eexists. split; [|right; eexists; reflexivity].
  pre_forall.
Qed.

End Confirmation.

Lemma first_input_app device t0 t :
  Forall (preflight_event device) t0 -> first_input (t0 ++ t) = first_input t.
Proof.
  induction 1 as [|e t0 He _ IH]; [reflexivity|].
  destruct e; cbn in *; auto. contradiction.
Qed.

Lemma read_only_app device t1 t2 :
  Forall (read_only_event device) t1 -> Forall (read_only_event device) t2 ->
  Forall (read_only_event device) (t1 ++ t2).
Proof. apply Forall_closed. Qed.

Section ConfirmationClaim.

Context {W : Type} {host : Host W}.

(** C4 (as amended).  The line read at the prompt is compared with [YES]
    after its surrounding white space is stripped.  Unless the stripped
    line is exactly [YES], nothing but output and the three read-only
    preflight queries ever happens; and when a line is read whose stripped
    form is not [YES] (the lower-case [yes] for one), [main] exits with
    status 0. *)
Theorem confirmation_required prog iso_path device (w : W) :
  let run := main [prog; iso_path; device] w in
  (Forall (read_only_event device) (trace_of run)
   \/ exists line,
        first_input (trace_of run) = Some line /\ strip line = "YES")
  /\ (forall line,
        first_input (trace_of run) = Some line ->
        strip line <> "YES" ->
        result_of run = Raise (SystemExit 0)
        /\ exit_status (result_of run) = 0
        /\ Forall (read_only_event device) (trace_of run)).
Proof.
  intros run.
  destruct (main_before_prompt prog iso_path device w)
    as (t0 & Ht0 & [Htr | (w0 & Hrun)]); fold run in Htr || fold run in Hrun.
  - rewrite Htr. split.
    + left. now apply preflight_read_only.
    + intros line Hin. rewrite (preflight_no_input device t0 Ht0) in Hin.
      discriminate.
  - pose proof (confirm_and_run_cases iso_path device w0) as Hc.
    cbv zeta in Hc.
    assert (Forall (read_only_event device) (prompt_events iso_path device)) as Hp
      by (repeat constructor).
    rewrite Hrun. cbn [result_of trace_of fst snd].
    rewrite (first_input_app device t0 _ Ht0).
    destruct (host_input w0) as [[line|] w1].
    + destruct (String.eqb_spec (strip line) "YES") as [Hyes|Hno].
      * destruct Hc as [rest Hc]. rewrite Hc.
        split.
        -- right. exists line. split; [reflexivity | exact Hyes].
        -- intros line' Hl. cbn in Hl. injection Hl as <-. contradiction.
      * rewrite Hc. cbn [result_of trace_of fst snd].
        assert (Forall (read_only_event device)
                  (t0 ++ prompt_events iso_path device
                   ++ [EvInput (Some line); EvPrint "❌ Operation cancelled"])) as Hall.
        { apply read_only_app; [now apply preflight_read_only|].
          apply read_only_app; [exact Hp | repeat constructor]. }
        split; [left; exact Hall|].
        intros line' _ _.
        split; [reflexivity | split; [reflexivity | exact Hall]].
    + rewrite Hc. cbn [result_of trace_of fst snd].
      split.
      * left. apply read_only_app; [now apply preflight_read_only|].
        apply read_only_app; [exact Hp | repeat constructor].
      * intros line' Hl. cbn in Hl. discriminate.
Qed.

End ConfirmationClaim.

Lemma confirmation_required_witness :
  let run := main ScenarioRun.argv ScenarioPrompt.w_lowercase in
  result_of run = Raise (SystemExit 0)
  /\ exit_status (result_of run) = 0
  /\ Forall (read_only_event "/dev/sdb") (trace_of run).
Proof.
  intros run.
  refine (proj2 (confirmation_required "persistent_usb.py" "debian.iso" "/dev/sdb"
                   ScenarioPrompt.w_lowercase) "yes" _ _).
  - vm_compute. reflexivity.
  - vm_compute. discriminate.
Defined.

(** C4 as stated fails on white space: the line [  YES ] is not the
    literal [YES], and yet the run is not a decline: the pipeline starts
    and repartitions the device. *)
Lemma padded_confirmation_proceeds :
  let run := main ScenarioRun.argv ScenarioPrompt.w_padded in
  first_input (trace_of run) = Some "  YES "
  /\ "  YES " <> "YES"
  /\ result_of run <> Raise (SystemExit 0)
  /\ In (Shell "parted -s /dev/sdb mklabel gpt") (spawned (trace_of run)).
Proof.
  intros run. split; [vm_compute; reflexivity|].
  split; [discriminate|].
  split; [vm_compute; discriminate|].
  apply in_by_eqb. vm_compute. reflexivity.
Qed.

(** * Further properties of the script *)

(** ** Mount queries *)

Section MountQueries.

Context {W : Type} {host : Host W}.

(** X1.  [is_mounted] never raises.  When [mountpoint -q] runs to completion
    its exit status decides and the fallback is not launched; when it
    times out or cannot be launched, [mount | grep -q] is launched and
    decides; when that one does not complete either, the answer is
    [False]. *)
Theorem is_mounted_answer path (w : W) :
  let r1 := fst (host_spawn (mountpoint_query path) (Some 5) w) in
  let w1 := snd (host_spawn (mountpoint_query path) (Some 5) w) in
  let r2 := fst (host_spawn (mount_grep_query path) (Some 5) w1) in
  let run := is_mounted path w in
  (forall code out err, r1 = Exited code out err ->
     result_of run = Ok (code =? 0)
     /\ spawned (trace_of run) = [mountpoint_query path])
  /\ (did_not_complete r1 ->
      result_of run = Ok (exited_zero r2)
      /\ spawned (trace_of run)
         = [mountpoint_query path; mount_grep_query path]).
Proof.
  intros r1 w1 r2 run. subst r1 w1 r2 run.
  unfold is_mounted, try_except, subprocess_run, spawn, bind, ret, raise,
    emit, any_exn, result_of, trace_of.
  cbn beta.
  destruct (host_spawn (mountpoint_query path) (Some 5) w)
    as [[code out err | | msg] w1]; cbn.
  - split.
    + intros c o e H. injection H as <- _ _. split; reflexivity.
    + intros [].
  - split; [discriminate|]. intros _.
    destruct (host_spawn (mount_grep_query path) (Some 5) w1)
      as [[code out err | | msg] w2]; cbn; split; reflexivity.
  - split; [discriminate|]. intros _.
    destruct (host_spawn (mount_grep_query path) (Some 5) w1)
      as [[code out err | | msg'] w2]; cbn; split; reflexivity.
Qed.

(** When neither mount query completes, [is_mounted] answers [False]. *)
Lemma is_mounted_unknown path (w : W) :
  did_not_complete (fst (host_spawn (mountpoint_query path) (Some 5) w)) ->
  did_not_complete
    (fst (host_spawn (mount_grep_query path) (Some 5)
            (snd (host_spawn (mountpoint_query path) (Some 5) w)))) ->
  exists t w',
    is_mounted path w = (Ok false, t, w')
    /\ spawned t = [mountpoint_query path; mount_grep_query path].
Proof.
  unfold is_mounted, try_except, subprocess_run, spawn, bind, ret, raise,
    emit, any_exn.
  cbn beta.
  destruct (host_spawn (mountpoint_query path) (Some 5) w)
    as [[code out err | | msg] w1]; cbn; intros H1 H2; [contradiction | |];
    destruct (host_spawn (mount_grep_query path) (Some 5) w1)
      as [[code out err | | msg'] w2]; cbn in *; try contradiction;
    eexists _, _; split; reflexivity.
Qed.

(** On a path that exists, [force_unmount] is its retry loop. *)
Lemma force_unmount_existing path n (w : W) st w1 :
  host_stat path w = (Some st, w1) ->
  force_unmount path n w = force_unmount_attempts path n (range n) w1.
Proof.
  intros Est. unfold force_unmount, os_path_exists, os_stat, bind, ret.
  rewrite Est. cbn.
  destruct (force_unmount_attempts path n (range n) w1) as [[r t] w2].
  reflexivity.
Qed.

(** X2.  When the mount state of an existing path cannot be determined
    (neither mount query runs to completion), [force_unmount] reports
    success at once: it returns [True] having launched the two queries and
    no [fuser] or [umount] at all, whatever [max_attempts] is. *)
Theorem force_unmount_unknown_state path n (w : W) st w1 :
  host_stat path w = (Some st, w1) ->
  did_not_complete (fst (host_spawn (mountpoint_query path) (Some 5) w1)) ->
  did_not_complete
    (fst (host_spawn (mount_grep_query path) (Some 5)
            (snd (host_spawn (mountpoint_query path) (Some 5) w1)))) ->
  result_of (force_unmount path n w) = Ok true
  /\ spawned (trace_of (force_unmount path n w))
     = [mountpoint_query path; mount_grep_query path].
Proof.
  intros Est H1 H2.
  destruct (is_mounted_unknown path w1 H1 H2) as (t & w' & E & Hs).
  rewrite (force_unmount_existing path n w st w1 Est).
  destruct (range n) as [|attempt rest]; cbn [force_unmount_attempts];
    rewrite (bind_ok _ _ _ _ _ _ E); cbn; rewrite app_nil_r; auto.
Qed.

End MountQueries.

Lemma force_unmount_unknown_state_witness :
  result_of (force_unmount USB_BOOT 3
               (Sim.start (Scenario.always TimedOut)
                  ScenarioSweep.all_directories [])) = Ok true
  /\ spawned (trace_of (force_unmount USB_BOOT 3
                          (Sim.start (Scenario.always TimedOut)
                             ScenarioSweep.all_directories [])))
     = [mountpoint_query USB_BOOT; mount_grep_query USB_BOOT].
Proof.
  apply (force_unmount_unknown_state USB_BOOT 3
           (Sim.start (Scenario.always TimedOut)
              ScenarioSweep.all_directories [])
           Sim.directory
           (Sim.start (Scenario.always TimedOut)
              ScenarioSweep.all_directories [])).
  - reflexivity.
  - exact Logic.I.
  - exact Logic.I.
Defined.

Lemma is_mounted_answer_witness :
  result_of (is_mounted USB_BOOT ScenarioMounts.w_busy) = Ok true
  /\ spawned (trace_of (is_mounted USB_BOOT ScenarioMounts.w_busy))
     = [mountpoint_query USB_BOOT].
Proof.
  exact (proj1 (is_mounted_answer USB_BOOT ScenarioMounts.w_busy)
           0 "" "" eq_refl).
Defined.

(** ** Mount manager: how much the retry loop does *)

Lemma launches_app o1 o2 :
  launches (o1 ++ o2) = (launches o1 ++ launches o2)%list.
Proof.
  induction o1 as [|[b|c] o1 IH]; simpl; [reflexivity | exact IH | now rewrite IH].
Qed.

Lemma answers_app o1 o2 :
  answers (o1 ++ o2) = (answers o1 ++ answers o2)%list.
Proof.
  induction o1 as [|[b|c] o1 IH]; simpl; [reflexivity | now rewrite IH | exact IH].
Qed.

Lemma times_app c l1 l2 :
  times c (l1 ++ l2) = (times c l1 + times c l2)%nat.
Proof. unfold times. now rewrite filter_app, length_app. Qed.

Lemma times_cons c x l :
  times c (x :: l) = ((if command_eqb c x then 1 else 0) + times c l)%nat.
Proof. unfold times. simpl. now destruct (command_eqb c x). Qed.

Lemma command_eqb_neq a b : a <> b -> command_eqb a b = false.
Proof.
  intros H. destruct (command_eqb a b) eqn:E; [|reflexivity].
  now apply command_eqb_eq in E.
Qed.

(** The commands observed are the launched ones that are not mount
    queries. *)
Lemma launches_observe path t :
  launches (observe path t)
  = filter (fun c => negb (is_query path c)) (spawned t).
Proof.
  induction t as [|e t IH]; [reflexivity|].
  destruct e; simpl; try exact IH.
  destruct (is_query path cmd); simpl; [exact IH | now rewrite IH].
Qed.

Lemma times_observe path c t :
  is_query path c = false ->
  times c (launches (observe path t)) = times c (spawned t).
Proof.
  intros Hq. rewrite launches_observe. unfold times.
  induction (spawned t) as [|x l IH]; [reflexivity|].
  simpl. destruct (command_eqb c x) eqn:E.
  - apply command_eqb_eq in E. subst x. rewrite Hq. simpl.
    rewrite command_eqb_refl. simpl. now rewrite IH.
  - destruct (is_query path x); simpl; rewrite ?E; exact IH.
Qed.

Lemma fuser_not_umount path : Shell (fuser_cmd path) <> Shell (umount_cmd path).
Proof. discriminate. Qed.

Lemma kill_first_counts path attempt :
  times (Shell (umount_cmd path)) (launches (kill_first path attempt)) = 0%nat
  /\ times (Shell (umount_lazy_cmd path)) (launches (kill_first path attempt)) = 0%nat
  /\ times (Shell (fuser_cmd path)) (launches (kill_first path attempt))
     = (if attempt >? 0 then 1%nat else 0%nat)
  /\ answers (kill_first path attempt) = [].
Proof.
  unfold kill_first. destruct (attempt >? 0); simpl; auto.
  rewrite !times_cons, command_eqb_refl.
  rewrite (command_eqb_neq _ _ (fun H => fuser_not_umount path (eq_sym H))).
  rewrite (command_eqb_neq _ _ (fun H => fuser_not_lazy path (eq_sym H))).
  auto.
Qed.

Lemma lazy_last_counts path n attempt :
  times (Shell (umount_cmd path)) (launches (lazy_last path n attempt)) = 0%nat
  /\ times (Shell (umount_lazy_cmd path)) (launches (lazy_last path n attempt))
     = (if attempt =? n - 1 then 1%nat else 0%nat)
  /\ times (Shell (fuser_cmd path)) (launches (lazy_last path n attempt)) = 0%nat
  /\ answers (lazy_last path n attempt) = [].
Proof.
  unfold lazy_last. destruct (attempt =? n - 1); simpl; auto.
  rewrite !times_cons, command_eqb_refl.
  rewrite (command_eqb_neq _ _ (umount_not_lazy path)).
  rewrite (command_eqb_neq _ _ (fuser_not_lazy path)).
  auto.
Qed.

Lemma umount_counts path :
  times (Shell (umount_cmd path)) [Shell (umount_cmd path)] = 1%nat
  /\ times (Shell (umount_lazy_cmd path)) [Shell (umount_cmd path)] = 0%nat
  /\ times (Shell (fuser_cmd path)) [Shell (umount_cmd path)] = 0%nat.
Proof.
  rewrite !times_cons, command_eqb_refl.
  rewrite (command_eqb_neq _ _ (fun H => umount_not_lazy path (eq_sym H))).
  rewrite (command_eqb_neq _ _ (fuser_not_umount path)).
  auto.
Qed.

(** The retry policy over the attempts [k .. k+m-1] of [n]: bounds on what
    is launched, the shape of the answers, and the exact figures of a run
    that gives up. *)
Lemma policy_counts path n m : forall k o b,
  (m = 0 \/ k + m = Z.to_nat n)%nat ->
  follows_policy path n (map Z.of_nat (seq k m)) o b ->
  let first := match k with O => 1%nat | S _ => 0%nat end in
  ((times (Shell (umount_cmd path)) (launches o) <= m)%nat
   /\ (times (Shell (umount_lazy_cmd path)) (launches o) <= Nat.min 1 m)%nat
   /\ (times (Shell (fuser_cmd path)) (launches o) <= m - first)%nat
   /\ exists j, (j <= 2 * m)%nat
                /\ answers o = (repeat true j ++ [negb b])%list)
  /\ (b = false ->
      times (Shell (umount_cmd path)) (launches o) = m
      /\ times (Shell (umount_lazy_cmd path)) (launches o) = Nat.min 1 m
      /\ times (Shell (fuser_cmd path)) (launches o) = (m - first)%nat
      /\ answers o = repeat true (2 * m + 1)).
Proof.
  induction m as [|m IH]; intros k o b Hk HP first; simpl in HP.
  - inversion HP; subst. simpl.
    split.
    + refine (conj _ (conj _ (conj _ _)));
        try (unfold times; simpl; lia).
      exists 0%nat. split; [lia|]. simpl. now rewrite negb_involutive.
    + intros Hb. destruct mounted; [|discriminate].
      repeat split; reflexivity.
  - destruct (kill_first_counts path (Z.of_nat k)) as (Ku & Kl & Kf & Ka).
    destruct (lazy_last_counts path n (Z.of_nat k)) as (Lu & Ll & Lf & La).
    destruct (umount_counts path) as (Uu & Ul & Uf).
    assert ((if Z.of_nat k >? 0 then 1%nat else 0%nat)
            = (1 - first)%nat) as Hfirst.
    { subst first. destruct k; [reflexivity|].
      destruct (Z.gtb_spec (Z.of_nat (S k)) 0); [reflexivity | lia]. }
    rewrite Hfirst in Kf.
    inversion HP as [ | | | a r o1 b1 HP1]; subst; clear HP.
    + split; [|discriminate].
      simpl. refine (conj _ (conj _ (conj _ _)));
        try (unfold times; simpl; lia).
      exists 0%nat. split; [lia | reflexivity].
    + split; [|discriminate].
      cbn [launches answers].
      rewrite launches_app, answers_app, !times_app, Ku, Kl, Kf, Ka.
      cbn [launches answers app]. rewrite Uu, Ul, Uf.
      refine (conj _ (conj _ (conj _ _)));
        try (subst first; destruct k; simpl; lia).
      exists 1%nat. split; [lia | reflexivity].
    + assert (m = 0 \/ S k + m = Z.to_nat n)%nat as Hk' by lia.
      destruct (IH (S k) o1 b Hk' HP1) as [(Bu & Bl & Bf & j & Hj & Ba) Ex].
      assert ((if Z.of_nat k =? n - 1 then 1%nat else 0%nat)
              = (Nat.min 1 (S m) - Nat.min 1 m)%nat) as Hlast.
      { destruct (Z.eqb_spec (Z.of_nat k) (n - 1)); destruct m; simpl; lia. }
      rewrite Hlast in Ll.
      cbn [launches answers].
      rewrite !launches_app, !answers_app, !times_app, Ku, Kl, Kf, Ka.
      rewrite Lu, Ll, Lf, La.
      cbn [launches answers app]. rewrite Uu, Ul, Uf.
      split.
      * refine (conj _ (conj _ (conj _ _)));
          try (subst first; destruct k, m; simpl in *; lia).
        exists (S (S j)). split; [lia|]. simpl. now rewrite Ba.
      * intros Hb. destruct (Ex Hb) as (Eu & El & Ef & Ea).
        rewrite Eu, El, Ef, Ea.
        refine (conj _ (conj _ (conj _ _)));
          try (subst first; destruct k, m; simpl in *; lia).
        replace (2 * S m + 1)%nat with (S (S (2 * m + 1))) by lia.
        reflexivity.
Qed.

Section RetryBounds.

Context {W : Type} {host : Host W}.

Lemma force_unmount_counts path n (w : W) st w1 :
  host_stat path w = (Some st, w1) ->
  exists b t w',
    force_unmount path n w = (Ok b, t, w')
    /\ follows_policy path n (map Z.of_nat (seq 0 (Z.to_nat n)))
         (observe path t) b.
Proof.
  intros Est.
  destruct (force_unmount_attempts_run path n (range n) w1)
    as (b & t & w' & E & HP).
  exists b, t, w'. split; [|exact HP].
  now rewrite (force_unmount_existing path n w st w1 Est).
Qed.

(** X3.  On an existing path [force_unmount path n] launches [umount] at
    most [n] times, [fuser -km] at most [n - 1] times and [umount -l] at
    most once; it makes at most [2n + 1] mount checks, every check but the
    last one finds the path mounted, and the result is [True] exactly when
    the last check finds it unmounted. *)
Theorem force_unmount_bounded path n (w : W) st w1 :
  host_stat path w = (Some st, w1) ->
  exists b j,
    result_of (force_unmount path n w) = Ok b
    /\ (times (Shell (umount_cmd path))
          (spawned (trace_of (force_unmount path n w))) <= Z.to_nat n)%nat
    /\ (times (Shell (fuser_cmd path))
          (spawned (trace_of (force_unmount path n w))) <= Z.to_nat n - 1)%nat
    /\ (times (Shell (umount_lazy_cmd path))
          (spawned (trace_of (force_unmount path n w))) <= 1)%nat
    /\ (j <= 2 * Z.to_nat n)%nat
    /\ mount_answers (trace_of (force_unmount path n w))
       = (repeat true j ++ [negb b])%list.
Proof.
  intros Est.
  destruct (force_unmount_counts path n w st w1 Est) as (b & t & w' & E & HP).
  rewrite E. cbn [result_of trace_of fst snd].
  destruct (policy_counts path n (Z.to_nat n) 0 _ b (or_intror eq_refl) HP)
    as [(Bu & Bl & Bf & j & Hj & Ba) _].
  rewrite (times_observe path _ t (umount_not_query path)) in Bu.
  rewrite (times_observe path _ t (lazy_not_query path)) in Bl.
  rewrite (times_observe path _ t (fuser_not_query path)) in Bf.
  rewrite (answers_observe path) in Ba.
  exists b, j. repeat split; try assumption; lia.
Qed.

(** X4.  [force_unmount path n] returns [False] on an existing path only
    after the whole escalation was spent: all [2n + 1] mount checks found
    the path mounted, [umount] was launched [n] times, [fuser -km] before
    each one but the first, and (when [n >= 1]) the lazy unmount once. *)
Theorem force_unmount_gives_up_last path n (w : W) st w1 :
  host_stat path w = (Some st, w1) ->
  result_of (force_unmount path n w) = Ok false ->
  mount_answers (trace_of (force_unmount path n w))
  = repeat true (2 * Z.to_nat n + 1)
  /\ times (Shell (umount_cmd path))
       (spawned (trace_of (force_unmount path n w))) = Z.to_nat n
  /\ times (Shell (fuser_cmd path))
       (spawned (trace_of (force_unmount path n w))) = (Z.to_nat n - 1)%nat
  /\ times (Shell (umount_lazy_cmd path))
       (spawned (trace_of (force_unmount path n w)))
     = Nat.min 1 (Z.to_nat n).
Proof.
  intros Est.
  destruct (force_unmount_counts path n w st w1 Est) as (b & t & w' & E & HP).
  rewrite E. cbn [result_of trace_of fst snd].
  intros Hb. injection Hb as ->.
  destruct (policy_counts path n (Z.to_nat n) 0 _ false (or_intror eq_refl) HP)
    as [_ Ex].
  destruct (Ex eq_refl) as (Eu & El & Ef & Ea).
  rewrite (times_observe path _ t (umount_not_query path)) in Eu.
  rewrite (times_observe path _ t (lazy_not_query path)) in El.
  rewrite (times_observe path _ t (fuser_not_query path)) in Ef.
  rewrite (answers_observe path) in Ea.
  repeat split; assumption.
Qed.

End RetryBounds.

Lemma force_unmount_bounded_witness :
  exists b j,
    result_of (force_unmount USB_BOOT 3 ScenarioMounts.w_busy) = Ok b
    /\ (times (Shell (umount_cmd USB_BOOT))
          (spawned (trace_of (force_unmount USB_BOOT 3 ScenarioMounts.w_busy)))
        <= Z.to_nat 3)%nat
    /\ (times (Shell (fuser_cmd USB_BOOT))
          (spawned (trace_of (force_unmount USB_BOOT 3 ScenarioMounts.w_busy)))
        <= Z.to_nat 3 - 1)%nat
    /\ (times (Shell (umount_lazy_cmd USB_BOOT))
          (spawned (trace_of (force_unmount USB_BOOT 3 ScenarioMounts.w_busy)))
        <= 1)%nat
    /\ (j <= 2 * Z.to_nat 3)%nat
    /\ mount_answers (trace_of (force_unmount USB_BOOT 3 ScenarioMounts.w_busy))
       = (repeat true j ++ [negb b])%list.
Proof.
  exact (force_unmount_bounded USB_BOOT 3 ScenarioMounts.w_busy
           Sim.directory ScenarioMounts.w_busy eq_refl).
Defined.

Lemma force_unmount_gives_up_last_witness :
  mount_answers (trace_of (force_unmount USB_BOOT 3 ScenarioHeld.w_held))
  = repeat true (2 * Z.to_nat 3 + 1)
  /\ times (Shell (umount_cmd USB_BOOT))
       (spawned (trace_of (force_unmount USB_BOOT 3 ScenarioHeld.w_held)))
     = Z.to_nat 3
  /\ times (Shell (fuser_cmd USB_BOOT))
       (spawned (trace_of (force_unmount USB_BOOT 3 ScenarioHeld.w_held)))
     = (Z.to_nat 3 - 1)%nat
  /\ times (Shell (umount_lazy_cmd USB_BOOT))
       (spawned (trace_of (force_unmount USB_BOOT 3 ScenarioHeld.w_held)))
     = Nat.min 1 (Z.to_nat 3).
Proof.
  apply (force_unmount_gives_up_last USB_BOOT 3 ScenarioHeld.w_held
           Sim.directory ScenarioHeld.w_held).
  - reflexivity.
  - vm_compute. reflexivity.
Defined.

(** ** Mount manager: what the sweep launches *)

Lemma launches_only_closed F : closed (launches_only F).
Proof.
  split.
  - constructor.
  - intros t1 t2 H1 H2. unfold launches_only in *.
    rewrite spawned_app. apply Forall_app. now split.
Qed.

Lemma any_trace_closed : closed any_trace.
Proof. split; intros; exact Logic.I. Qed.

Lemma is_query_release path c :
  is_query path c = true -> release_family c = true.
Proof.
  unfold is_query. intros H. apply orb_true_iff in H as [H|H];
    apply command_eqb_eq in H; subst c;
    [apply release_mountpoint | apply release_mount_grep].
Qed.

Section Totality.

Context {W : Type} {host : Host W}.

(** A computation that returns normally, followed by a continuation. *)
Lemma triple_then {A B} (I : W -> Prop) P (Q : A -> Prop)
    (m : M W A) (k : A -> M W B) w :
  triple I P Q m -> I w ->
  exists a t1 w1,
    I w1 /\ P t1 /\ Q a
    /\ bind m k w
       = (result_of (k a w1), (t1 ++ trace_of (k a w1))%list,
          world_of (k a w1)).
Proof.
  intros Hm Hw. destruct (Hm w Hw) as (a & t1 & w1 & E & I1 & P1 & Q1).
  exists a, t1, w1. repeat split; auto. now apply bind_ok.
Qed.

Lemma run_cmd_launches_only (F : command -> bool)
    cmd check capture ignore_error timeout (w : W) :
  F (Shell cmd) = true ->
  launches_only F (trace_of (run_cmd cmd check capture ignore_error timeout w)).
Proof.
  intros HF.
  destruct (run_cmd_run cmd check capture ignore_error timeout w)
    as (t & E & Hs & _).
  rewrite E. cbn [trace_of fst snd]. unfold launches_only. rewrite Hs.
  now constructor.
Qed.

Lemma is_mounted_launches_only path (w : W) :
  launches_only release_family (trace_of (is_mounted path w)).
Proof.
  destruct (is_mounted_run path w) as (b & t & w' & E & _ & Hq).
  rewrite E. cbn [trace_of fst snd]. apply Forall_forall.
  intros c Hin. apply (is_query_release path), Hq, Hin.
Qed.

Lemma unmount_all_run device (w : W) :
  exists t w',
    unmount_all device w = (Ok tt, t, w')
    /\ launches_only release_family t.
Proof.
  assert (triple (fun _ : W => True) (launches_only release_family) anything
            (unmount_all device)) as T.
  { apply (triple_unmount_all (fun _ => True) (launches_only release_family)
             release_family); auto using launches_only_closed.
    - intros s. constructor.
    - intros n. constructor.
    - intros. now apply run_cmd_launches_only.
    - intros. apply is_mounted_launches_only. }
  destruct (T w Logic.I) as ([] & t & w' & E & _ & Ht & _).
  now exists t, w'.
Qed.

(** X5.  Whatever the host answers, [unmount_all] returns normally and the
    only commands it launches are the mount queries, [fuser -km],
    [umount] (plain or lazy) and the partition listing: it never launches
    a command that partitions, formats or mounts. *)
Theorem unmount_all_only_releases device (w : W) :
  exists t w',
    unmount_all device w = (Ok tt, t, w')
    /\ launches_only release_family t.
Proof. exact (unmount_all_run device w). Qed.

Lemma total_for_each_fuser :
  triple (fun _ : W => True) any_trace anything
    (for_each all_mounts (fun mount =>
       e <- os_path_exists mount ;;
       when e (run_cmd (fuser_cmd mount) false false true (Some 5) ;; ret tt))).
Proof.
  pose proof any_trace_closed as C.
  apply triple_for_each; [assumption|]. intros mount.
  tstep ltac:(apply (triple_exists (fun _ => True) any_trace); auto).
  intros e _. apply triple_when; [assumption|]. apply triple_drop; [assumption|].
  apply (triple_run_cmd_any (fun _ => True) any_trace (fun _ => true));
    auto; intros; exact Logic.I.
Qed.

Lemma total_for_each_force_unmount :
  triple (fun _ : W => True) any_trace anything
    (for_each all_mounts (fun mount_point =>
       e <- os_path_exists mount_point ;;
       when e (force_unmount mount_point 3 ;; ret tt))).
Proof.
  pose proof any_trace_closed as C.
  apply triple_for_each; [assumption|]. intros mount.
  tstep ltac:(apply (triple_exists (fun _ => True) any_trace); auto).
  intros e _. apply triple_when; [assumption|]. apply triple_drop; [assumption|].
  apply (triple_force_unmount (fun _ => True) any_trace (fun _ => true));
    auto; intros; exact Logic.I.
Qed.

Lemma total_print s :
  triple (fun _ : W => True) any_trace anything (print s).
Proof. apply triple_print. intros; exact Logic.I. Qed.

Lemma total_sleep n :
  triple (fun _ : W => True) any_trace anything (sleep n).
Proof.
  apply triple_sleep; auto using any_trace_closed; intros; exact Logic.I.
Qed.

End Totality.

Ltac total_step T :=
  match goal with
  | |- context [bind ?m ?k ?w] =>
      let E := fresh "E" in
      destruct (triple_then (fun _ => True) any_trace anything m k w
                  T Logic.I) as (? & ? & ? & _ & _ & _ & E);
      rewrite E; clear E; cbv beta
  end.

Section SweepEnd.

Context {W : Type} {host : Host W}.

(** A bare [except: pass] around a block: the block's exception, if any,
    is dropped. *)
Lemma try_pass_total (m : M W unit) :
  triple (fun _ : W => True) any_trace anything
    (try_except m any_exn (fun _ => ret tt)).
Proof.
  intros w _. unfold try_except, any_exn, ret.
  destruct (m w) as [[[[]|e] t] w1]; eexists _, _, _;
    (split; [reflexivity|]); repeat split; exact Logic.I.
Qed.

Lemma unmount_all_sweep_last device (w : W) :
  exists pre out,
    spawned (trace_of (unmount_all device w))
    = (pre ++ [Shell ("umount -l " ++ device ++ "* 2>/dev/null")])%list
    /\ printed (trace_of (unmount_all device w))
       = (out ++ [("✓ Unmount complete" ++ nl)%string])%list.
Proof.
  unfold unmount_all.
  total_step (total_print (W := W)
                (nl ++ "🔍 Unmounting all partitions on " ++ device ++ "..." ++ nl)).
  total_step (total_for_each_fuser (W := W)).
  total_step (total_sleep (W := W) 1000).
  total_step (total_for_each_force_unmount (W := W)).
  match goal with
  | |- context [bind (try_except ?m _ _) _ _] => total_step (try_pass_total m)
  end.
  match goal with
  | |- context [bind (run_cmd ?c ?a ?b ?d ?t) ?k ?w] =>
      destruct (run_cmd_run c a b d t w) as (tr & E & Hs & _);
      rewrite (bind_ok _ k w _ _ _ E); clear E; cbv beta
  end.
  cbn [trace_of result_of world_of fst snd].
  unfold print, emit, sleep, bind. cbn [trace_of result_of world_of fst snd].
  rewrite !spawned_app, !printed_app, Hs. cbn [spawned printed app].
  rewrite ?app_nil_r, !app_assoc.
  eexists _, _. split; reflexivity.
Qed.

(** X6.  [unmount_all] always ends the same way, whatever happened
    before: the last command it launches is the lazy sweep
    [umount -l <device>*], and the last line it prints is the success
    message, also when every unmount failed. *)
Theorem unmount_all_ends_with_sweep device (w : W) :
  exists pre out,
    spawned (trace_of (unmount_all device w))
    = (pre ++ [Shell ("umount -l " ++ device ++ "* 2>/dev/null")])%list
    /\ printed (trace_of (unmount_all device w))
       = (out ++ [("✓ Unmount complete" ++ nl)%string])%list.
Proof. exact (unmount_all_sweep_last device w). Qed.

End SweepEnd.

(** ** Mount directories *)

Lemma made_app t1 t2 : made (t1 ++ t2) = (made t1 ++ made t2)%list.
Proof.
  induction t1 as [|e t1 IH]; [reflexivity|].
  destruct e; simpl; now rewrite ?IH.
Qed.

Lemma written_app t1 t2 : written (t1 ++ t2) = (written t1 ++ written t2)%list.
Proof.
  induction t1 as [|e t1 IH]; [reflexivity|].
  destruct e; simpl; now rewrite ?IH.
Qed.

Section MountDirectories.

Context {W : Type} {host : Host W}.

Lemma prepare_loop (l : list string) (w : W) :
  exists t w',
    for_each l (fun path =>
      try_except
        (os_makedirs path ;; os_chmod path 493)
        is_Exception
        (fun e => print ("⚠️  Could not create " ++ path ++ ": " ++ str_of_exn e)))
      w = (Ok tt, t, w')
    /\ made t = l
    /\ spawned t = []
    /\ (forall p mode, In (EvChmod p mode) t -> In p l /\ mode = 493).
Proof.
  revert w. induction l as [|path l IH]; intros w; cbn [for_each].
  - exists [], w. split; [reflexivity|]. split; [reflexivity|].
    split; [reflexivity|]. intros p mode [].
  - assert (exists t1 w1,
              try_except (os_makedirs path ;; os_chmod path 493) is_Exception
                (fun e => print ("⚠️  Could not create " ++ path ++ ": "
                                 ++ str_of_exn e)) w = (Ok tt, t1, w1)
              /\ made t1 = [path] /\ spawned t1 = []
              /\ (forall p mode, In (EvChmod p mode) t1 ->
                    p = path /\ mode = 493)) as (t1 & w1 & E1 & M1 & S1 & C1).
    { unfold try_except, bind, os_makedirs, os_chmod, print, emit.
      destruct (host_makedirs path w) as [[msg|] w1]; cbn.
      - eexists _, _. split; [reflexivity|].
        split; [reflexivity|]. split; [reflexivity|].
        intros p mode [H|[H|[]]]; discriminate.
      - destruct (host_chmod path 493 w1) as [[msg|] w2]; cbn;
          (eexists _, _; split; [reflexivity|]);
          (split; [reflexivity|]); (split; [reflexivity|]);
          intros p mode Hin;
          repeat (destruct Hin as [Hin|Hin]; try discriminate Hin);
          try contradiction; injection Hin as <- <-; auto. }
    destruct (IH w1) as (t2 & w2 & E2 & M2 & S2 & C2).
    rewrite (bind_ok _ _ _ _ _ _ E1), E2. cbn [result_of trace_of world_of fst snd].
    eexists _, _. split; [reflexivity|].
    rewrite made_app, spawned_app, M1, M2, S1, S2.
    split; [reflexivity|]. split; [reflexivity|].
    intros p mode H. apply in_app_or in H as [H|H].
    + destruct (C1 _ _ H) as [-> ->]. split; [now left | reflexivity].
    + destruct (C2 _ _ H) as [Hp ->]. split; [now right | reflexivity].
Qed.

(** X7.  [prepare_mount_points] never raises and launches no command: it
    calls [os.makedirs] on each of the four mount directories, in order,
    also after a failure on an earlier one, and every [chmod] it attempts
    is [0o755] on one of these directories. *)
Theorem prepare_mount_points_all_four (w : W) :
  exists t w',
    prepare_mount_points w = (Ok tt, t, w')
    /\ made t = [ISO_MOUNT; USB_BOOT; USB_PERSIST; ESP_MOUNT]
    /\ spawned t = []
    /\ (forall p mode, In (EvChmod p mode) t ->
          In p [ISO_MOUNT; USB_BOOT; USB_PERSIST; ESP_MOUNT] /\ mode = 493).
Proof. apply prepare_loop. Qed.

End MountDirectories.

(** ** Partition planner: waiting for the device nodes *)

Lemma slept_ms_app t1 t2 : slept_ms (t1 ++ t2) = slept_ms t1 + slept_ms t2.
Proof.
  induction t1 as [|e t1 IH]; [reflexivity|].
  destruct e; simpl; rewrite ?IH; lia.
Qed.

Section WaitTriples.

Context {W : Type} {host : Host W}.
Variable I : W -> Prop.
Variable P : list event -> Prop.
Variable allowed : command -> bool.
Hypothesis P_closed : closed P.
Hypothesis P_print : forall s, P [EvPrint s].
Hypothesis P_sleep : forall n, P [EvSleep n].
Hypothesis P_run_cmd :
  forall cmd check capture ignore_error timeout (w : W),
    allowed (Shell cmd) = true ->
    P (trace_of (run_cmd cmd check capture ignore_error timeout w)).
Hypothesis I_stat : forall p w, I w -> I (snd (host_stat p w)).
Hypothesis I_sleep : forall n w, I w -> I (host_sleep n w).
Hypothesis I_spawn :
  forall c timeout w, allowed c = true -> I w -> I (snd (host_spawn c timeout w)).

Lemma triple_exists_as path (b : bool) :
  (forall w, I w -> present (fst (host_stat path w)) = b) ->
  triple I P (eq b) (os_path_exists path).
Proof.
  intros Hb w Hw. unfold os_path_exists, os_stat, bind, ret.
  pose proof (I_stat path w Hw) as Hs. pose proof (Hb w Hw) as Hp.
  destruct (host_stat path w) as [r w1]. cbn in *.
  eexists _, _, _. split; [reflexivity|].
  split; [exact Hs|]. split; [apply (closed_nil P P_closed)|].
  now destruct r.
Qed.

Lemma triple_exists_any path : triple I P anything (os_path_exists path).
Proof.
  intros w Hw. unfold os_path_exists, os_stat, bind, ret.
  pose proof (I_stat path w Hw) as Hs.
  destruct (host_stat path w) as [r w1]. cbn in *.
  eexists _, _, _. split; [reflexivity|].
  split; [exact Hs|]. split; [apply (closed_nil P P_closed) | exact Logic.I].
Qed.

Lemma triple_and_then_any (a b : M W bool) :
  triple I P anything a -> triple I P anything b ->
  triple I P anything (and_then a b).
Proof.
  intros Ha Hb. unfold and_then.
  eapply triple_bind; [assumption | exact Ha |].
  intros x _. destruct x; [exact Hb | now apply triple_ret].
Qed.

Lemma triple_and_then_true (a b : M W bool) :
  triple I P (eq true) a -> triple I P (eq true) b ->
  triple I P (eq true) (and_then a b).
Proof.
  intros Ha Hb. unfold and_then.
  eapply triple_bind; [assumption | exact Ha |].
  intros x <-. exact Hb.
Qed.

Lemma triple_and_then_false (a b : M W bool) :
  triple I P (eq false) a -> triple I P (eq false) (and_then a b).
Proof.
  intros Ha. unfold and_then.
  eapply triple_bind; [assumption | exact Ha |].
  intros x <-. now apply triple_ret.
Qed.

Lemma triple_run_cmd_allowed cmd check capture ignore_error timeout :
  allowed (Shell cmd) = true ->
  triple I P anything (run_cmd cmd check capture ignore_error timeout).
Proof.
  intros Ha w Hw.
  destruct (run_cmd_run cmd check capture ignore_error timeout w) as (t & E & _).
  pose proof (P_run_cmd cmd check capture ignore_error timeout w Ha) as Ht.
  rewrite E in Ht.
  eexists _, _, _. split; [exact E|].
  split; [now apply I_spawn|]. split; [exact Ht | exact Logic.I].
Qed.

Section Loop.

Variables device part1 part2 part3 : string.
Hypothesis allowed_partprobe : allowed (Shell (partprobe_cmd device)) = true.

(** The loop returns a value of [Q] as soon as its last line does: the
    other way out of the loop returns [True]. *)
Lemma triple_wait_loop (Q : bool -> Prop) steps :
  Q true ->
  triple I P Q (and_then (os_path_exists part1) (os_path_exists part2)) ->
  triple I P Q (wait_for_partitions_loop device part1 part2 part3 steps).
Proof.
  intros Qt Hlast.
  induction steps as [|i rest IH]; cbn [wait_for_partitions_loop].
  - tstep ltac:(apply triple_emit, P_print). intros _ _. exact Hlast.
  - tstep ltac:(apply triple_and_then_any;
                [apply triple_exists_any |
                 apply triple_and_then_any; apply triple_exists_any]).
    intros found _. destruct found.
    + tstep ltac:(apply triple_emit, P_print). intros _ _.
      tstep ltac:(apply (triple_sleep I P); assumption). intros _ _.
      now apply triple_ret.
    + tstep ltac:(apply (triple_sleep I P); assumption). intros _ _.
      tstep ltac:(apply triple_when; [assumption|];
                  apply triple_drop; [assumption|];
                  apply triple_run_cmd_allowed, allowed_partprobe).
      intros _ _. exact IH.
Qed.

End Loop.

Lemma triple_wait_for_partitions (Q : bool -> Prop) device timeout :
  allowed (Shell (partprobe_cmd device)) = true ->
  allowed (Shell (blockdev_reread_cmd device)) = true ->
  Q true ->
  (forall part1 part2 part3,
     get_partition_names device = (part1, part2, part3) ->
     triple I P Q (and_then (os_path_exists part1) (os_path_exists part2))) ->
  triple I P Q (wait_for_partitions device timeout).
Proof.
  intros A1 A2 Qt Hlast. unfold wait_for_partitions.
  tstep ltac:(apply triple_emit, P_print). intros _ _.
  tstep ltac:(apply triple_run_cmd_allowed, A1). intros _ _.
  tstep ltac:(apply triple_run_cmd_allowed, A2). intros _ _.
  destruct (get_partition_names device) as [[part1 part2] part3] eqn:En.
  apply triple_wait_loop; [exact A1 | exact Qt | exact (Hlast _ _ _ eq_refl)].
Qed.

End WaitTriples.

Lemma empty_trace_closed : closed (fun t : list event => t = []).
Proof. split; [reflexivity | intros t1 t2 -> ->; reflexivity]. Qed.

Lemma reread_partprobe device :
  reread_family device (Shell (partprobe_cmd device)) = true.
Proof. unfold reread_family. now rewrite command_eqb_refl. Qed.

Lemma reread_blockdev device :
  reread_family device (Shell (blockdev_reread_cmd device)) = true.
Proof.
  unfold reread_family.
  rewrite (command_eqb_refl (Shell (blockdev_reread_cmd device))).
  apply orb_true_r.
Qed.

Section WaitFacts.

Context {W : Type} {host : Host W}.

Lemma wait_for_partitions_run device timeout (w : W) :
  exists b t w',
    wait_for_partitions device timeout w = (Ok b, t, w')
    /\ launches_only (reread_family device) t.
Proof.
  assert (triple (fun _ : W => True) (launches_only (reread_family device))
            anything (wait_for_partitions device timeout)) as T.
  { apply (triple_wait_for_partitions (fun _ => True)
             (launches_only (reread_family device)) (reread_family device));
      auto using launches_only_closed, reread_partprobe, reread_blockdev.
    - intros s. constructor.
    - intros n. constructor.
    - intros. now apply run_cmd_launches_only.
    - exact Logic.I.
    - intros part1 part2 part3 _.
      apply triple_and_then_any;
        auto using launches_only_closed;
        apply triple_exists_any; auto using launches_only_closed. }
  destruct (T w Logic.I) as (b & t & w' & E & _ & Ht & _).
  now exists b, t, w'.
Qed.

(** X8.  [wait_for_partitions] never raises, whatever the host answers and
    whatever [timeout] is, and the only commands it launches are
    [partprobe] and [blockdev --rereadpt] on the device. *)
Theorem wait_for_partitions_total device timeout (w : W) :
  exists b t w',
    wait_for_partitions device timeout w = (Ok b, t, w')
    /\ launches_only (reread_family device) t.
Proof. exact (wait_for_partitions_run device timeout w). Qed.

Lemma run_cmd_slept cmd check capture ignore_error timeout (w : W) :
  slept_ms (trace_of (run_cmd cmd check capture ignore_error timeout w)) = 0.
Proof.
  pose proof (run_cmd_events cmd check capture ignore_error timeout w) as H.
  induction (trace_of (run_cmd cmd check capture ignore_error timeout w))
    as [|e t IH]; [reflexivity|].
  destruct (H e (or_introl eq_refl)) as [[s ->]|[r ->]]; simpl;
    apply IH; intros e' Hin; apply H; now right.
Qed.

Variable Inv : W -> Prop.
Hypothesis Inv_spawn :
  forall c timeout w, Inv w -> Inv (snd (host_spawn c timeout w)).
Hypothesis Inv_stat : forall p w, Inv w -> Inv (snd (host_stat p w)).
Hypothesis Inv_sleep : forall n w, Inv w -> Inv (host_sleep n w).

Lemma poll_as (a : M W bool) (b : bool) w :
  triple Inv (fun t => t = []) (eq b) a -> Inv w ->
  exists w', a w = (Ok b, [], w') /\ Inv w'.
Proof.
  intros T Hw. destruct (T w Hw) as (x & t & w' & E & Hw' & -> & <-).
  now exists w'.
Qed.

Lemma run_cmd_under cmd check capture ignore_error timeout w :
  Inv w ->
  exists v t w',
    run_cmd cmd check capture ignore_error timeout w = (Ok v, t, w')
    /\ Inv w' /\ spawned t = [Shell cmd] /\ slept_ms t = 0.
Proof.
  intros Hw.
  pose proof (run_cmd_slept cmd check capture ignore_error timeout w) as Hz.
  destruct (run_cmd_run cmd check capture ignore_error timeout w)
    as (t & E & Hs & _).
  rewrite E in Hz. eexists _, _, _. split; [exact E|].
  split; [now apply Inv_spawn|]. now split.
Qed.

(** X9.  On a host where the first two partition nodes exist whenever they
    are looked up (in every state of [Inv], a set of host states that the
    host's operations do not leave), [wait_for_partitions] returns [True],
    whether or not the third node ever appears: after the last poll only
    the first two are checked. *)
Theorem wait_for_partitions_two_suffice device timeout part1 part2 part3 w :
  get_partition_names device = (part1, part2, part3) ->
  (forall w', Inv w' -> present (fst (host_stat part1 w')) = true) ->
  (forall w', Inv w' -> present (fst (host_stat part2 w')) = true) ->
  Inv w ->
  result_of (wait_for_partitions device timeout w) = Ok true.
Proof.
  intros En H1 H2 Hw.
  assert (triple Inv any_trace (eq true) (wait_for_partitions device timeout))
    as T.
  { apply (triple_wait_for_partitions Inv any_trace (fun _ => true));
      auto using any_trace_closed; try (intros; exact Logic.I).
    intros p1 p2 p3 En'. rewrite En in En'. injection En' as <- <- <-.
    apply triple_and_then_true; auto using any_trace_closed;
      apply triple_exists_as; auto using any_trace_closed. }
  destruct (T w Hw) as (b & t & w' & E & _ & _ & <-).
  now rewrite E.
Qed.

Lemma wait_loop_missing device part1 part2 part3 steps :
  (forall w', Inv w' -> present (fst (host_stat part1 w')) = false) ->
  forall w, Inv w ->
  exists t w',
    wait_for_partitions_loop device part1 part2 part3 steps w
    = (Ok false, t, w')
    /\ Inv w'
    /\ slept_ms t = 1000 * Z.of_nat (List.length steps)
    /\ In "⚠️  Partition detection timeout, continuing anyway..." (printed t).
Proof.
  intros H1.
  assert (forall b : M W bool,
            triple Inv (fun t => t = []) (eq false)
              (and_then (os_path_exists part1) b)) as Hpoll.
  { intros b. apply triple_and_then_false; auto using empty_trace_closed.
    apply triple_exists_as; auto using empty_trace_closed. }
  induction steps as [|i rest IH]; intros w Hw;
    cbn [wait_for_partitions_loop].
  - rewrite (bind_ok (print _) _ w tt [EvPrint _] w eq_refl).
    destruct (poll_as _ false w (Hpoll (os_path_exists part2)) Hw)
      as (w1 & E & Hw1).
    rewrite E. cbn [result_of trace_of world_of fst snd].
    eexists _, _. split; [reflexivity|]. split; [exact Hw1|].
    split; [reflexivity | now left].
  - destruct (poll_as _ false w
                (Hpoll (and_then (os_path_exists part2) (os_path_exists part3)))
                Hw) as (w1 & E & Hw1).
    rewrite (bind_ok _ _ _ _ _ _ E). cbv beta iota.
    rewrite (bind_ok (sleep 1000) _ w1 tt [EvSleep 1000] (host_sleep 1000 w1)
               eq_refl).
    pose proof (Inv_sleep 1000 w1 Hw1) as Hw2.
    assert (exists t3 w3,
              when (i mod 3 =? 0)
                (run_cmd ("partprobe " ++ device ++ " 2>/dev/null")
                   true false true (Some 5) ;; ret tt)
                (host_sleep 1000 w1) = (Ok tt, t3, w3)
              /\ Inv w3 /\ slept_ms t3 = 0)
      as (t3 & w3 & E3 & Hw3 & Hz3).
    { unfold when. destruct (i mod 3 =? 0).
      - destruct (run_cmd_under ("partprobe " ++ device ++ " 2>/dev/null")
                    true false true (Some 5) _ Hw2)
          as (v & t & w' & Er & Hw' & _ & Hz).
        rewrite (bind_ok _ _ _ _ _ _ Er). cbn.
        eexists _, _. split; [reflexivity|]. rewrite app_nil_r. auto.
      - eexists _, _. split; [reflexivity|]. auto. }
    rewrite (bind_ok _ _ _ _ _ _ E3). cbv beta.
    destruct (IH w3 Hw3) as (t & w' & E4 & Hw' & Hz & Hp).
    rewrite E4. cbn [result_of trace_of world_of fst snd].
    eexists _, _. split; [reflexivity|]. split; [exact Hw'|].
    split.
    + rewrite !slept_ms_app, Hz3, Hz. cbn [slept_ms List.length app]. lia.
    + rewrite !printed_app. apply in_or_app. right.
      apply in_or_app. right. apply in_or_app. right. exact Hp.
Qed.

(** X10.  On a host where the first partition node never appears (in no
    state of [Inv], a set of host states that the host's operations do
    not leave), [wait_for_partitions] polls for the whole [timeout],
    sleeping one second per poll, prints the time-out notice and returns
    [False]. *)
Theorem wait_for_partitions_gives_up device timeout part1 part2 part3 w :
  get_partition_names device = (part1, part2, part3) ->
  (forall w', Inv w' -> present (fst (host_stat part1 w')) = false) ->
  Inv w ->
  result_of (wait_for_partitions device timeout w) = Ok false
  /\ slept_ms (trace_of (wait_for_partitions device timeout w))
     = 1000 * Z.max 0 timeout
  /\ In "⚠️  Partition detection timeout, continuing anyway..."
        (printed (trace_of (wait_for_partitions device timeout w))).
Proof.
  intros En H1 Hw. unfold wait_for_partitions.
  rewrite (bind_ok (print _) _ w tt [EvPrint _] w eq_refl). cbv beta.
  destruct (run_cmd_under ("partprobe " ++ device ++ " 2>/dev/null")
              true false true (Some 10) w Hw)
    as (v1 & t1 & w1 & E1 & Hw1 & _ & Hz1).
  rewrite (bind_ok _ _ _ _ _ _ E1). cbv beta.
  destruct (run_cmd_under ("blockdev --rereadpt " ++ device ++ " 2>/dev/null")
              true false true (Some 10) w1 Hw1)
    as (v2 & t2 & w2 & E2 & Hw2 & _ & Hz2).
  rewrite (bind_ok _ _ _ _ _ _ E2). cbv beta.
  rewrite En.
  destruct (wait_loop_missing device part1 part2 part3 (range timeout) H1 w2 Hw2)
    as (t & w' & E & _ & Hz & Hp).
  rewrite E. cbn [result_of trace_of world_of fst snd].
  split; [reflexivity|]. split.
  - rewrite !slept_ms_app, Hz1, Hz2, Hz. cbn [slept_ms].
    unfold range. rewrite length_map, length_seq. lia.
  - rewrite !printed_app. apply in_or_app. right.
    apply in_or_app. right. apply in_or_app. right. exact Hp.
Qed.

End WaitFacts.

Lemma keeps_spawn files c timeout (w : Sim.sim) :
  ScenarioNodes.keeps files w ->
  ScenarioNodes.keeps files (snd (host_spawn c timeout w)).
Proof. intros H. exact H. Qed.

Lemma keeps_stat files p (w : Sim.sim) :
  ScenarioNodes.keeps files w ->
  ScenarioNodes.keeps files (snd (host_stat p w)).
Proof. intros H. exact H. Qed.

Lemma keeps_sleep files n (w : Sim.sim) :
  ScenarioNodes.keeps files w ->
  ScenarioNodes.keeps files (host_sleep n w).
Proof. intros H. exact H. Qed.

Lemma keeps_present files p b (w : Sim.sim) :
  present (files p) = b ->
  ScenarioNodes.keeps files w -> present (fst (host_stat p w)) = b.
Proof. intros Hb H. cbn. unfold ScenarioNodes.keeps in H. now rewrite H. Qed.

Lemma wait_for_partitions_two_suffice_witness :
  result_of (wait_for_partitions "/dev/sdb" 15 ScenarioNodes.w_two_nodes)
  = Ok true.
Proof.
  apply (wait_for_partitions_two_suffice
           (ScenarioNodes.keeps ScenarioNodes.two_nodes)
           (keeps_spawn _) (keeps_stat _) (keeps_sleep _)
           "/dev/sdb" 15 "/dev/sdb1" "/dev/sdb2" "/dev/sdb3").
  - reflexivity.
  - intros w'. apply keeps_present. reflexivity.
  - intros w'. apply keeps_present. reflexivity.
  - reflexivity.
Defined.

Lemma wait_for_partitions_gives_up_witness :
  result_of (wait_for_partitions "/dev/sdb" 15 Scenario.w_quiet) = Ok false
  /\ slept_ms (trace_of (wait_for_partitions "/dev/sdb" 15 Scenario.w_quiet))
     = 1000 * Z.max 0 15
  /\ In "⚠️  Partition detection timeout, continuing anyway..."
        (printed (trace_of (wait_for_partitions "/dev/sdb" 15 Scenario.w_quiet))).
Proof.
  apply (wait_for_partitions_gives_up
           (ScenarioNodes.keeps Scenario.no_files)
           (keeps_spawn _) (keeps_stat _) (keeps_sleep _)
           "/dev/sdb" 15 "/dev/sdb1" "/dev/sdb2" "/dev/sdb3").
  - reflexivity.
  - intros w'. apply keeps_present. reflexivity.
  - reflexivity.
Defined.

(** ** Partition planner: formatting *)

(** One step of a run: the next statement is a [print], a [sleep] or a
    [run_cmd], none of which raises. *)
Ltac run_step :=
  cbv beta;
  match goal with
  | |- context [bind (bind ?m ?f) ?g ?w] => rewrite (bind_assoc m f g w)
  | |- context [bind (ret ?a) ?k ?w] => rewrite (bind_ret_l a k w)
  | |- context [bind (print ?s) ?k ?w] =>
      rewrite (bind_ok (print s) k w tt [EvPrint s] w eq_refl)
  | |- context [bind (sleep ?n) ?k ?w] =>
      rewrite (bind_ok (sleep n) k w tt [EvSleep n] (host_sleep n w) eq_refl)
  | |- context [bind (run_cmd ?c ?a ?b ?d ?t) ?k ?w] =>
      let E := fresh "E" in
      let Hs := fresh "Hs" in
      destruct (run_cmd_ok c a b d t w) as (? & ? & ? & E & Hs & _);
      rewrite (bind_ok _ k w _ _ _ E); clear E
  end;
  cbn [result_of trace_of world_of fst snd].

Section Formatting.

Context {W : Type} {host : Host W}.

Lemma create_partitions_run device (w : W) :
  exists t w' rereads,
    create_partitions device w = (Ok tt, t, w')
    /\ spawned t
       = (partitioning_commands device ++ rereads
          ++ formatting_commands device)%list
    /\ Forall (fun c => reread_family device c = true) rereads.
Proof.
  unfold create_partitions, formatting_commands.
  do 15 run_step.
  match goal with
  | |- context [bind (wait_for_partitions ?d ?n) ?k ?w0] =>
      destruct (wait_for_partitions_run d n w0) as (ready & tw & ww & Ew & Hw);
      rewrite (bind_ok _ k w0 _ _ _ Ew); clear Ew; cbv beta
  end.
  cbn [result_of trace_of world_of fst snd].
  destruct (get_partition_names device) as [[part1 part2] part3].
  unfold when. destruct ready; cbn [negb]; repeat run_step.
  all: unfold sleep; cbn [result_of trace_of world_of fst snd].
  all: eexists _, _, (spawned tw);
    (split; [reflexivity|]); (split; [|exact Hw]);
    rewrite !spawned_app;
    repeat match goal with H : spawned _ = _ |- _ => rewrite H; clear H end;
    cbn [spawned app]; reflexivity.
Qed.

(** X11.  [create_partitions] never raises and hands no verdict to its
    caller.  Whatever the commands answer, and whether or not the
    partition nodes appear, it launches the eight partitioning commands,
    then only [partprobe] and [blockdev --rereadpt] while it waits, and it
    ends by unmounting and formatting the three partitions: the last six
    commands are those of [formatting_commands], in order. *)
Theorem create_partitions_always_formats device (w : W) :
  exists t w' rereads,
    create_partitions device w = (Ok tt, t, w')
    /\ spawned t
       = (partitioning_commands device ++ rereads
          ++ formatting_commands device)%list
    /\ Forall (fun c => reread_family device c = true) rereads.
Proof. exact (create_partitions_run device w). Qed.

End Formatting.

(** ** Pipeline stages *)

Lemma releasing_spawned t :
  Forall (fun e => releasing e = true) t -> launches_only release_family t.
Proof.
  unfold launches_only. induction 1 as [|e t He _ IH]; [constructor|].
  destruct e; simpl; try exact IH. constructor; [exact He | exact IH].
Qed.

Lemma releasing_written t :
  Forall (fun e => releasing e = true) t -> written t = [] /\ made t = [].
Proof.
  induction 1 as [|e t He _ IH]; [split; reflexivity|].
  destruct e; simpl; try exact IH; discriminate.
Qed.

Lemma releasing_closed : closed (Forall (fun e => releasing e = true)).
Proof.
  split; [constructor|].
  intros t1 t2 H1 H2. apply Forall_app. now split.
Qed.

Section StageRuns.

Context {W : Type} {host : Host W}.

(** What one call of [run_cmd] leaves behind. *)
Lemma run_cmd_answer cmd check capture ignore_error timeout (w : W) :
  exists r t w',
    run_cmd cmd check capture ignore_error timeout w
    = (Ok (run_cmd_value check capture ignore_error r), t, w')
    /\ spawned t = [Shell cmd]
    /\ In (EvSpawn (Shell cmd) timeout r) t
    /\ written t = [] /\ made t = [].
Proof.
  pose proof (run_cmd_event cmd check capture ignore_error timeout w) as Hev.
  pose proof (run_cmd_events cmd check capture ignore_error timeout w) as Hk.
  destruct (run_cmd_run cmd check capture ignore_error timeout w)
    as (t & E & Hs & _).
  rewrite E in Hev, Hk. cbn [trace_of fst snd] in Hev, Hk.
  eexists _, t, _. split; [exact E|]. split; [exact Hs|].
  split; [exact Hev|].
  clear E Hs Hev. induction t as [|e t IH]; [split; reflexivity|].
  destruct (Hk e (or_introl eq_refl)) as [[s ->]|[r ->]]; simpl;
    apply IH; intros e' Hin; apply Hk; now right.
Qed.

Lemma is_mounted_releasing path (w : W) :
  Forall (fun e => releasing e = true) (trace_of (is_mounted path w)).
Proof.
  pose proof (is_mounted_events path w) as Hk.
  apply Forall_forall. intros e Hin.
  destruct (Hk e Hin) as [[b ->]|(c & timeout & r & -> & Hq)];
    [reflexivity|].
  apply (is_query_release path c Hq).
Qed.

Lemma run_cmd_releasing cmd check capture ignore_error timeout (w : W) :
  release_family (Shell cmd) = true ->
  Forall (fun e => releasing e = true)
    (trace_of (run_cmd cmd check capture ignore_error timeout w)).
Proof.
  intros Hr.
  pose proof (run_cmd_events cmd check capture ignore_error timeout w) as Hk.
  apply Forall_forall. intros e Hin.
  destruct (Hk e Hin) as [[s ->]|[r ->]]; [reflexivity | exact Hr].
Qed.

(** [force_unmount] never raises; it prints, pauses, checks mounts and
    launches commands of the release family, nothing else. *)
Lemma force_unmount_run path n (w : W) :
  exists b t w',
    force_unmount path n w = (Ok b, t, w')
    /\ Forall (fun e => releasing e = true) t.
Proof.
  assert (triple (fun _ : W => True) (Forall (fun e => releasing e = true))
            anything (force_unmount path n)) as T.
  { apply (triple_force_unmount (fun _ => True)
             (Forall (fun e => releasing e = true)) release_family);
      auto using releasing_closed;
      try (intros; now apply run_cmd_releasing);
      try (intros; apply is_mounted_releasing);
      intros; now repeat constructor. }
  destruct (T w Logic.I) as (b & t & w' & E & _ & Ht & _).
  now exists b, t, w'.
Qed.

Lemma prepare_run (w : W) :
  exists t w',
    prepare_mount_points w = (Ok tt, t, w')
    /\ spawned t = [] /\ written t = [].
Proof.
  assert (triple (fun _ : W => True)
            (fun t => spawned t = [] /\ written t = [])
            anything prepare_mount_points) as T.
  { apply triple_prepare_mount_points.
    - split; [split; reflexivity|].
      intros t1 t2 [S1 W1] [S2 W2].
      now rewrite spawned_app, written_app, S1, S2, W1, W2.
    - intros s. split; reflexivity.
    - intros p. split; reflexivity.
    - intros p mode. split; reflexivity. }
  destruct (T w Logic.I) as ([] & t & w' & E & _ & Ht & _).
  now exists t, w'.
Qed.

End StageRuns.

(** One step of a stage: the next statement is one that never raises. *)
Ltac stage_step :=
  cbv beta;
  match goal with
  | |- context [bind (bind ?m ?f) ?g ?w] => rewrite (bind_assoc m f g w)
  | |- context [bind (ret ?a) ?k ?w] => rewrite (bind_ret_l a k w)
  | |- context [bind (print ?s) ?k ?w] =>
      rewrite (bind_ok (print s) k w tt [EvPrint s] w eq_refl)
  | |- context [bind (sleep ?n) ?k ?w] =>
      rewrite (bind_ok (sleep n) k w tt [EvSleep n] (host_sleep n w) eq_refl)
  | |- context [bind (run_cmd ?c ?a ?b ?d ?t) ?k ?w] =>
      let E := fresh "E" in
      let Hs := fresh "Hs" in
      let Hin := fresh "Hin" in
      let Hw := fresh "Hw" in
      let Hm := fresh "Hm" in
      destruct (run_cmd_answer c a b d t w)
        as (? & ? & ? & E & Hs & Hin & Hw & Hm);
      rewrite (bind_ok _ k w _ _ _ E); clear E
  | |- context [bind (force_unmount ?p ?n) ?k ?w] =>
      let E := fresh "E" in
      let Hr := fresh "Hr" in
      destruct (force_unmount_run p n w) as (? & ? & ? & E & Hr);
      rewrite (bind_ok _ k w _ _ _ E); clear E
  | |- context [bind prepare_mount_points ?k ?w] =>
      let E := fresh "E" in
      let Hs := fresh "Hs" in
      let Hw := fresh "Hw" in
      destruct (prepare_run w) as (? & ? & E & Hs & Hw);
      rewrite (bind_ok _ k w _ _ _ E); clear E
  end;
  cbn [result_of trace_of world_of fst snd].

(** Membership in a concatenation of traces. *)
Ltac find_in :=
  first [ eassumption
        | apply in_eq
        | apply in_or_app; first [ left; find_in | right; find_in ] ].

(** [Forall] over a concatenation of lists, by its pieces. *)
Ltac forall_pieces :=
  repeat match goal with
         | |- Forall _ (_ ++ _)%list => apply Forall_app; split
         | |- Forall _ [] => constructor
         | |- Forall _ (_ :: _) => constructor
         end.

Section Subvolumes.

Context {W : Type} {host : Host W}.

Lemma subvolume_directories_run (w : W) :
  exists t w',
    try_except
      (os_makedirs (USB_PERSIST ++ "/@rootfs/upper") ;;
       os_makedirs (USB_PERSIST ++ "/@rootfs/work") ;;
       os_makedirs (USB_PERSIST ++ "/@home/user"))
      is_Exception
      (fun e => print ("⚠️  Could not create directories: " ++ str_of_exn e))
      w = (Ok tt, t, w')
    /\ spawned t = [].
Proof.
  unfold try_except, bind, os_makedirs, print, emit.
  repeat match goal with
         | |- context [host_makedirs ?p ?w0] =>
             destruct (host_makedirs p w0) as [[?|] ?]; cbn
         end;
    eexists _, _; split; reflexivity.
Qed.

Lemma setup_btrfs_subvolumes_run device (w : W) :
  exists b t w' r,
    setup_btrfs_subvolumes device w = (Ok b, t, w')
    /\ In (EvSpawn (Shell (mount_persist_cmd (snd (get_partition_names device))))
              (Some 15) r) t
    /\ b = exited_zero r
    /\ (b = false ->
        Forall (fun c => release_family c = true
                         \/ c = Shell (mount_persist_cmd
                                         (snd (get_partition_names device))))
               (spawned t))
    /\ (b = true ->
        exists pre post,
          spawned t = (pre ++ subvolume_commands ++ post)%list).
Proof.
  unfold setup_btrfs_subvolumes, mount_persist_cmd.
  destruct (get_partition_names device) as [[part1 part2] part3].
  cbn [snd].
  do 6 stage_step.
  match goal with
  | H : In (EvSpawn _ _ ?r) _ |- _ =>
      assert (truthy (run_cmd_value true false false r) = exited_zero r) as Hv
        by (destruct r as [code out err | |]; cbn; [destruct (code =? 0)|..];
            reflexivity);
      rewrite Hv; clear Hv; destruct (exited_zero r) eqn:Hz
  end; cbn [negb].
  - stage_step. cbn [for_each]. repeat stage_step.
    match goal with
    | |- context [bind (try_except ?m ?h ?k) ?f ?w0] =>
        destruct (subvolume_directories_run w0) as (td & wd & Ed & Hd);
        rewrite (bind_ok _ f w0 _ _ _ Ed); clear Ed
    end.
    cbn [result_of trace_of world_of fst snd].
    repeat stage_step. unfold ret. cbn [result_of trace_of world_of fst snd].
    eexists _, _, _, _. split; [reflexivity|].
    split; [find_in|]. split; [now rewrite Hz|].
    split; [discriminate|]. intros _.
    rewrite !spawned_app.
    repeat match goal with H : spawned _ = _ |- _ => rewrite H; clear H end.
    cbn [spawned app]. unfold subvolume_commands. cbn [map].
    match goal with
    | |- exists pre post, (?a ++ ?m :: _ :: _ :: _ :: _ :: ?f)%list = _ =>
        exists (a ++ [m])%list, f
    end.
    rewrite <- app_assoc. reflexivity.
  - stage_step. unfold ret. cbn [result_of trace_of world_of fst snd].
    eexists _, _, _, _. split; [reflexivity|].
    split; [find_in|]. split; [now rewrite Hz|].
    split; [|discriminate]. intros _.
    rewrite !spawned_app.
    repeat match goal with H : spawned _ = _ |- _ => rewrite H; clear H end.
    cbn [spawned app].
    match goal with
    | H : Forall (fun e => releasing e = true) _ |- _ =>
        apply releasing_spawned in H
    end.
    apply Forall_app. split.
    + eapply Forall_impl; [|eassumption]. intros c Hc. now left.
    + constructor; [now right | constructor].
Qed.

(** X12.  [setup_btrfs_subvolumes] never raises.  Its verdict is that of
    the mount of the Btrfs partition: [True] exactly when that command
    exits with status 0.  When the mount fails nothing but queries and
    releases of mounts has been launched beside it; when it succeeds the
    four [btrfs subvolume create] commands are all launched, in order,
    whatever each of them answers. *)
Theorem setup_btrfs_subvolumes_verdict device (w : W) :
  exists b t w' r,
    setup_btrfs_subvolumes device w = (Ok b, t, w')
    /\ In (EvSpawn (Shell (mount_persist_cmd (snd (get_partition_names device))))
              (Some 15) r) t
    /\ b = exited_zero r
    /\ (b = false ->
        Forall (fun c => release_family c = true
                         \/ c = Shell (mount_persist_cmd
                                         (snd (get_partition_names device))))
               (spawned t))
    /\ (b = true ->
        exists pre post,
          spawned t = (pre ++ subvolume_commands ++ post)%list).
Proof. exact (setup_btrfs_subvolumes_run device w). Qed.

End Subvolumes.

Section WriteBlocks.

Context {W : Type} {host : Host W}.

(** A write guarded by [except Exception]: one write is attempted,
    nothing is launched, and no exception leaves the block. *)
Lemma write_block_run path content ok_msg (warn : exn -> string) (w : W) :
  exists t w',
    try_except (write_file path content ;; print ok_msg) is_Exception
      (fun e => print (warn e)) w = (Ok tt, t, w')
    /\ written t = [path]
    /\ spawned t = []
    /\ In (EvWrite path content) t
    /\ (forall p c, In (EvWrite p c) t -> p = path /\ c = content).
Proof.
  unfold try_except, bind, write_file, print, emit.
  destruct (host_write path content w) as [[msg|] w1]; cbn;
    eexists _, _; (split; [reflexivity|]);
    (split; [reflexivity|]); (split; [reflexivity|]); (split; [now left|]);
    intros p c Hin;
    repeat (destruct Hin as [Hin|Hin]; try discriminate Hin);
    try contradiction; injection Hin as <- <-; split; reflexivity.
Qed.

Lemma truthy_unchecked r :
  truthy (run_cmd_value false false true r) = ran_to_completion r.
Proof. now destruct r. Qed.

Lemma truthy_required r :
  truthy (run_cmd_value true false false r) = exited_zero r.
Proof.
  destruct r as [code out err | |]; cbn; [destruct (code =? 0)|..];
    reflexivity.
Qed.

Lemma create_readme_run device (w : W) :
  exists t w' r,
    create_readme device w = (Ok tt, t, w')
    /\ In (EvSpawn (Shell (mount_boot_cmd
                             (snd (fst (get_partition_names device)))))
             (Some 15) r) t
    /\ written t
       = if ran_to_completion r then [USB_BOOT ++ "/README.txt"] else [].
Proof.
  unfold create_readme, mount_boot_cmd.
  destruct (get_partition_names device) as [[part1 part2] part3].
  cbn [fst snd].
  do 2 stage_step.
  rewrite truthy_unchecked.
  match goal with
  | H : In (EvSpawn _ _ ?r) _ |- _ => destruct (ran_to_completion r) eqn:Hc
  end; unfold when.
  - match goal with
    | |- context [bind (try_except ?m ?h ?k) ?f ?w0] =>
        destruct (write_block_run (USB_BOOT ++ "/README.txt") readme_text
                    "✅ Created README.txt"
                    (fun e => "⚠️  Could not create README: " ++ str_of_exn e)
                    w0) as (tb & wb & Eb & Hwb & Hsb & _ & _);
        rewrite (bind_ok _ f w0 _ _ _ Eb); clear Eb
    end.
    cbn [result_of trace_of world_of fst snd].
    stage_step. unfold ret. cbn [result_of trace_of world_of fst snd].
    eexists _, _, _. split; [reflexivity|]. split; [find_in|].
    rewrite Hc, !written_app.
    repeat match goal with
           | H : Forall (fun e => releasing e = true) _ |- _ =>
               apply releasing_written in H; destruct H as [H _]; rewrite H
           end.
    repeat match goal with H : written _ = _ |- _ => rewrite H; clear H end.
    reflexivity.
  - unfold ret. cbn [result_of trace_of world_of fst snd].
    eexists _, _, _. split; [reflexivity|]. split; [find_in|].
    rewrite Hc, !written_app.
    repeat match goal with
           | H : Forall (fun e => releasing e = true) _ |- _ =>
               apply releasing_written in H; destruct H as [H _]; rewrite H
           end.
    repeat match goal with H : written _ = _ |- _ => rewrite H; clear H end.
    reflexivity.
Qed.

(** X13.  [create_readme] never raises.  It attempts to write
    [README.txt] exactly when the mount command of the boot partition runs
    to completion, whatever its exit status (the command runs with
    [check=False]): a failed mount is not noticed, and only a time-out or
    a launch failure of the command skips the write. *)
Theorem create_readme_writes_when_mount_completes device (w : W) :
  exists t w' r,
    create_readme device w = (Ok tt, t, w')
    /\ In (EvSpawn (Shell (mount_boot_cmd
                             (snd (fst (get_partition_names device)))))
             (Some 15) r) t
    /\ written t
       = if ran_to_completion r then [USB_BOOT ++ "/README.txt"] else [].
Proof. exact (create_readme_run device w). Qed.

End WriteBlocks.

Section Bootloader.

Context {W : Type} {host : Host W}.

Lemma release_forall (extra : command) t :
  Forall (fun e => releasing e = true) t ->
  Forall (fun c => release_family c = true \/ c = extra) (spawned t).
Proof.
  intros H. apply releasing_spawned in H.
  eapply Forall_impl; [|exact H]. intros c Hc. now left.
Qed.

Lemma install_bootloader_run device (w : W) :
  exists b t w' r,
    install_bootloader device w = (Ok b, t, w')
    /\ In (EvSpawn (Shell (mount_boot_cmd
                             (snd (fst (get_partition_names device)))))
             (Some 15) r) t
    /\ b = exited_zero r
    /\ (b = false ->
        Forall (fun c => release_family c = true
                         \/ c = Shell (mount_boot_cmd
                                         (snd (fst (get_partition_names device)))))
               (spawned t)).
Proof.
  unfold install_bootloader, mount_boot_cmd.
  destruct (get_partition_names device) as [[part1 part2] part3].
  cbn [fst snd].
  do 4 stage_step.
  rewrite truthy_required.
  match goal with
  | H : In (EvSpawn _ _ ?r) _ |- _ => destruct (exited_zero r) eqn:Hz
  end; cbn [negb].
  - do 6 stage_step. rewrite truthy_unchecked.
    match goal with
    | |- context [ran_to_completion ?r] => destruct (ran_to_completion r)
    end; repeat stage_step;
      unfold ret; cbn [result_of trace_of world_of fst snd];
      (eexists _, _, _, _; split; [reflexivity|]);
      (split; [find_in|]); (split; [now rewrite Hz|]); discriminate.
  - stage_step. unfold ret. cbn [result_of trace_of world_of fst snd].
    eexists _, _, _, _. split; [reflexivity|].
    split; [find_in|]. split; [now rewrite Hz|]. intros _.
    rewrite !spawned_app.
    repeat match goal with H : spawned _ = _ |- _ => rewrite H; clear H end.
    cbn [spawned app].
    apply Forall_app. split; [now apply release_forall|].
    constructor; [now right | constructor].
Qed.

(** X14.  [install_bootloader] never raises, and its verdict is that of
    the mount of the boot partition alone: [True] exactly when that
    command exits with status 0.  When the mount fails no [grub-install]
    is launched: beside the mount command, only queries and releases of
    mounts have run. *)
Theorem install_bootloader_verdict device (w : W) :
  exists b t w' r,
    install_bootloader device w = (Ok b, t, w')
    /\ In (EvSpawn (Shell (mount_boot_cmd
                             (snd (fst (get_partition_names device)))))
             (Some 15) r) t
    /\ b = exited_zero r
    /\ (b = false ->
        Forall (fun c => release_family c = true
                         \/ c = Shell (mount_boot_cmd
                                         (snd (fst (get_partition_names device)))))
               (spawned t)).
Proof. exact (install_bootloader_run device w). Qed.

(** X15.  Once the boot partition is mounted, [install_bootloader]
    launches the BIOS [grub-install] and reports it as installed whenever
    the command runs to completion, whatever its exit status: only a
    time-out or a launch failure gives the warning.  Likewise the UEFI
    [grub-install] is launched whenever the mount command of the ESP runs
    to completion, whether or not it succeeded. *)
Theorem install_bootloader_unchecked device (w : W) :
  result_of (install_bootloader device w) = Ok true ->
  exists r_bios r_esp,
    In (EvSpawn (Shell (grub_bios_cmd device)) (Some 60) r_bios)
       (trace_of (install_bootloader device w))
    /\ In (if ran_to_completion r_bios then "✅ GRUB installed for BIOS boot"
           else "⚠️  GRUB BIOS installation had issues (may still work)")
          (printed (trace_of (install_bootloader device w)))
    /\ In (EvSpawn (Shell (mount_esp_cmd
                             (fst (fst (get_partition_names device)))))
             (Some 15) r_esp)
          (trace_of (install_bootloader device w))
    /\ (ran_to_completion r_esp = true ->
        In (Shell (grub_uefi_cmd device))
           (spawned (trace_of (install_bootloader device w)))).
Proof.
  unfold install_bootloader, mount_esp_cmd, grub_bios_cmd, grub_uefi_cmd.
  destruct (get_partition_names device) as [[part1 part2] part3].
  cbn [fst snd].
  do 4 stage_step.
  rewrite truthy_required.
  match goal with
  | H : In (EvSpawn _ _ ?r) _ |- _ => destruct (exited_zero r) eqn:Hz
  end; cbn [negb].
  2:{ stage_step. unfold ret. cbn [result_of trace_of world_of fst snd].
      discriminate. }
  do 2 stage_step. rewrite truthy_unchecked. do 4 stage_step.
  rewrite truthy_unchecked.
  match goal with
  | H : In (EvSpawn (Shell ("mount " ++ part1 ++ _)) _ ?r) _ |- _ =>
      destruct (ran_to_completion r) eqn:Hc
  end; repeat stage_step;
    unfold ret; cbn [result_of trace_of world_of fst snd]; intros _;
    eexists _, _;
    (split; [find_in|]);
    (split; [rewrite !printed_app; cbn [printed]; find_in|]);
    (split; [find_in|]).
  - intros _. rewrite !spawned_app.
    repeat match goal with H : spawned _ = _ |- _ => rewrite H; clear H end.
    find_in.
  - rewrite Hc. discriminate.
Qed.

End Bootloader.

Section Persistence.

Context {W : Type} {host : Host W}.

(** The flush: it raises when the command does not run to completion. *)
Lemma sync_answer (w : W) :
  exists rs t w',
    In (EvSpawn (Shell "sync") (Some SYNC_TIMEOUT) rs) t
    /\ written t = []
    /\ ((ran_to_completion rs = true /\ sync w = (Ok tt, t, w'))
        \/ (ran_to_completion rs = false
            /\ exists e, sync w = (Raise e, t, w') /\ is_Exception e = true)).
Proof.
  unfold sync, subprocess_run, spawn, bind, ret, raise.
  destruct (host_spawn (Shell "sync") (Some SYNC_TIMEOUT) w)
    as [[code out err | | msg] w1]; cbn.
  - exists (Exited code out err), [EvSpawn (Shell "sync") (Some SYNC_TIMEOUT)
                                     (Exited code out err)], w1.
    split; [now left|]. split; [reflexivity|]. left. split; reflexivity.
  - exists TimedOut, [EvSpawn (Shell "sync") (Some SYNC_TIMEOUT) TimedOut], w1.
    split; [now left|]. split; [reflexivity|]. right.
    split; [reflexivity|]. eexists. split; reflexivity.
  - exists (OSFailure msg), [EvSpawn (Shell "sync") (Some SYNC_TIMEOUT)
                               (OSFailure msg)], w1.
    split; [now left|]. split; [reflexivity|]. right.
    split; [reflexivity|]. eexists. split; reflexivity.
Qed.

(** The update of [grub.cfg]: nothing leaves the block, and the file is
    rewritten only from a content that does not mention persistence. *)
Lemma grub_block_run (has_cfg : bool) (w : W) :
  exists t w',
    when has_cfg
      (print "📝 Updating GRUB configuration..." ;;
       try_except
         (grub_content <- read_file (USB_BOOT ++ "/boot/grub/grub.cfg") ;;
          when (negb (contains "persistence" grub_content))
            (write_file (USB_BOOT ++ "/boot/grub/grub.cfg")
               (replace "boot=live"
                  ("boot=live " ++ "persistence persistence-storage=btrfs,ext4")
                  grub_content) ;;
             print "✅ GRUB config updated"))
         is_Exception
         (fun e => print ("⚠️  Could not modify GRUB config: " ++ str_of_exn e)))
      w = (Ok tt, t, w')
    /\ spawned t = []
    /\ (forall p c, In (EvWrite p c) t ->
          p = USB_BOOT ++ "/boot/grub/grub.cfg"
          /\ exists old,
               contains "persistence" old = false
               /\ c = replace "boot=live"
                        ("boot=live persistence persistence-storage=btrfs,ext4")
                        old).
Proof.
  destruct has_cfg; unfold when.
  2:{ eexists _, _. split; [reflexivity|]. split; [reflexivity|].
      intros p c []. }
  unfold try_except, bind, read_file, write_file, print, emit, ret.
  destruct (host_read (USB_BOOT ++ "/boot/grub/grub.cfg") w)
    as [[old|msg] w1]; cbn -[contains replace].
  - destruct (contains "persistence" old) eqn:Hc; cbn -[contains replace].
    + eexists _, _. split; [reflexivity|]. split; [reflexivity|].
      intros p c [H|[]]. discriminate.
    + destruct (host_write _ _ w1) as [[msg|] w2]; cbn -[contains replace];
        eexists _, _; (split; [reflexivity|]); (split; [reflexivity|]);
        intros p c Hin;
        repeat (destruct Hin as [Hin|Hin]; try discriminate Hin);
        try contradiction;
        injection Hin as <- <-; (split; [reflexivity|]);
        exists old; (split; [exact Hc | reflexivity]).
  - eexists _, _. split; [reflexivity|]. split; [reflexivity|].
    intros p c [H|[H|[]]]; discriminate.
Qed.

Lemma exists_run path (w : W) :
  os_path_exists path w
  = (Ok (present (fst (host_stat path w))), [], snd (host_stat path w)).
Proof.
  unfold os_path_exists, os_stat, bind, ret.
  now destruct (host_stat path w) as [[st|] w1].
Qed.

(** X16.  The verdict of [configure_persistence] is that of the mount of
    the boot partition: when that command fails the stage returns [False]
    and writes nothing.  When it succeeds, [persistence.conf] is written
    with the line [/ union]; a failure to write it, or to update
    [grub.cfg], changes nothing to the outcome, which only depends on the
    flush: [True] when [sync] runs to completion, an exception when it
    times out or cannot be launched. *)
Theorem configure_persistence_verdict device (w : W) :
  let run := configure_persistence device w in
  exists r,
    In (EvSpawn (Shell (mount_boot_cmd (snd (fst (get_partition_names device)))))
          (Some 15) r) (trace_of run)
    /\ (exited_zero r = false ->
        result_of run = Ok false /\ written (trace_of run) = [])
    /\ (exited_zero r = true ->
        In (EvWrite (USB_BOOT ++ "/persistence.conf") ("/ union" ++ nl))
           (trace_of run)
        /\ exists rs,
             In (EvSpawn (Shell "sync") (Some SYNC_TIMEOUT) rs) (trace_of run)
             /\ (ran_to_completion rs = true -> result_of run = Ok true)
             /\ (ran_to_completion rs = false ->
                 exists e, result_of run = Raise e /\ is_Exception e = true)).
Proof.
  cbv zeta. unfold configure_persistence, mount_boot_cmd.
  destruct (get_partition_names device) as [[part1 part2] part3].
  cbn [fst snd].
  do 4 stage_step.
  rewrite truthy_required.
  match goal with
  | H : In (EvSpawn _ _ ?r) _ |- _ => exists r; destruct (exited_zero r) eqn:Hz
  end; cbn [negb].
  - stage_step.
    match goal with
    | |- context [bind (try_except ?m ?h ?k) ?f ?w0] =>
        destruct (write_block_run (USB_BOOT ++ "/persistence.conf")
                    ("/ union" ++ nl)
                    ("✅ Created: " ++ USB_BOOT ++ "/persistence.conf")
                    (fun e => "⚠️  Warning: Could not create persistence.conf: "
                              ++ str_of_exn e)
                    w0) as (tb & wb & Eb & _ & _ & Hconf & _);
        rewrite (bind_ok _ f w0 _ _ _ Eb); clear Eb
    end.
    cbn [result_of trace_of world_of fst snd].
    match goal with
    | |- context [bind (os_path_exists ?p) ?f ?w0] =>
        rewrite (bind_ok _ f w0 _ _ _ (exists_run p w0))
    end.
    cbn [result_of trace_of world_of fst snd].
    match goal with
    | |- context [bind (when ?b ?m) ?f ?w0] =>
        destruct (grub_block_run b w0) as (tg & wg & Eg & _);
        rewrite (bind_ok _ f w0 _ _ _ Eg); clear Eg
    end.
    cbn [result_of trace_of world_of fst snd].
    match goal with
    | |- context [bind sync ?f ?w0] =>
        destruct (sync_answer w0)
          as (rs & ts & ws & Hsync & _ & [[Hc Es]|[Hc (e & Es & He)]])
    end.
    + rewrite (bind_ok _ _ _ _ _ _ Es).
      cbn [result_of trace_of world_of fst snd].
      repeat stage_step. unfold ret. cbn [result_of trace_of world_of fst snd].
      split; [find_in|]. split; [discriminate|]. intros _.
      split; [find_in|]. exists rs. split; [find_in|].
      split; [reflexivity|]. rewrite Hc. discriminate.
    + rewrite (bind_raise _ _ _ _ _ _ Es).
      cbn [result_of trace_of world_of fst snd].
      split; [find_in|]. split; [discriminate|]. intros _.
      split; [find_in|]. exists rs. split; [find_in|].
      split; [rewrite Hc; discriminate|]. intros _. now exists e.
  - stage_step. unfold ret. cbn [result_of trace_of world_of fst snd].
    split; [find_in|]. split; [|discriminate]. intros _.
    split; [reflexivity|].
    rewrite !written_app.
    repeat match goal with
           | H : Forall (fun e => releasing e = true) _ |- _ =>
               apply releasing_written in H; destruct H as [H _]; rewrite H
           end.
    repeat match goal with H : written _ = _ |- _ => rewrite H; clear H end.
    reflexivity.
Qed.




End Persistence.

(** ** Validation of the image and device summary *)

Section ImageCheck.

Context {W : Type} {host : Host W}.


End ImageCheck.

Section DeviceSummary.

Context {W : Type} {host : Host W}.

(** A block under a bare [except: pass]. *)
Lemma try_pass_run (m : M W unit) (w : W) :
  try_except m any_exn (fun _ => ret tt) w
  = (Ok tt, trace_of (m w), world_of (m w)).
Proof.
  unfold try_except, any_exn, ret.
  destruct (m w) as [[[[]|e] t] w1]; cbn; [reflexivity|].
  now rewrite app_nil_r.
Qed.

Lemma show_device_info_run device (w : W) :
  exists t w',
    show_device_info device w = (Ok tt, t, w')
    /\ spawned t
       = [Shell ("blockdev --getsize64 " ++ device);
          Shell ("lsblk -o NAME,SIZE,TYPE,MOUNTPOINT " ++ device)].
Proof.
  unfold show_device_info.
  do 2 stage_step.
  match goal with
  | |- context [bind (try_except ?m _ _) ?f ?w0] =>
      rewrite (bind_ok _ f w0 _ _ _ (try_pass_run m w0))
  end.
  cbn [result_of trace_of world_of fst snd].
  match goal with
  | |- context [bind (try_except ?m _ _) ?f ?w0] =>
      rewrite (bind_ok _ f w0 _ _ _ (try_pass_run m w0))
  end.
  cbn [result_of trace_of world_of fst snd].
  unfold print at 1, emit at 1.
  cbn [result_of trace_of world_of fst snd].
  eexists _, _. split; [reflexivity|].
  rewrite !spawned_app. cbn [spawned app].
  assert (forall cmd (k : pyval -> M W unit) w0,
            (forall v w1, spawned (trace_of (k v w1)) = []) ->
            spawned (trace_of (bind (run_cmd cmd true true false (Some 10)) k w0))
            = [Shell cmd]) as Hq.
  { intros cmd k w0 Hk.
    destruct (run_cmd_ok cmd true true false (Some 10) w0)
      as (v & t & w1 & E & Hs & _).
    rewrite (bind_ok _ _ _ _ _ _ E). cbn [trace_of fst snd].
    now rewrite spawned_app, Hs, Hk. }
  rewrite !Hq; [reflexivity | |];
    intros v w1; unfold when;
    (destruct (truthy v); [|reflexivity]);
    destruct v as [s| |]; try reflexivity;
    destruct (int_of_string s); reflexivity.
Qed.

(** X19.  [show_device_info] never raises, whatever the two queries
    answer or print (an output that is not a number, a failure, a
    time-out): it launches exactly [blockdev --getsize64] and
    [lsblk -o NAME,SIZE,TYPE,MOUNTPOINT] on the device, in this order. *)
Theorem show_device_info_total device (w : W) :
  exists t w',
    show_device_info device w = (Ok tt, t, w')
    /\ spawned t
       = [Shell ("blockdev --getsize64 " ++ device);
          Shell ("lsblk -o NAME,SIZE,TYPE,MOUNTPOINT " ++ device)].
Proof. exact (show_device_info_run device w). Qed.

End DeviceSummary.

(** ** Requirements *)

Section Requirements.

Context {W : Type} {host : Host W}.

Lemma which_run tool (w : W) :
  shutil_which tool w
  = (Ok (fst (host_which tool w)), [], snd (host_which tool w)).
Proof. unfold shutil_which. now destruct (host_which tool w). Qed.

(** The search for missing tools never raises and launches nothing. *)
Lemma find_missing_run tools (w : W) :
  exists r t w',
    find_missing tools w = (Ok r, t, w')
    /\ spawned t = [].
Proof.
  revert w. induction tools as [|[tool package] rest IH]; intros w;
    cbn [find_missing].
  - eexists _, _, _. split; reflexivity.
  - rewrite (bind_ok _ _ _ _ _ _ (which_run tool w)). cbv beta.
    destruct (IH (snd (host_which tool w))) as (r & t & w' & E & Hs).
    destruct (fst (host_which tool w)).
    + rewrite bind_ret_l, (bind_ok _ _ _ _ _ _ E).
      cbn. eexists _, _, _. split; [reflexivity|].
      now rewrite app_nil_r.
    + rewrite (bind_ok (print _) _ _ tt [EvPrint _] _ eq_refl).
      cbv beta. rewrite (bind_ok _ _ _ _ _ _ E).
      cbn. eexists _, _, _. split; [reflexivity|].
      cbn [spawned]. now rewrite spawned_app, Hs.
Qed.

Lemma check_requirements_run (w : W) :
  exists t w',
    (check_requirements w = (Ok tt, t, w')
     \/ (check_requirements w = (Raise (SystemExit 1), t, w')
         /\ In "❌ Failed to install btrfs-progs. Please install manually:"
               (printed t)))
    /\ (spawned t = []
        \/ exists packages,
             spawned t = [Shell "apt-get update -qq";
                          Shell ("apt-get install -y " ++ packages)]).
Proof.
  unfold check_requirements.
  stage_step.
  destruct (find_missing_run required w) as (r & t & w1 & E & Hs).
  rewrite (bind_ok _ _ _ _ _ _ E). cbv beta.
  cbn [result_of trace_of world_of fst snd].
  destruct (fst r) as [|tool missing].
  - unfold print, emit. cbn [result_of trace_of world_of fst snd].
    eexists _, _. split; [left; reflexivity|]. left.
    now rewrite !spawned_app, Hs.
  - do 3 stage_step.
    match goal with
    | |- context [bind (shutil_which ?tool) ?f ?w0] =>
        rewrite (bind_ok _ f w0 _ _ _ (which_run tool w0))
    end.
    cbn [result_of trace_of world_of fst snd].
    match goal with
    | |- context [host_which ?tool ?w0] => destruct (host_which tool w0) as [found w2]
    end.
    cbn [fst snd]. destruct found; cbn [negb].
    + unfold ret. cbn [result_of trace_of world_of fst snd].
      eexists _, _. split; [left; reflexivity|]. right.
      rewrite !spawned_app, Hs.
      repeat match goal with H : spawned _ = _ |- _ => rewrite H; clear H end.
      eexists. reflexivity.
    + do 2 stage_step. unfold sys_exit, raise.
      cbn [result_of trace_of world_of fst snd].
      eexists _, _. split.
      * right. split; [reflexivity|].
        rewrite !printed_app. cbn [printed]. find_in.
      * right. rewrite !spawned_app, Hs.
        repeat match goal with H : spawned _ = _ |- _ => rewrite H; clear H end.
        eexists. reflexivity.
Qed.

(** X20.  [check_requirements] either returns or exits with status 1,
    and it exits only after it reported that [btrfs-progs] could not be
    installed.  The only commands it ever launches are [apt-get update]
    and one [apt-get install], in this order. *)
Theorem check_requirements_outcome (w : W) :
  exists t w',
    (check_requirements w = (Ok tt, t, w')
     \/ (check_requirements w = (Raise (SystemExit 1), t, w')
         /\ In "❌ Failed to install btrfs-progs. Please install manually:"
               (printed t)))
    /\ (spawned t = []
        \/ exists packages,
             spawned t = [Shell "apt-get update -qq";
                          Shell ("apt-get install -y " ++ packages)]).
Proof. exact (check_requirements_run w). Qed.

Variable Inv : W -> Prop.
Hypothesis Inv_which : forall tool w, Inv w -> Inv (snd (host_which tool w)).
Hypothesis Inv_spawn :
  forall c timeout w, Inv w -> Inv (snd (host_spawn c timeout w)).



End Requirements.


(** ** Ways out by an exception *)

Section Failures.

Context {W : Type} {host : Host W}.

















End Failures.


Section StageFailures.

Context {W : Type} {host : Host W}.




End StageFailures.

Section MainFailures.

Context {W : Type} {host : Host W}.













End MainFailures.

Section EarlyExits.

Context {W : Type} {host : Host W}.

(** X25.  With a wrong number of arguments [main] only prints the banner
    and the usage text and exits with status 1: the host is left as it
    was (nothing is looked up, read or launched). *)
Theorem main_usage argv (w : W) :
  List.length argv <> 3%nat ->
  result_of (main argv w) = Raise (SystemExit 1)
  /\ world_of (main argv w) = w
  /\ Forall (fun e => exists s, e = EvPrint s) (trace_of (main argv w)).
Proof.
  intros Hlen.
  assert (forall w0 : W,
            result_of ((print_usage ;; sys_exit (A := unit) 1)%py w0)
            = Raise (SystemExit 1)
            /\ world_of ((print_usage ;; sys_exit (A := unit) 1)%py w0) = w0
            /\ Forall (fun e => exists s, e = EvPrint s)
                 (trace_of ((print_usage ;; sys_exit (A := unit) 1)%py w0)))
    as Husage.
  { intros w0. unfold print_usage, sys_exit, raise, bind, print, emit.
    cbn [result_of trace_of world_of fst snd app].
    split; [reflexivity|]. split; [reflexivity|].
    repeat constructor; eexists; reflexivity. }
  unfold main. do 4 stage_step.
  destruct argv as [|prog [|iso_path [|device [|extra rest]]]];
    try (exfalso; apply Hlen; reflexivity);
    destruct (Husage w) as (Hr & Hw & Ht); rewrite Hr, Hw;
    (split; [reflexivity|]); (split; [reflexivity|]);
    forall_pieces; first [exact Ht | eexists; reflexivity].
Qed.

(** X26.  When the process does not run as root, [main] stops right after
    looking up the effective user id: it prints the request for root
    rights and exits with status 1, and the host has seen no other
    operation (neither image nor device was looked up, nothing was
    launched). *)
Theorem main_not_root prog iso_path device (w : W) :
  fst (host_geteuid w) <> 0 ->
  result_of (main [prog; iso_path; device] w) = Raise (SystemExit 1)
  /\ world_of (main [prog; iso_path; device] w) = snd (host_geteuid w)
  /\ spawned (trace_of (main [prog; iso_path; device] w)) = []
  /\ In "❌ This script must be run as root (use sudo)"
        (printed (trace_of (main [prog; iso_path; device] w))).
Proof.
  intros Huid.
  assert (check_root w
          = (Raise (SystemExit 1),
             [EvPrint "❌ This script must be run as root (use sudo)"],
             snd (host_geteuid w))) as E.
  { unfold check_root, os_geteuid, sys_exit, raise, bind, print, emit.
    destruct (host_geteuid w) as [uid w1]. cbn [fst snd] in *.
    destruct (Z.eqb_spec uid 0) as [->|_]; [contradiction | reflexivity]. }
  unfold main. do 4 stage_step.
  rewrite (bind_raise _ _ _ _ _ _ E).
  cbn [result_of trace_of world_of fst snd app spawned printed].
  split; [reflexivity|]. split; [reflexivity|]. split; [reflexivity|].
  right. right. right. right. now left.
Qed.

End EarlyExits.

Lemma main_usage_witness :
  result_of (main ["persistent_usb.py"; "debian.iso"] Scenario.w_quiet)
  = Raise (SystemExit 1)
  /\ world_of (main ["persistent_usb.py"; "debian.iso"] Scenario.w_quiet)
     = Scenario.w_quiet
  /\ Forall (fun e => exists s, e = EvPrint s)
       (trace_of (main ["persistent_usb.py"; "debian.iso"] Scenario.w_quiet)).
Proof.
  apply (main_usage ["persistent_usb.py"; "debian.iso"] Scenario.w_quiet).
  simpl. lia.
Defined.

Lemma main_not_root_witness :
  result_of (main ["persistent_usb.py"; "debian.iso"; "/dev/sdb"]
               ScenarioExit.w_not_root) = Raise (SystemExit 1)
  /\ world_of (main ["persistent_usb.py"; "debian.iso"; "/dev/sdb"]
                 ScenarioExit.w_not_root)
     = snd (host_geteuid ScenarioExit.w_not_root)
  /\ spawned (trace_of (main ["persistent_usb.py"; "debian.iso"; "/dev/sdb"]
                          ScenarioExit.w_not_root)) = []
  /\ In "❌ This script must be run as root (use sudo)"
        (printed (trace_of (main ["persistent_usb.py"; "debian.iso"; "/dev/sdb"]
                              ScenarioExit.w_not_root))).
Proof.
  apply (main_not_root "persistent_usb.py" "debian.iso" "/dev/sdb"
           ScenarioExit.w_not_root).
  simpl. lia.
Defined.

(** ** Scenarios *)


Lemma install_bootloader_unchecked_witness :
  exists r_bios r_esp,
    In (EvSpawn (Shell (grub_bios_cmd "/dev/sdb")) (Some 60) r_bios)
       (trace_of (install_bootloader "/dev/sdb" ScenarioStages.w_grub_fails))
    /\ In (if ran_to_completion r_bios then "✅ GRUB installed for BIOS boot"
           else "⚠️  GRUB BIOS installation had issues (may still work)")
          (printed (trace_of (install_bootloader "/dev/sdb"
                                ScenarioStages.w_grub_fails)))
    /\ In (EvSpawn (Shell (mount_esp_cmd
                             (fst (fst (get_partition_names "/dev/sdb")))))
             (Some 15) r_esp)
          (trace_of (install_bootloader "/dev/sdb" ScenarioStages.w_grub_fails))
    /\ (ran_to_completion r_esp = true ->
        In (Shell (grub_uefi_cmd "/dev/sdb"))
           (spawned (trace_of (install_bootloader "/dev/sdb"
                                 ScenarioStages.w_grub_fails)))).
Proof.
  apply (install_bootloader_unchecked "/dev/sdb" ScenarioStages.w_grub_fails).
  vm_compute. reflexivity.
Defined.





(** ** Mount manager: the partitions of the device *)

Section ListedPartitions.

Context {W : Type} {host : Host W}.

Lemma lazy_loop_run (parts : list string) (w : W) :
  exists t w',
    for_each parts (fun part =>
      when (nonempty (strip part))
        (run_cmd (umount_lazy_cmd ("/dev/" ++ strip part))
                 false false true (Some 5) ;;
         ret tt)) w = (Ok tt, t, w')
    /\ forall part, In part parts -> nonempty (strip part) = true ->
         In (Shell (umount_lazy_cmd ("/dev/" ++ strip part))) (spawned t).
Proof.
  revert w. induction parts as [|p parts IH]; intros w; cbn [for_each].
  - eexists _, _. split; [reflexivity|]. intros part [].
  - assert (exists t1 w1,
              when (nonempty (strip p))
                (run_cmd (umount_lazy_cmd ("/dev/" ++ strip p))
                         false false true (Some 5) ;; ret tt) w
              = (Ok tt, t1, w1)
              /\ (nonempty (strip p) = true ->
                  In (Shell (umount_lazy_cmd ("/dev/" ++ strip p)))
                     (spawned t1))) as (t1 & w1 & E1 & H1).
    { unfold when. destruct (nonempty (strip p)).
      - destruct (run_cmd_ok (umount_lazy_cmd ("/dev/" ++ strip p))
                    false false true (Some 5) w) as (v & t & w' & E & Hs & _).
        rewrite (bind_ok _ _ _ _ _ _ E). cbn.
        eexists _, _. split; [reflexivity|]. intros _.
        rewrite app_nil_r, Hs. now left.
      - eexists _, _. split; [reflexivity | discriminate]. }
    destruct (IH w1) as (t2 & w2 & E2 & H2).
    rewrite (bind_ok _ _ _ _ _ _ E1), E2.
    cbn [result_of trace_of world_of fst snd].
    eexists _, _. split; [reflexivity|].
    intros part [<-|Hin] Hne; rewrite spawned_app; apply in_or_app.
    + left. now apply H1.
    + right. now apply H2.
Qed.

(** X27.  [unmount_all] asks [lsblk] for the partitions of the device
    and, when that command exits with status 0, launches a lazy unmount
    of [/dev/<name>] for every non-blank line of its output. *)
Theorem unmount_all_unmounts_listed device (w : W) :
  exists r,
    In (EvSpawn (Shell (lsblk_names_cmd device)) (Some 10) r)
       (trace_of (unmount_all device w))
    /\ forall out err part,
         r = Exited 0 out err ->
         In part (split_on "010"%char (strip out)) ->
         nonempty (strip part) = true ->
         In (Shell (umount_lazy_cmd ("/dev/" ++ strip part)))
            (spawned (trace_of (unmount_all device w))).
Proof.
  unfold unmount_all.
  total_step (total_print (W := W)
                (nl ++ "🔍 Unmounting all partitions on " ++ device ++ "..." ++ nl)).
  total_step (total_for_each_fuser (W := W)).
  total_step (total_sleep (W := W) 1000).
  total_step (total_for_each_force_unmount (W := W)).
  match goal with
  | |- context [bind (try_except ?m _ _) ?f ?w0] =>
      rewrite (bind_ok _ f w0 _ _ _ (try_pass_run m w0))
  end.
  cbn [result_of trace_of world_of fst snd].
  match goal with
  | |- context [bind (run_cmd ?c ?a ?b ?d ?t) ?k ?w0] =>
      destruct (run_cmd_answer c a b d t w0)
        as (r & tr & wr & Er & Hsr & Hinr & _);
      rewrite (bind_ok _ k w0 _ _ _ Er); clear Er
  end.
  cbn [result_of trace_of world_of fst snd].
  exists r. split; [find_in|].
  intros out err part -> Hin Hne.
  cbn [run_cmd_value orb Z.eqb].
  unfold when at 1.
  assert (nonempty (strip out) = true) as ->.
  { destruct (strip out); [|reflexivity].
    destruct Hin as [<-|[]]. discriminate Hne. }
  match goal with
  | |- context [for_each ?parts ?body ?w0] =>
      destruct (lazy_loop_run parts w0) as (tl & wl & El & Hl)
  end.
  rewrite El. cbn [result_of trace_of world_of fst snd].
  rewrite !spawned_app.
  apply in_or_app. right. apply in_or_app. right. apply in_or_app. right.
  apply in_or_app. right. apply in_or_app. left.
  apply in_or_app. right. now apply Hl.
Qed.

End ListedPartitions.

(** ** Order of the stages *)

Lemma release_not_destructive c :
  release_family c = true -> destructive c = false.
Proof.
  destruct c as [s|l]; [|reflexivity].
  unfold release_family, destructive.
  rewrite !orb_true_iff.
  intros [[[H|H]|H]|H]; apply prefix_iff in H as [rest ->]; reflexivity.
Qed.

Lemma split_after (l pre post rest : list command) c :
  (pre ++ c :: post = l ++ rest)%list -> ~ In c l ->
  exists pre', pre = (l ++ pre')%list.
Proof.
  revert pre. induction l as [|x l IH]; intros pre E Hn.
  - now exists pre.
  - destruct pre as [|y pre]; cbn in E.
    + injection E as -> _. exfalso. apply Hn. now left.
    + injection E as -> E.
      destruct (IH pre E) as [pre' ->]; [intros H; apply Hn; now right|].
      now exists pre'.
Qed.

Section StageOrder.

Context {W : Type} {host : Host W}.

(** X28.  In every run of [pipeline], a command that rewrites the
    partition table or a file system ([wipefs], [dd], [parted],
    [mkfs.*]) is only launched after [unmount_all] has run to its end:
    the lazy sweep of the device has been launched before it. *)
Theorem pipeline_unmounts_first iso_path device (w : W) pre c post :
  spawned (trace_of (pipeline iso_path device w)) = (pre ++ c :: post)%list ->
  destructive c = true ->
  In (sweep_cmd device) pre.
Proof.
  intros Hsp Hd. unfold pipeline in Hsp.
  destruct (check_requirements_run w) as (t1 & w1 & Hreq & Hcmds).
  assert (Forall (fun x => destructive x = false) (spawned t1)) as Hn1.
  { destruct Hcmds as [->|[packages ->]]; repeat constructor. }
  destruct Hreq as [E1|[E1 _]].
  2:{ rewrite (bind_raise _ _ _ _ _ _ E1) in Hsp. cbn [trace_of fst snd] in Hsp.
      rewrite Hsp in Hn1. apply Forall_app in Hn1 as [_ Hn1].
      inversion Hn1; congruence. }
  rewrite (bind_ok _ _ _ _ _ _ E1) in Hsp. cbv beta in Hsp.
  destruct (unmount_all_run device w1) as (t2 & w2 & E2 & Hrel).
  destruct (unmount_all_sweep_last device w1) as (pre2 & out & Hlast & _).
  rewrite E2 in Hlast. cbn [trace_of fst snd] in Hlast.
  rewrite (bind_ok _ _ _ _ _ _ E2) in Hsp. cbv beta in Hsp.
  cbn [result_of trace_of world_of fst snd] in Hsp.
  rewrite !spawned_app, app_assoc in Hsp.
  assert (~ In c (spawned t1 ++ spawned t2)) as Hnot.
  { intros Hin. apply in_app_or in Hin as [Hin|Hin].
    - rewrite Forall_forall in Hn1. rewrite (Hn1 c Hin) in Hd. discriminate.
    - unfold launches_only in Hrel. rewrite Forall_forall in Hrel.
      rewrite (release_not_destructive c (Hrel c Hin)) in Hd. discriminate. }
  symmetry in Hsp.
  destruct (split_after _ _ _ _ _ Hsp Hnot) as [pre' ->].
  rewrite Hlast. unfold sweep_cmd.
  apply in_or_app. left. apply in_or_app. right.
  apply in_or_app. right. now left.
Qed.

End StageOrder.

Lemma pipeline_unmounts_first_witness :
  In (sweep_cmd "/dev/sdb")
     (firstn 2 (spawned (trace_of (pipeline "debian.iso" "/dev/sdb"
                                      Scenario.w_quiet)))).
Proof.
  apply (pipeline_unmounts_first "debian.iso" "/dev/sdb" Scenario.w_quiet
           (firstn 2 (spawned (trace_of (pipeline "debian.iso" "/dev/sdb"
                                            Scenario.w_quiet))))
           (Shell "wipefs -af /dev/sdb 2>/dev/null")
           (skipn 3 (spawned (trace_of (pipeline "debian.iso" "/dev/sdb"
                                           Scenario.w_quiet))))).
  - vm_compute. reflexivity.
  - reflexivity.
Defined.

(** ** The update of the boot configuration *)

Lemma contains_cons sub c s :
  contains sub (String c s)
  = String.prefix sub (String c s) || contains sub s.
Proof.
  unfold contains. cbn [String.index].
  destruct (String.prefix sub (String c s)); [reflexivity|].
  now destruct (String.index 0 sub s).
Qed.

Lemma prefix_app_l sub a b :
  String.prefix sub a = true -> String.prefix sub (a ++ b) = true.
Proof.
  intros H. apply prefix_iff in H as [rest ->].
  apply prefix_iff. exists (rest ++ b).
  clear. induction sub as [|c sub IH]; [reflexivity|].
  simpl. now rewrite IH.
Qed.

Lemma contains_app_l sub a b :
  sub <> "" -> contains sub a = true -> contains sub (a ++ b) = true.
Proof.
  intros Hne. induction a as [|c a IH].
  - unfold contains. simpl. destruct sub; [contradiction | discriminate].
  - rewrite contains_cons. intros H. apply orb_true_iff in H as [H|H].
    + change (String c a ++ b) with (String c (a ++ b)).
      rewrite contains_cons.
      change (String c (a ++ b)) with (String c a ++ b).
      now rewrite (prefix_app_l _ _ _ H).
    + change (String c a ++ b) with (String c (a ++ b)).
      rewrite contains_cons, (IH H). apply orb_true_r.
Qed.

(** X29.  What the update of [grub.cfg] does to its content.  When the
    content has a [boot=live] entry, the new content mentions persistence,
    so that a later run leaves the file alone; when it has none, the
    replacement changes nothing: the file is written back as it was. *)
Theorem grub_update_effect old :
  (contains "boot=live" old = true ->
   contains "persistence"
     (replace "boot=live"
        ("boot=live " ++ "persistence persistence-storage=btrfs,ext4") old)
   = true)
  /\ (contains "boot=live" old = false ->
      replace "boot=live"
        ("boot=live " ++ "persistence persistence-storage=btrfs,ext4") old
      = old).
Proof.
  unfold replace. split.
  - induction old as [|c s IH]; [discriminate|].
    rewrite contains_cons. cbn [replace_from].
    destruct (String.prefix "boot=live" (String c s)) eqn:Hp; cbn [orb].
    + intros _. apply contains_app_l; [discriminate | reflexivity].
    + intros H. rewrite contains_cons, (IH H). apply orb_true_r.
  - induction old as [|c s IH]; [reflexivity|].
    rewrite contains_cons. cbn [replace_from].
    destruct (String.prefix "boot=live" (String c s)) eqn:Hp; cbn [orb];
      [discriminate|].
    intros H. now rewrite (IH H).
Qed.

Lemma grub_update_effect_witness :
  contains "persistence"
    (replace "boot=live"
       ("boot=live " ++ "persistence persistence-storage=btrfs,ext4")
       "linux /live/vmlinuz boot=live quiet")
  = true.
Proof.
  apply (proj1 (grub_update_effect "linux /live/vmlinuz boot=live quiet")).
  reflexivity.
Defined.
